(** * Task service: store, cache and lifecycle operations

    A shallow embedding of [app/models], [app/schemas/task.py],
    [app/services/task_service.py] and [app/api/v1/tasks.py].

    - The relational store is a record of tables; a table is the list of its
      rows, in insertion order.  The database that hands out primary keys is
      not part of the sources: a per-table sequence stands for it, from which
      an INSERT takes the next value.  Results say which key a new row takes
      relative to its sequence; none says that keys are never given out
      again.
    - A request runs in one transaction: the operations work on a [Session]
      (the rows as the open transaction sees them, plus what the unit of work
      has not flushed yet) and the store is replaced at [commit] only.  An
      exception leaves store and cache as they were.
    - Time is an integer number of microseconds (the resolution of
      [datetime]); every operation receives the instant [now] at which it
      runs.
    - The mapping is read as its tables, foreign keys and cascades declare
      it: [Task.tags] and [Tag.tasks] are the two sides of the association
      table [task_tags]. *)

From stdpp Require Import base decidable option list gmap strings pretty.
From Stdlib Require Import ZArith Lia Sorting.Sorted.

Local Open Scope string_scope.
Local Open Scope list_scope.
Local Open Scope Z_scope.

(** ** Time *)

Definition seconds (n : Z) : Z := n * 1000000.
(** [timedelta(days=n)] *)
Definition timedelta_days (n : Z) : Z := seconds (n * 86400).

(** ** app/models: enumerations *)

Inductive TaskStatus := TODO | IN_PROGRESS | IN_REVIEW | DONE | BLOCKED.
Inductive TaskPriority := LOW | MEDIUM | HIGH | URGENT.
Inductive UserRole := ADMIN | MANAGER | MEMBER.

#[global] Instance TaskStatus_eq_dec : EqDecision TaskStatus.
Proof. solve_decision. Defined.
#[global] Instance TaskPriority_eq_dec : EqDecision TaskPriority.
Proof. solve_decision. Defined.
#[global] Instance UserRole_eq_dec : EqDecision UserRole.
Proof. solve_decision. Defined.

(** ** Python values that travel through [update_task]

    The values of [TaskUpdate.dict(exclude_unset=True)] and of the task
    attributes they are compared with. *)

Inductive PyVal :=
| PNone
| PStr (s : string)
| PStatus (s : TaskStatus)
| PPriority (p : TaskPriority)
| PDatetime (t : Z)
| PIntList (l : list Z)
| PStrList (l : list string).

#[global] Instance PyVal_eq_dec : EqDecision PyVal.
Proof. solve_decision. Defined.

(** The text columns of [TaskHistory] hold [str(v)] of a value, or a string
    built by the code.  [str] is kept symbolic: [Str v] stands for the text
    Python prints for [v]. *)
Inductive Text :=
| Str (v : PyVal)
| Lit (s : string).

#[global] Instance Text_eq_dec : EqDecision Text.
Proof. solve_decision. Defined.

Definition of_option {A} (inj : A -> PyVal) (o : option A) : PyVal :=
  match o with Some a => inj a | None => PNone end.

(** ** app/models: rows *)

Module User.
Record t := mk {
  id : Z;
  email : string;
  username : string;
  hashed_password : string;
  full_name : option string;
  role : UserRole;
  is_active : bool;
  created_at : Z
}.
End User.

Module Task.
Record t := mk {
  id : Z;
  title : option string;          (* nullable=False, checked at flush *)
  description : option string;
  status : option TaskStatus;     (* nullable, default TODO on insert *)
  priority : option TaskPriority; (* nullable, default MEDIUM on insert *)
  due_date : option Z;
  created_at : Z;
  updated_at : Z;                 (* default utcnow, onupdate utcnow *)
  creator_id : Z;
  parent_task_id : option Z
}.
End Task.

Module TaskAssignment.
Record t := mk {
  id : Z;
  task_id : Z;
  user_id : Z;
  assigned_at : Z
}.
End TaskAssignment.

Module TaskDependency.
Record t := mk {
  id : Z;
  task_id : Z;
  depends_on_task_id : Z;
  created_at : Z
}.
End TaskDependency.

Module Tag.
Record t := mk {
  id : Z;
  name : string      (* unique=True *)
}.
End Tag.

Module TaskHistory.
Record t := mk {
  id : Z;
  task_id : Z;
  user_id : Z;
  field_changed : string;
  old_value : Text;
  new_value : Text;
  changed_at : Z
}.
End TaskHistory.

#[global] Instance User_eq_dec : EqDecision User.t.
Proof. solve_decision. Defined.
#[global] Instance Task_eq_dec : EqDecision Task.t.
Proof. solve_decision. Defined.
#[global] Instance TaskAssignment_eq_dec : EqDecision TaskAssignment.t.
Proof. solve_decision. Defined.
#[global] Instance TaskDependency_eq_dec : EqDecision TaskDependency.t.
Proof. solve_decision. Defined.
#[global] Instance Tag_eq_dec : EqDecision Tag.t.
Proof. solve_decision. Defined.
#[global] Instance TaskHistory_eq_dec : EqDecision TaskHistory.t.
Proof. solve_decision. Defined.

(** ** The persistent store *)

Record Store := mkStore {
  users : list User.t;
  tasks : list Task.t;
  task_assignments : list TaskAssignment.t;
  task_dependencies : list TaskDependency.t;
  tags : list Tag.t;
  task_tags : list (Z * Z);        (* association table: (task_id, tag_id) *)
  task_history : list TaskHistory.t;
  next_task_id : Z;
  next_assignment_id : Z;
  next_dependency_id : Z;
  next_tag_id : Z;
  next_history_id : Z
}.

Definition empty_store : Store :=
  mkStore [] [] [] [] [] [] [] 1 1 1 1 1.

Definition set_tasks (f : list Task.t -> list Task.t) (s : Store) : Store :=
  mkStore (users s) (f (tasks s)) (task_assignments s) (task_dependencies s)
    (tags s) (task_tags s) (task_history s) (next_task_id s)
    (next_assignment_id s) (next_dependency_id s) (next_tag_id s)
    (next_history_id s).

Definition set_task_assignments
    (f : list TaskAssignment.t -> list TaskAssignment.t) (s : Store) : Store :=
  mkStore (users s) (tasks s) (f (task_assignments s)) (task_dependencies s)
    (tags s) (task_tags s) (task_history s) (next_task_id s)
    (next_assignment_id s) (next_dependency_id s) (next_tag_id s)
    (next_history_id s).

Definition set_task_dependencies
    (f : list TaskDependency.t -> list TaskDependency.t) (s : Store) : Store :=
  mkStore (users s) (tasks s) (task_assignments s) (f (task_dependencies s))
    (tags s) (task_tags s) (task_history s) (next_task_id s)
    (next_assignment_id s) (next_dependency_id s) (next_tag_id s)
    (next_history_id s).

Definition set_tags (f : list Tag.t -> list Tag.t) (s : Store) : Store :=
  mkStore (users s) (tasks s) (task_assignments s) (task_dependencies s)
    (f (tags s)) (task_tags s) (task_history s) (next_task_id s)
    (next_assignment_id s) (next_dependency_id s) (next_tag_id s)
    (next_history_id s).

Definition set_task_tags (f : list (Z * Z) -> list (Z * Z)) (s : Store) : Store :=
  mkStore (users s) (tasks s) (task_assignments s) (task_dependencies s)
    (tags s) (f (task_tags s)) (task_history s) (next_task_id s)
    (next_assignment_id s) (next_dependency_id s) (next_tag_id s)
    (next_history_id s).

Definition set_task_history
    (f : list TaskHistory.t -> list TaskHistory.t) (s : Store) : Store :=
  mkStore (users s) (tasks s) (task_assignments s) (task_dependencies s)
    (tags s) (task_tags s) (f (task_history s)) (next_task_id s)
    (next_assignment_id s) (next_dependency_id s) (next_tag_id s)
    (next_history_id s).

Definition bump_task_id (s : Store) : Store :=
  mkStore (users s) (tasks s) (task_assignments s) (task_dependencies s)
    (tags s) (task_tags s) (task_history s) (next_task_id s + 1)
    (next_assignment_id s) (next_dependency_id s) (next_tag_id s)
    (next_history_id s).

Definition bump_assignment_id (s : Store) : Store :=
  mkStore (users s) (tasks s) (task_assignments s) (task_dependencies s)
    (tags s) (task_tags s) (task_history s) (next_task_id s)
    (next_assignment_id s + 1) (next_dependency_id s) (next_tag_id s)
    (next_history_id s).

Definition bump_dependency_id (s : Store) : Store :=
  mkStore (users s) (tasks s) (task_assignments s) (task_dependencies s)
    (tags s) (task_tags s) (task_history s) (next_task_id s)
    (next_assignment_id s) (next_dependency_id s + 1) (next_tag_id s)
    (next_history_id s).

Definition bump_tag_id (s : Store) : Store :=
  mkStore (users s) (tasks s) (task_assignments s) (task_dependencies s)
    (tags s) (task_tags s) (task_history s) (next_task_id s)
    (next_assignment_id s) (next_dependency_id s) (next_tag_id s + 1)
    (next_history_id s).

Definition bump_history_id (s : Store) : Store :=
  mkStore (users s) (tasks s) (task_assignments s) (task_dependencies s)
    (tags s) (task_tags s) (task_history s) (next_task_id s)
    (next_assignment_id s) (next_dependency_id s) (next_tag_id s)
    (next_history_id s + 1).

(** ** Schemas (app/schemas/task.py) *)

Record TaskCreate := mkTaskCreate {
  tc_title : string;
  tc_description : option string;
  tc_status : TaskStatus;
  tc_priority : TaskPriority;
  tc_due_date : option Z;
  tc_parent_task_id : option Z;
  tc_assignee_ids : list Z;
  tc_tag_names : list string;
  tc_dependency_ids : list Z
}.

(** The fields of [TaskUpdate], in declaration order. *)
Inductive Field :=
| F_title | F_description | F_status | F_priority | F_due_date
| F_assignee_ids | F_tag_names.

#[global] Instance Field_eq_dec : EqDecision Field.
Proof. solve_decision. Defined.

Definition field_name (f : Field) : string :=
  match f with
  | F_title => "title"
  | F_description => "description"
  | F_status => "status"
  | F_priority => "priority"
  | F_due_date => "due_date"
  | F_assignee_ids => "assignee_ids"
  | F_tag_names => "tag_names"
  end.

(** A field of [TaskUpdate] is unset ([None]), set to null ([Some None]) or
    set to a value ([Some (Some v)]). *)
Record TaskUpdate := mkTaskUpdate {
  tu_title : option (option string);
  tu_description : option (option string);
  tu_status : option (option TaskStatus);
  tu_priority : option (option TaskPriority);
  tu_due_date : option (option Z);
  tu_assignee_ids : option (option (list Z));
  tu_tag_names : option (option (list string))
}.

Definition item {A} (f : Field) (inj : A -> PyVal) (o : option (option A))
  : list (Field * PyVal) :=
  match o with
  | None => []
  | Some v => [(f, of_option inj v)]
  end.

(** [task_data.dict(exclude_unset=True).items()] *)
Definition dict_exclude_unset (d : TaskUpdate) : list (Field * PyVal) :=
  item F_title PStr (tu_title d) ++
  item F_description PStr (tu_description d) ++
  item F_status PStatus (tu_status d) ++
  item F_priority PPriority (tu_priority d) ++
  item F_due_date PDatetime (tu_due_date d) ++
  item F_assignee_ids PIntList (tu_assignee_ids d) ++
  item F_tag_names PStrList (tu_tag_names d).

Record TaskBulkUpdate := mkTaskBulkUpdate {
  bu_task_ids : list Z;
  bu_status : option TaskStatus;
  bu_priority : option TaskPriority;
  bu_assignee_ids : option (list Z)
}.

Record TaskFilterRequest := mkTaskFilterRequest {
  fr_status : option (list TaskStatus);
  fr_priority : option (list TaskPriority);
  fr_assignee_ids : option (list Z);
  fr_tags : option (list string);
  fr_due_date_from : option Z;
  fr_due_date_to : option Z;
  fr_created_after : option Z;
  fr_logic : string
}.

(** The dashboard dictionary built by [get_analytics]. *)
Record UserDistribution := mkUserDistribution {
  ud_username : string;
  ud_email : string;
  ud_total_tasks : Z;
  ud_overdue_tasks : Z
}.

Record Analytics := mkAnalytics {
  total_tasks : Z;
  tasks_by_status : list (Text * Z);
  tasks_by_priority : list (Text * Z);
  overdue_tasks : Z;
  user_task_distribution : list UserDistribution
}.

#[global] Instance UserDistribution_eq_dec : EqDecision UserDistribution.
Proof. solve_decision. Defined.
#[global] Instance Analytics_eq_dec : EqDecision Analytics.
Proof. solve_decision. Defined.

(** ** The cache store *)

(** JSON documents written to the cache.  [json.loads (json.dumps d)] is [d]
    for the two shapes the service writes, so the document stands for its
    serialisation. *)
Inductive Json :=
| JString (s : string)
| JDashboard (a : Analytics).

(** Modelled from the spec: [app.db.redis_client] ([get_redis]) is not among
    the sources.  Section 6, Cache Store contract: [get(key)] gives the bytes
    or absent, [set(key, bytes, ttlSeconds)] stores with an expiry,
    [delete(key)] removes.  An entry is kept with the instant at which it
    expires and is absent from that instant on. *)
Module Redis.
Definition get (key : string) (now : Z) (r : gmap string (Z * Json))
  : option Json :=
  match r !! key with
  | Some (expires, v) => if decide (now < expires) then Some v else None
  | None => None
  end.

Definition setex (key : string) (ttl : Z) (v : Json) (now : Z)
    (r : gmap string (Z * Json)) : gmap string (Z * Json) :=
  <[key := (now + seconds ttl, v)]> r.

Definition delete (key : string) (r : gmap string (Z * Json))
  : gmap string (Z * Json) :=
  base.delete key r.
End Redis.

(** Store and cache together: what a request runs against.

    [app.db.base] (the engine and the session factory behind [get_db]) is not
    among the sources, so whether its sessions flush before each query is left
    open: [autoflush] is a field of the world, fixed for its lifetime, and the
    results below hold for both settings. *)
Record World := mkWorld {
  autoflush : bool;
  db : Store;
  redis : gmap string (Z * Json)
}.

(** ** Exceptions and outcomes *)

Inductive Exn :=
| AttributeError (attr : string)
| IntegrityError
| ObjectDeletedError
| HTTPException (status_code : Z) (detail : string)
| RequestValidationError
| StatementError.

#[global] Instance Exn_eq_dec : EqDecision Exn.
Proof. solve_decision. Defined.

Inductive Outcome (A : Type) :=
| Returned (a : A)
| Raised (e : Exn).
Arguments Returned {A} a.
Arguments Raised {A} e.

Definition HTTP_404_NOT_FOUND : Z := 404.
Definition HTTP_400_BAD_REQUEST : Z := 400.

(** ** The session: one open transaction

    [work] holds the rows as the transaction sees them.  [new_tags] are the
    [Tag] objects added with [db.add] whose INSERT has not been emitted yet;
    [dirty] lists the task columns assigned since the last flush. *)
Record Session := mkSession {
  work : Store;
  new_tags : list Tag.t;
  dirty : list (Z * string)
}.

Definition begin (s : Store) : Session := mkSession s [] [].

Definition M (A : Type) : Type := Session -> Exn + (A * Session).

Definition ret {A} (a : A) : M A := fun s => inr (a, s).
Definition raise {A} (e : Exn) : M A := fun _ => inl e.
Definition bind {A B} (m : M A) (k : A -> M B) : M B :=
  fun s => match m s with
           | inl e => inl e
           | inr (a, s') => k a s'
           end.
Definition modify (f : Store -> Store) : M unit :=
  fun s => inr (tt, mkSession (f (work s)) (new_tags s) (dirty s)).
Definition gets {A} (f : Store -> A) : M A :=
  fun s => inr (f (work s), s).

Notation "'let*' x := m 'in' k" := (bind m (fun x => k))
  (at level 10, x name, m at level 100, k at level 200,
   format "'[v' 'let*'  x  :=  m  'in' '/' k ']'").
Notation "m ;; k" := (bind m (fun _ => k))
  (at level 100, k at level 200, right associativity).

(** [for x in xs: body x] *)
Fixpoint for_each {A} (xs : list A) (body : A -> M unit) : M unit :=
  match xs with
  | [] => ret tt
  | x :: rest => body x;; for_each rest body
  end.

(** ** Unit of work

    NOT NULL and UNIQUE are checked when a statement is emitted, that is, at a
    flush.  Foreign keys are declared in the models but nothing in this layer
    validates them (spec, section 4.1), and they are not checked here. *)

(** An UPDATE that sets [tasks.title] to NULL is waiting. *)
Definition title_null_pending (s : Session) : bool :=
  existsb (fun t => bool_decide ((Task.id t, "title") ∈ dirty s)
                    && bool_decide (Task.title t = None))
          (tasks (work s)).

(** [onupdate=datetime.utcnow]: applied to the rows an UPDATE is emitted
    for, which are the rows with an assigned column. *)
Definition onupdate (now : Z) (ids : list Z) (t : Task.t) : Task.t :=
  if bool_decide (Task.id t ∈ ids)
  then Task.mk (Task.id t) (Task.title t) (Task.description t)
         (Task.status t) (Task.priority t) (Task.due_date t)
         (Task.created_at t) now (Task.creator_id t) (Task.parent_task_id t)
  else t.

(** INSERT the pending tags one by one; [tags.name] is unique. *)
Fixpoint insert_tags (pending table : list Tag.t) : option (list Tag.t) :=
  match pending with
  | [] => Some table
  | g :: rest =>
      if bool_decide (Tag.name g ∈ map Tag.name table) then None
      else insert_tags rest (table ++ [g])
  end.

Definition flush (now : Z) : M unit := fun s =>
  if title_null_pending s then inl IntegrityError
  else match insert_tags (new_tags s) (tags (work s)) with
       | None => inl IntegrityError
       | Some table =>
           inr (tt, mkSession
                      (set_tags (fun _ => table)
                         (set_tasks (map (onupdate now (map fst (dirty s))))
                            (work s)))
                      [] [])
       end.

(** A query (or a bulk DELETE) of a session that autoflushes. *)
Definition before_query (af : bool) (now : Z) : M unit :=
  if af then flush now else ret tt.

(** [db.commit()]: flush what is pending; the caller then installs [work]. *)
Definition commit (now : Z) : M unit := flush now.

(** ** Queries and row operations *)

(** [db.query(Task).filter(Task.id == task_id).first()] *)
Definition query_task_first (task_id : Z) (s : Store) : option Task.t :=
  List.find (fun t => bool_decide (Task.id t = task_id)) (tasks s).

(** The task object held by the session: its attributes are the row of the
    open transaction. *)
Definition task_object (task_id : Z) : M Task.t := fun s =>
  match query_task_first task_id (work s) with
  | Some t => inr (t, s)
  | None => inl ObjectDeletedError
  end.

(** [db.refresh(task)] *)
Definition refresh (task_id : Z) : M Task.t := task_object task_id.

Definition getattr (task : Task.t) (f : Field) : Exn + PyVal :=
  match f with
  | F_title => inr (of_option PStr (Task.title task))
  | F_description => inr (of_option PStr (Task.description task))
  | F_status => inr (of_option PStatus (Task.status task))
  | F_priority => inr (of_option PPriority (Task.priority task))
  | F_due_date => inr (of_option PDatetime (Task.due_date task))
  | F_assignee_ids | F_tag_names => inl (AttributeError (field_name f))
  end.

(** [setattr(task, field, value)] for the values the schema lets through
    (a string or null for a text column, and so on). *)
Definition setattr (t : Task.t) (f : Field) (v : PyVal) : Task.t :=
  match f, v with
  | F_title, PStr x =>
      Task.mk (Task.id t) (Some x) (Task.description t) (Task.status t)
        (Task.priority t) (Task.due_date t) (Task.created_at t)
        (Task.updated_at t) (Task.creator_id t) (Task.parent_task_id t)
  | F_title, PNone =>
      Task.mk (Task.id t) None (Task.description t) (Task.status t)
        (Task.priority t) (Task.due_date t) (Task.created_at t)
        (Task.updated_at t) (Task.creator_id t) (Task.parent_task_id t)
  | F_description, PStr x =>
      Task.mk (Task.id t) (Task.title t) (Some x) (Task.status t)
        (Task.priority t) (Task.due_date t) (Task.created_at t)
        (Task.updated_at t) (Task.creator_id t) (Task.parent_task_id t)
  | F_description, PNone =>
      Task.mk (Task.id t) (Task.title t) None (Task.status t)
        (Task.priority t) (Task.due_date t) (Task.created_at t)
        (Task.updated_at t) (Task.creator_id t) (Task.parent_task_id t)
  | F_status, PStatus x =>
      Task.mk (Task.id t) (Task.title t) (Task.description t) (Some x)
        (Task.priority t) (Task.due_date t) (Task.created_at t)
        (Task.updated_at t) (Task.creator_id t) (Task.parent_task_id t)
  | F_status, PNone =>
      Task.mk (Task.id t) (Task.title t) (Task.description t) None
        (Task.priority t) (Task.due_date t) (Task.created_at t)
        (Task.updated_at t) (Task.creator_id t) (Task.parent_task_id t)
  | F_priority, PPriority x =>
      Task.mk (Task.id t) (Task.title t) (Task.description t) (Task.status t)
        (Some x) (Task.due_date t) (Task.created_at t)
        (Task.updated_at t) (Task.creator_id t) (Task.parent_task_id t)
  | F_priority, PNone =>
      Task.mk (Task.id t) (Task.title t) (Task.description t) (Task.status t)
        None (Task.due_date t) (Task.created_at t)
        (Task.updated_at t) (Task.creator_id t) (Task.parent_task_id t)
  | F_due_date, PDatetime x =>
      Task.mk (Task.id t) (Task.title t) (Task.description t) (Task.status t)
        (Task.priority t) (Some x) (Task.created_at t)
        (Task.updated_at t) (Task.creator_id t) (Task.parent_task_id t)
  | F_due_date, PNone =>
      Task.mk (Task.id t) (Task.title t) (Task.description t) (Task.status t)
        (Task.priority t) None (Task.created_at t)
        (Task.updated_at t) (Task.creator_id t) (Task.parent_task_id t)
  | _, _ => t
  end.

(** Assigning a column of the session's task object: the row changes in the
    transaction and the column is remembered for the next UPDATE. *)
Definition assign (task_id : Z) (f : Field) (v : PyVal) : M unit := fun s =>
  inr (tt, mkSession
             (set_tasks
                (map (fun t => if bool_decide (Task.id t = task_id)
                               then setattr t f v else t))
                (work s))
             (new_tags s)
             (dirty s ++ [(task_id, field_name f)])).

(** [db.query(TaskAssignment).filter(TaskAssignment.task_id == task_id).delete()] *)
Definition delete_assignments (af : bool) (now task_id : Z) : M unit :=
  before_query af now;;
  modify (set_task_assignments
            (filter (fun a => TaskAssignment.task_id a ≠ task_id))).

(** [db.add(TaskAssignment(task_id=..., user_id=...))] *)
Definition add_assignment (now task_id user_id : Z) : M unit :=
  modify (fun s =>
    bump_assignment_id
      (set_task_assignments
         (fun l => l ++ [TaskAssignment.mk (next_assignment_id s) task_id
                           user_id now]) s)).

(** [db.add(TaskDependency(task_id=..., depends_on_task_id=...))] *)
Definition add_dependency (now task_id depends_on : Z) : M unit :=
  modify (fun s =>
    bump_dependency_id
      (set_task_dependencies
         (fun l => l ++ [TaskDependency.mk (next_dependency_id s) task_id
                           depends_on now]) s)).

(** [db.add(TaskHistory(...))] *)
Definition add_history (now task_id user_id : Z)
    (change : string * Text * Text) : M unit :=
  modify (fun s =>
    bump_history_id
      (set_task_history
         (fun l => l ++ [TaskHistory.mk (next_history_id s) task_id user_id
                           change.1.1 change.1.2 change.2 now]) s)).

(** [db.query(Tag).filter(Tag.name == tag_name).first()] *)
Definition query_tag_first (af : bool) (now : Z) (tag_name : string)
  : M (option Tag.t) :=
  before_query af now;;
  gets (fun s => List.find (fun g => bool_decide (Tag.name g = tag_name))
                   (tags s)).

(** [tag = Tag(name=tag_name); db.add(tag)] *)
Definition add_tag (tag_name : string) : M Tag.t := fun s =>
  let g := Tag.mk (next_tag_id (work s)) tag_name in
  inr (g, mkSession (bump_tag_id (work s)) (new_tags s ++ [g]) (dirty s)).

(** [task.tags.append(tag)] *)
Definition tags_append (task_id : Z) (g : Tag.t) : M unit :=
  modify (set_task_tags (fun l => l ++ [(task_id, Tag.id g)])).

(** [task.tags.clear()] *)
Definition tags_clear (task_id : Z) : M unit :=
  modify (set_task_tags (filter (fun r => r.1 ≠ task_id))).

(** The body shared by [create_task] and [update_task]:
    look the tag up by name, create it when there is none, attach it. *)
Definition attach_tag (af : bool) (now task_id : Z) (tag_name : string)
  : M unit :=
  let* found := query_tag_first af now tag_name in
  let* tag := match found with
              | Some g => ret g
              | None => add_tag tag_name
              end in
  tags_append task_id tag.

(** ** SQL predicates on nullable columns

    A row is selected when the condition is TRUE; a comparison with NULL is
    unknown, hence not TRUE.  The conditions below are combined with AND and
    OR only, for which "unknown" and "false" select the same rows. *)

Definition sql_in {A} `{EqDecision A} (c : option A) (l : list A) : bool :=
  match c with Some a => bool_decide (a ∈ l) | None => false end.
Definition sql_ne {A} `{EqDecision A} (c : option A) (a : A) : bool :=
  match c with Some x => bool_decide (x ≠ a) | None => false end.
Definition sql_lt (c : option Z) (z : Z) : bool :=
  match c with Some x => bool_decide (x < z) | None => false end.
Definition sql_ge (c : option Z) (z : Z) : bool :=
  match c with Some x => bool_decide (z <= x) | None => false end.
Definition sql_le (c : option Z) (z : Z) : bool :=
  match c with Some x => bool_decide (x <= z) | None => false end.

(** Python truth value of an optional list: [None] and [[]] are false. *)
Definition truthy {A} (o : option (list A)) : bool :=
  match o with Some (_ :: _) => true | _ => false end.

(** [func.count(...)] *)
Definition count {A} (p : A -> bool) (l : list A) : Z :=
  Z.of_nat (length (List.filter p l)).

(** [.order_by(TaskHistory.changed_at.desc())] *)
Fixpoint insert_desc (h : TaskHistory.t) (l : list TaskHistory.t)
  : list TaskHistory.t :=
  match l with
  | [] => [h]
  | x :: rest =>
      if bool_decide (TaskHistory.changed_at x < TaskHistory.changed_at h)
      then h :: x :: rest
      else x :: insert_desc h rest
  end.

Definition order_by_changed_at_desc (l : list TaskHistory.t)
  : list TaskHistory.t :=
  foldr insert_desc [] l.

(** ** app/services/task_service.py *)

Definition analytics_key : string := "analytics:dashboard".
(** [f"task:{task_id}"] *)
Definition task_key (task_id : Z) : string := "task:" +:+ pretty task_id.

(** What [get_task] hands back: the loaded row, or the decoded cache entry. *)
Inductive TaskResult :=
| Loaded (t : Task.t)
| Decoded (j : Json).

(** [str(task)] for a mapped object without [__repr__] (the address is
    elided). *)
Definition str_task (t : Task.t) : string := "<app.models.task.Task object>".

(** [json.dumps(task, default=str)]: the task is not serialisable, so the
    document is the string [default] returns for it. *)
Definition json_dumps_task (t : Task.t) : Json := JString (str_task t).

Module TaskService.

(** [_invalidate_task_cache] *)
Definition _invalidate_task_cache (r : gmap string (Z * Json))
  : gmap string (Z * Json) :=
  Redis.delete analytics_key r.

Definition create_task (task_data : TaskCreate) (creator_id : Z) (now : Z)
    (w : World) : Outcome Task.t * World :=
  let af := autoflush w in
  let body : M Task.t :=
    let* task_id := gets next_task_id in
    modify (fun s =>
      bump_task_id
        (set_tasks
           (fun l => l ++ [Task.mk task_id (Some (tc_title task_data))
                             (tc_description task_data)
                             (Some (tc_status task_data))
                             (Some (tc_priority task_data))
                             (tc_due_date task_data) now now creator_id
                             (tc_parent_task_id task_data)]) s));;
    flush now;;
    for_each (tc_assignee_ids task_data) (add_assignment now task_id);;
    for_each (tc_tag_names task_data) (attach_tag af now task_id);;
    for_each (tc_dependency_ids task_data) (add_dependency now task_id);;
    commit now;;
    refresh task_id in
  match body (begin (db w)) with
  | inl e => (Raised e, w)
  | inr (task, s) =>
      (Returned task,
       mkWorld af (work s) (_invalidate_task_cache (redis w)))
  end.

Definition get_task (task_id : Z) (now : Z) (w : World)
  : option TaskResult * World :=
  let cache_key := task_key task_id in
  match Redis.get cache_key now (redis w) with
  | Some cached => (Some (Decoded cached), w)
  | None =>
      match query_task_first task_id (db w) with
      | Some task =>
          (Some (Loaded task),
           mkWorld (autoflush w) (db w)
             (Redis.setex cache_key 300 (json_dumps_task task) now (redis w)))
      | None => (None, w)
      end
  end.

(** One turn of the loop over [task_data.dict(exclude_unset=True).items()]. *)
Definition update_field (af : bool) (now task_id : Z) (field : Field)
    (value : PyVal) (changes : list (string * Text * Text))
  : M (list (string * Text * Text)) :=
  match field, value with
  | F_assignee_ids, PIntList ids =>
      delete_assignments af now task_id;;
      for_each ids (add_assignment now task_id);;
      ret changes
  | F_tag_names, PStrList names =>
      tags_clear task_id;;
      for_each names (attach_tag af now task_id);;
      ret changes
  | _, _ =>
      let* task := task_object task_id in
      match getattr task field with
      | inl e => raise e
      | inr old_value =>
          if bool_decide (old_value ≠ value)
          then assign task_id field value;;
               ret (changes ++ [(field_name field, Str old_value, Str value)])
          else ret changes
      end
  end.

Fixpoint update_fields (af : bool) (now task_id : Z)
    (items : list (Field * PyVal)) (changes : list (string * Text * Text))
  : M (list (string * Text * Text)) :=
  match items with
  | [] => ret changes
  | (field, value) :: rest =>
      let* changes' := update_field af now task_id field value changes in
      update_fields af now task_id rest changes'
  end.

Definition update_task (task_id : Z) (task_data : TaskUpdate) (user_id : Z)
    (now : Z) (w : World) : Outcome (option Task.t) * World :=
  match query_task_first task_id (db w) with
  | None => (Returned None, w)
  | Some _ =>
      let body : M Task.t :=
        let* changes :=
          update_fields (autoflush w) now task_id
            (dict_exclude_unset task_data) [] in
        for_each changes (add_history now task_id user_id);;
        commit now;;
        refresh task_id in
      match body (begin (db w)) with
      | inl e => (Raised e, w)
      | inr (task, s) =>
          (Returned (Some task),
           mkWorld (autoflush w) (work s)
             (Redis.delete (task_key task_id)
                (_invalidate_task_cache (redis w))))
      end
  end.

(** The changes [bulk_update_tasks] collects for one task, applied as they
    are collected. *)
Definition bulk_update_one (af : bool) (bulk_data : TaskBulkUpdate)
    (user_id now : Z) (task : Task.t) : M (list (string * Text * Text)) :=
  let task_id := Task.id task in
  let* c_status :=
    match bu_status bulk_data with
    | Some st =>
        if bool_decide (Task.status task ≠ Some st)
        then assign task_id F_status (PStatus st);;
             ret [("status", Str (of_option PStatus (Task.status task)),
                   Str (PStatus st))]
        else ret []
    | None => ret []
    end in
  let* c_priority :=
    match bu_priority bulk_data with
    | Some p =>
        if bool_decide (Task.priority task ≠ Some p)
        then assign task_id F_priority (PPriority p);;
             ret [("priority", Str (of_option PPriority (Task.priority task)),
                   Str (PPriority p))]
        else ret []
    | None => ret []
    end in
  let* c_assignees :=
    match bu_assignee_ids bulk_data with
    | Some ids =>
        delete_assignments af now task_id;;
        for_each ids (add_assignment now task_id);;
        ret [("assignees", Lit "",
              Lit (String.concat "," (map pretty ids)))]
    | None => ret []
    end in
  let changes := c_status ++ c_priority ++ c_assignees in
  for_each changes (add_history now task_id user_id);;
  ret changes.

Fixpoint bulk_update_loop (af : bool) (bulk_data : TaskBulkUpdate)
    (user_id now : Z) (tasks : list Task.t) (updated_count : Z) : M Z :=
  match tasks with
  | [] => ret updated_count
  | task :: rest =>
      let* changes := bulk_update_one af bulk_data user_id now task in
      bulk_update_loop af bulk_data user_id now rest
        (match changes with
         | [] => updated_count
         | _ :: _ => updated_count + 1
         end)
  end.

Definition bulk_update_tasks (bulk_data : TaskBulkUpdate) (user_id : Z)
    (now : Z) (w : World) : Outcome Z * World :=
  let tasks :=
    filter (fun t => Task.id t ∈ bu_task_ids bulk_data) (tasks (db w)) in
  let body : M Z :=
    let* updated_count :=
      bulk_update_loop (autoflush w) bulk_data user_id now tasks 0 in
    commit now;;
    ret updated_count in
  match body (begin (db w)) with
  | inl e => (Raised e, w)
  | inr (updated_count, s) =>
      (Returned updated_count,
       mkWorld (autoflush w) (work s) (_invalidate_task_cache (redis w)))
  end.

(** The column-level conditions of [filter_tasks], in the order they are
    appended. *)
Definition filter_conditions (filters : TaskFilterRequest)
  : list (Task.t -> bool) :=
  (if truthy (fr_status filters)
   then [fun t => sql_in (Task.status t) (default [] (fr_status filters))]
   else []) ++
  (if truthy (fr_priority filters)
   then [fun t => sql_in (Task.priority t) (default [] (fr_priority filters))]
   else []) ++
  match fr_due_date_from filters with
  | Some d => [fun t => sql_ge (Task.due_date t) d]
  | None => []
  end ++
  match fr_due_date_to filters with
  | Some d => [fun t => sql_le (Task.due_date t) d]
  | None => []
  end ++
  match fr_created_after filters with
  | Some d => [fun t => bool_decide (d <= Task.created_at t)]
  | None => []
  end.

(** [query.join(TaskAssignment).filter(TaskAssignment.user_id.in_(ids))]:
    one row per assignment of the task to one of [ids]. *)
Definition join_assignments (s : Store) (ids : list Z)
    (query : list Task.t) : list Task.t :=
  flat_map
    (fun t =>
       map (fun _ => t)
         (filter (fun a => TaskAssignment.task_id a = Task.id t
                           ∧ TaskAssignment.user_id a ∈ ids)
            (task_assignments s)))
    query.

(** [query.join(Task.tags).filter(Tag.name.in_(names))]: one row per
    association row of the task and tag of that row named in [names]. *)
Definition join_tags (s : Store) (names : list string)
    (query : list Task.t) : list Task.t :=
  flat_map
    (fun t =>
       flat_map
         (fun r =>
            map (fun _ => t)
              (filter (fun g => Tag.id g = r.2 ∧ Tag.name g ∈ names)
                 (tags s)))
         (filter (fun r => r.1 = Task.id t) (task_tags s)))
    query.

Definition filter_tasks (filters : TaskFilterRequest) (user_id : Z)
    (w : World) : list Task.t :=
  let s := db w in
  let query := tasks s in
  let conditions := filter_conditions filters in
  let query :=
    if truthy (fr_assignee_ids filters)
    then join_assignments s (default [] (fr_assignee_ids filters)) query
    else query in
  let query :=
    if truthy (fr_tags filters)
    then join_tags s (default [] (fr_tags filters)) query
    else query in
  let query :=
    match conditions with
    | [] => query
    | _ :: _ =>
        if bool_decide (fr_logic filters = "AND")
        then List.filter (fun t => forallb (fun c => c t) conditions) query
        else List.filter (fun t => existsb (fun c => c t) conditions) query
    end in
  remove_dups query.

(** [Task.due_date < datetime.utcnow(), Task.status != TaskStatus.DONE] *)
Definition overdue (now : Z) (t : Task.t) : bool :=
  sql_lt (Task.due_date t) now && sql_ne (Task.status t) DONE.

(** [query(col, func.count(Task.id)).group_by(col)], keyed by [str]. *)
Definition group_counts {A} `{EqDecision A} (col : Task.t -> option A)
    (inj : A -> PyVal) (ts : list Task.t) : list (Text * Z) :=
  map (fun g => (Str (of_option inj g),
                 count (fun t => bool_decide (col t = g)) ts))
      (remove_dups (map col ts)).

(** The user-distribution query of [get_analytics].  [case] is not imported
    from [sqlalchemy]: [func.case((cond, 1))] is the call of an SQL function
    named [case] whose one argument is the Python tuple [(cond, 1)], not a
    CASE expression.  The tuple is no SQL expression; it becomes a bound
    parameter that holds an SQL construct, which cannot be passed to the
    database, so running the query ([.all()]) raises
    [sqlalchemy.exc.StatementError] (the subclass depends on the driver),
    whatever the rows are. *)
Definition user_distribution (now : Z) (s : Store)
  : Exn + list UserDistribution :=
  inl StatementError.

Definition get_analytics (now : Z) (w : World) : Outcome Json * World :=
  let cache_key := analytics_key in
  match Redis.get cache_key now (redis w) with
  | Some cached => (Returned cached, w)
  | None =>
      let s := db w in
      let total_tasks := Z.of_nat (length (tasks s)) in
      let tasks_by_status := group_counts Task.status PStatus (tasks s) in
      let tasks_by_priority :=
        group_counts Task.priority PPriority (tasks s) in
      let overdue := count (overdue now) (tasks s) in
      match user_distribution now s with
      | inl e => (Raised e, w)
      | inr user_dist_list =>
          let result :=
            mkAnalytics total_tasks tasks_by_status tasks_by_priority overdue
              user_dist_list in
          (Returned (JDashboard result),
           mkWorld (autoflush w) (db w)
             (Redis.setex cache_key 120 (JDashboard result) now (redis w)))
      end
  end.

(** The history rows joined with their task and their acting user. *)
Definition history_joined (s : Store) : list TaskHistory.t :=
  flat_map
    (fun h =>
       flat_map
         (fun _ : Task.t =>
            map (fun _ : User.t => h)
              (filter (fun u => TaskHistory.user_id h = User.id u) (users s)))
         (filter (fun t => TaskHistory.task_id h = Task.id t) (tasks s)))
    (task_history s).

Definition get_user_timeline (user_id : Z) (days : Z) (now : Z) (w : World)
  : list TaskHistory.t :=
  let s := db w in
  let from_date := now - timedelta_days days in
  let user_task_ids :=
    map TaskAssignment.task_id
      (filter (fun a => TaskAssignment.user_id a = user_id)
         (task_assignments s)) in
  order_by_changed_at_desc
    (filter (fun h => TaskHistory.task_id h ∈ user_task_ids
                      ∧ from_date <= TaskHistory.changed_at h)
       (history_joined s)).

End TaskService.

(** ** app/api/v1/tasks.py

    The route functions, after the framework has resolved their dependencies
    (the session, the authenticated user and the role check).  An outcome is
    what the function returns or raises; what the framework then does with a
    returned value (validation against the response model) is not part of
    the model. *)

(** Flushing [db.delete(task)].  The relationships [assignees],
    [dependencies] and [history] cascade the delete to their rows and the
    rows of the association table go with the task.  [blocked_by] and the
    backref of [subtasks] carry no delete cascade: the unit of work detaches
    those rows by setting their foreign key to NULL.  For a subtask this
    clears [parent_task_id]; for a dependency edge that points at the task
    (and is not deleted with it) the column is [nullable=False], the UPDATE
    is rejected and the flush fails. *)
Definition detach_child (task_id : Z) (t : Task.t) : Task.t :=
  if bool_decide (Task.parent_task_id t = Some task_id)
  then Task.mk (Task.id t) (Task.title t) (Task.description t)
         (Task.status t) (Task.priority t) (Task.due_date t)
         (Task.created_at t) (Task.updated_at t) (Task.creator_id t) None
  else t.

Definition blocked_by_others (task_id : Z) (s : Store)
  : list TaskDependency.t :=
  filter (fun d => TaskDependency.depends_on_task_id d = task_id
                   ∧ TaskDependency.task_id d ≠ task_id)
         (task_dependencies s).

Definition delete_task_object (task_id : Z) : M unit := fun s =>
  let st := work s in
  match blocked_by_others task_id st with
  | _ :: _ => inl IntegrityError
  | [] =>
      let children :=
        filter (fun t => Task.parent_task_id t = Some task_id
                         ∧ Task.id t ≠ task_id) (tasks st) in
      inr (tt,
           mkSession
             (mkStore (users st)
                (map (detach_child task_id)
                   (filter (fun t => Task.id t ≠ task_id) (tasks st)))
                (filter (fun a => TaskAssignment.task_id a ≠ task_id)
                   (task_assignments st))
                (filter (fun d => TaskDependency.task_id d ≠ task_id)
                   (task_dependencies st))
                (tags st)
                (filter (fun r => r.1 ≠ task_id) (task_tags st))
                (filter (fun h => TaskHistory.task_id h ≠ task_id)
                   (task_history st))
                (next_task_id st) (next_assignment_id st)
                (next_dependency_id st) (next_tag_id st)
                (next_history_id st))
             (new_tags s)
             (dirty s ++ map (fun t => (Task.id t, "parent_task_id")) children))
  end.

(** [db.query(TaskDependency).filter(task_id == ..., depends_on_task_id == ...).first()] *)
Definition query_dependency_first (task_id depends_on_task_id : Z) (s : Store)
  : option TaskDependency.t :=
  List.find
    (fun d => bool_decide (TaskDependency.task_id d = task_id)
              && bool_decide (TaskDependency.depends_on_task_id d
                              = depends_on_task_id))
    (task_dependencies s).

Module TasksApi.

Definition create_task (task_data : TaskCreate) (current_user : Z) (now : Z)
    (w : World) : Outcome Task.t * World :=
  TaskService.create_task task_data current_user now w.

Definition get_task (task_id : Z) (now : Z) (w : World)
  : Outcome TaskResult * World :=
  match TaskService.get_task task_id now w with
  | (Some task, w') => (Returned task, w')
  | (None, w') =>
      (Raised (HTTPException HTTP_404_NOT_FOUND "Task not found"), w')
  end.

Definition update_task (task_id : Z) (task_data : TaskUpdate)
    (current_user : Z) (now : Z) (w : World) : Outcome Task.t * World :=
  match TaskService.update_task task_id task_data current_user now w with
  | (Returned (Some task), w') => (Returned task, w')
  | (Returned None, w') =>
      (Raised (HTTPException HTTP_404_NOT_FOUND "Task not found"), w')
  | (Raised e, w') => (Raised e, w')
  end.

Definition delete_task (task_id : Z) (now : Z) (w : World)
  : Outcome unit * World :=
  match query_task_first task_id (db w) with
  | None => (Raised (HTTPException HTTP_404_NOT_FOUND "Task not found"), w)
  | Some task =>
      let body : M unit :=
        delete_task_object (Task.id task);;
        commit now in
      match body (begin (db w)) with
      | inl e => (Raised e, w)
      | inr (_, s) =>
          (Returned tt,
           mkWorld (autoflush w) (work s)
             (TaskService._invalidate_task_cache (redis w)))
      end
  end.

Definition bulk_update_tasks (bulk_data : TaskBulkUpdate) (current_user : Z)
    (now : Z) (w : World) : Outcome Z * World :=
  TaskService.bulk_update_tasks bulk_data current_user now w.

Definition filter_tasks (filters : TaskFilterRequest) (current_user : Z)
    (w : World) : list Task.t :=
  TaskService.filter_tasks filters current_user w.

Definition get_analytics (now : Z) (w : World) : Outcome Json * World :=
  TaskService.get_analytics now w.

(** [days: int = Query(7, ge=1, le=30)] is validated before the body. *)
Definition get_my_timeline (days : Z) (current_user : Z) (now : Z)
    (w : World) : Outcome (list TaskHistory.t) :=
  if bool_decide (1 <= days ∧ days <= 30)
  then Returned (TaskService.get_user_timeline current_user days now w)
  else Raised RequestValidationError.

Definition add_task_dependency (task_id depends_on_task_id : Z) (now : Z)
    (w : World) : Outcome string * World :=
  match query_task_first task_id (db w),
        query_task_first depends_on_task_id (db w) with
  | Some _, Some _ =>
      match query_dependency_first task_id depends_on_task_id (db w) with
      | Some _ =>
          (Raised (HTTPException HTTP_400_BAD_REQUEST
                     "Dependency already exists"), w)
      | None =>
          let body : M unit :=
            add_dependency now task_id depends_on_task_id;;
            commit now in
          match body (begin (db w)) with
          | inl e => (Raised e, w)
          | inr (_, s) =>
              (Returned "Dependency added successfully",
               mkWorld (autoflush w) (work s) (redis w))
          end
      end
  | _, _ =>
      (Raised (HTTPException HTTP_404_NOT_FOUND
                 "One or both tasks not found"), w)
  end.

Definition remove_task_dependency (task_id depends_on_task_id : Z) (now : Z)
    (w : World) : Outcome unit * World :=
  match query_dependency_first task_id depends_on_task_id (db w) with
  | None =>
      (Raised (HTTPException HTTP_404_NOT_FOUND "Dependency not found"), w)
  | Some dependency =>
      let body : M unit :=
        modify (set_task_dependencies
                  (filter (fun d => TaskDependency.id d
                                    ≠ TaskDependency.id dependency)));;
        commit now in
      match body (begin (db w)) with
      | inl e => (Raised e, w)
      | inr (_, s) =>
          (Returned tt, mkWorld (autoflush w) (work s) (redis w))
      end
  end.

End TasksApi.

(** ** Sequences of requests *)

Inductive Request :=
| CreateTask (task_data : TaskCreate) (current_user : Z)
| GetTask (task_id : Z)
| UpdateTask (task_id : Z) (task_data : TaskUpdate) (current_user : Z)
| DeleteTask (task_id : Z)
| BulkUpdateTasks (bulk_data : TaskBulkUpdate) (current_user : Z)
| GetAnalytics
| AddTaskDependency (task_id depends_on_task_id : Z)
| RemoveTaskDependency (task_id depends_on_task_id : Z).

(** The world after serving one request at instant [now]. *)
Definition serve (now : Z) (r : Request) (w : World) : World :=
  match r with
  | CreateTask d u => (TasksApi.create_task d u now w).2
  | GetTask i => (TasksApi.get_task i now w).2
  | UpdateTask i d u => (TasksApi.update_task i d u now w).2
  | DeleteTask i => (TasksApi.delete_task i now w).2
  | BulkUpdateTasks d u => (TasksApi.bulk_update_tasks d u now w).2
  | GetAnalytics => (TasksApi.get_analytics now w).2
  | AddTaskDependency i j => (TasksApi.add_task_dependency i j now w).2
  | RemoveTaskDependency i j => (TasksApi.remove_task_dependency i j now w).2
  end.

(** Requests served one after the other, each at its own instant. *)
Fixpoint serve_all (rs : list (Z * Request)) (w : World) : World :=
  match rs with
  | [] => w
  | (now, r) :: rest => serve_all rest (serve now r w)
  end.

(** * Predicates used in the statements *)

(** The edge "[task_id] is blocked by [depends_on]". *)
Definition is_edge (task_id depends_on : Z) (d : TaskDependency.t) : Prop :=
  TaskDependency.task_id d = task_id
  ∧ TaskDependency.depends_on_task_id d = depends_on.

#[global] Instance is_edge_dec task_id depends_on d :
  Decision (is_edge task_id depends_on d).
Proof. unfold is_edge. apply _. Defined.

(** A task has an assignment to one of [ids]. *)
Definition has_assignee (s : Store) (ids : list Z) (t : Task.t) : Prop :=
  exists a, a ∈ task_assignments s
            ∧ TaskAssignment.task_id a = Task.id t
            ∧ TaskAssignment.user_id a ∈ ids.

(** A task carries a tag named in [names]. *)
Definition has_tag (s : Store) (names : list string) (t : Task.t) : Prop :=
  exists r g, r ∈ task_tags s ∧ r.1 = Task.id t
              ∧ g ∈ tags s ∧ Tag.id g = r.2 ∧ Tag.name g ∈ names.

(** A criterion is supplied: the request carries a value for it, be it an
    empty list. *)
Definition supplied {A} (o : option A) : bool :=
  match o with Some _ => true | None => false end.

(** The column-level criteria of a filter request as the spec words them
    (section 4.2): status in set, priority in set, due date from and to
    (inclusive), created after, each one present when the request supplies
    it. *)
Definition column_criteria_as_worded (f : TaskFilterRequest)
  : list (Task.t -> Prop) :=
  (if supplied (fr_status f)
   then [fun t => exists x, Task.status t = Some x
                            ∧ x ∈ default [] (fr_status f)]
   else []) ++
  (if supplied (fr_priority f)
   then [fun t => exists x, Task.priority t = Some x
                            ∧ x ∈ default [] (fr_priority f)]
   else []) ++
  match fr_due_date_from f with
  | Some d => [fun t => exists x, Task.due_date t = Some x ∧ d <= x]
  | None => []
  end ++
  match fr_due_date_to f with
  | Some d => [fun t => exists x, Task.due_date t = Some x ∧ x <= d]
  | None => []
  end ++
  match fr_created_after f with
  | Some d => [fun t => d <= Task.created_at t]
  | None => []
  end.

(** The claim about [filter_tasks] as the spec words it: the supplied column
    criteria combined under the mode the caller chose, the supplied assignee
    and tag criteria required whatever the mode, every matching task once. *)
Definition filter_tasks_as_worded (f : TaskFilterRequest)
    (result : list Task.t) (s : Store) : Prop :=
  NoDup result
  ∧ forall t,
      t ∈ result
      <-> t ∈ tasks s
          ∧ (supplied (fr_assignee_ids f) = true ->
             has_assignee s (default [] (fr_assignee_ids f)) t)
          ∧ (supplied (fr_tags f) = true ->
             has_tag s (default [] (fr_tags f)) t)
          ∧ match column_criteria_as_worded f with
            | [] => True
            | cs => if decide (fr_logic f = "AND")
                    then Forall (fun c => c t) cs
                    else Exists (fun c => c t) cs
            end.

(** The column-level criteria of the amended claim: as above, but a list
    criterion counts only when its list is not empty (an empty list is
    passed over like an absent one). *)
Definition column_criteria (f : TaskFilterRequest) : list (Task.t -> Prop) :=
  (if truthy (fr_status f)
   then [fun t => exists x, Task.status t = Some x
                            ∧ x ∈ default [] (fr_status f)]
   else []) ++
  (if truthy (fr_priority f)
   then [fun t => exists x, Task.priority t = Some x
                            ∧ x ∈ default [] (fr_priority f)]
   else []) ++
  match fr_due_date_from f with
  | Some d => [fun t => exists x, Task.due_date t = Some x ∧ d <= x]
  | None => []
  end ++
  match fr_due_date_to f with
  | Some d => [fun t => exists x, Task.due_date t = Some x ∧ x <= d]
  | None => []
  end ++
  match fr_created_after f with
  | Some d => [fun t => d <= Task.created_at t]
  | None => []
  end.

(** The present column criteria under the mode the caller chose: all of them
    under "AND", one of them otherwise; no constraint when none is present. *)
Definition columns_hold (f : TaskFilterRequest) (t : Task.t) : Prop :=
  match column_criteria f with
  | [] => True
  | cs => if decide (fr_logic f = "AND")
          then Forall (fun c => c t) cs
          else Exists (fun c => c t) cs
  end.

(** The task [task_id] is currently assigned to [user_id]. *)
Definition assigned_to (s : Store) (user_id task_id : Z) : Prop :=
  Exists (fun a => TaskAssignment.user_id a = user_id
                   ∧ TaskAssignment.task_id a = task_id)
         (task_assignments s).

(** A history entry of the timeline of [user_id]: its task is assigned to the
    user and it was recorded within the [days] days before [now]. *)
Definition timeline_entry (s : Store) (user_id days now : Z)
    (h : TaskHistory.t) : Prop :=
  assigned_to s user_id (TaskHistory.task_id h)
  ∧ now - timedelta_days days <= TaskHistory.changed_at h <= now.

#[global] Instance timeline_entry_dec s user_id days now h :
  Decision (timeline_entry s user_id days now h).
Proof. unfold timeline_entry, assigned_to. apply _. Defined.

(** What the schema declares for the rows the timeline joins: [tasks.id] and
    [users.id] are primary keys, and [task_history.task_id] and
    [task_history.user_id] are foreign keys into them. *)
Definition history_keys_ok (s : Store) : Prop :=
  NoDup (map Task.id (tasks s))
  ∧ NoDup (map User.id (users s))
  ∧ Forall (fun h => Exists (fun t => Task.id t = TaskHistory.task_id h)
                       (tasks s)
                     ∧ Exists (fun u => User.id u = TaskHistory.user_id h)
                         (users s))
           (task_history s).

#[global] Instance history_keys_ok_dec s : Decision (history_keys_ok s).
Proof. unfold history_keys_ok. apply _. Defined.

(** Newest first. *)
Definition newest_first (l : list TaskHistory.t) : Prop :=
  StronglySorted
    (fun h1 h2 => TaskHistory.changed_at h2 <= TaskHistory.changed_at h1) l.

(** No two rows of [tags] share a name. *)
Definition tag_names_unique (s : Store) : Prop :=
  NoDup (map Tag.name (tags s)).

#[global] Instance tag_names_unique_dec s : Decision (tag_names_unique s).
Proof. unfold tag_names_unique. apply _. Defined.

(** The scalar fields of [TaskUpdate]: all but the two collections. *)
Definition is_scalar (f : Field) : bool :=
  match f with
  | F_assignee_ids | F_tag_names => false
  | _ => true
  end.

(** Every scalar field that is explicitly present in the input carries the
    value the task already has. *)
Definition scalars_unchanged (t : Task.t) (d : TaskUpdate) : Prop :=
  (forall v, tu_title d = Some v -> v = Task.title t)
  ∧ (forall v, tu_description d = Some v -> v = Task.description t)
  ∧ (forall v, tu_status d = Some v -> v = Task.status t)
  ∧ (forall v, tu_priority d = Some v -> v = Task.priority t)
  ∧ (forall v, tu_due_date d = Some v -> v = Task.due_date t).

(** The user ids a task is assigned to, in the order of the rows. *)
Definition assignees_of (s : Store) (task_id : Z) : list Z :=
  map TaskAssignment.user_id
    (filter (fun a => TaskAssignment.task_id a = task_id) (task_assignments s)).

(** The change records of a bulk update for one task, read off the spec
    (section 4.1): one for the status and one for the priority when the
    value is given and differs from the current one, and one synthetic
    record for the assignees whenever a list is given. *)
Definition status_change (b : TaskBulkUpdate) (t : Task.t)
  : list (string * Text * Text) :=
  match bu_status b with
  | Some st =>
      if decide (Task.status t ≠ Some st)
      then [("status", Str (of_option PStatus (Task.status t)),
             Str (PStatus st))]
      else []
  | None => []
  end.

Definition priority_change (b : TaskBulkUpdate) (t : Task.t)
  : list (string * Text * Text) :=
  match bu_priority b with
  | Some p =>
      if decide (Task.priority t ≠ Some p)
      then [("priority", Str (of_option PPriority (Task.priority t)),
             Str (PPriority p))]
      else []
  | None => []
  end.

Definition assignees_change (b : TaskBulkUpdate)
  : list (string * Text * Text) :=
  match bu_assignee_ids b with
  | Some ids => [("assignees", Lit "", Lit (String.concat "," (map pretty ids)))]
  | None => []
  end.

Definition bulk_changes (b : TaskBulkUpdate) (t : Task.t)
  : list (string * Text * Text) :=
  status_change b t ++ priority_change b t ++ assignees_change b.

(** The tasks a bulk update matches. *)
Definition matched (b : TaskBulkUpdate) (s : Store) : list Task.t :=
  filter (fun t => Task.id t ∈ bu_task_ids b) (tasks s).

(** A history row without its primary key, and the row a change record of
    task [task_id] by [user_id] at [now] gives. *)
Definition history_view (h : TaskHistory.t)
  : Z * Z * string * Text * Text * Z :=
  (TaskHistory.task_id h, TaskHistory.user_id h, TaskHistory.field_changed h,
   TaskHistory.old_value h, TaskHistory.new_value h, TaskHistory.changed_at h).

Definition change_view (task_id user_id now : Z) (c : string * Text * Text)
  : Z * Z * string * Text * Text * Z :=
  (task_id, user_id, c.1.1, c.1.2, c.2, now).

(** * Example worlds *)

Definition empty_world (af : bool) : World := mkWorld af empty_store ∅.

Definition plain_task (title : string) (due : option Z) : TaskCreate :=
  mkTaskCreate title None TODO MEDIUM due None [] [] [].

(** Two tasks, 1 and 2, created at instants 10 and 20. *)
Definition two_tasks : World :=
  serve_all [(10, CreateTask (plain_task "a" None) 1);
             (20, CreateTask (plain_task "b" None) 1)]
    (empty_world true).

(** One task, created at 10 and due at 50. *)
Definition due_task_world : World :=
  serve_all [(10, CreateTask (plain_task "a" (Some 50)) 1)] (empty_world true).

(** A store with one registered user, 7, who creates task 1 assigned to
    herself at instant 10 and changes its status at 20 and its priority at
    [seconds 900000] (more than ten days later). *)
Definition one_user : World :=
  mkWorld true
    (mkStore [User.mk 7 "u@example.org" "u" "x" None MEMBER true 0]
       [] [] [] [] [] [] 1 1 1 1 1)
    ∅.

Definition timeline_world : World :=
  serve_all
    [(10, CreateTask (mkTaskCreate "a" None TODO MEDIUM None None [7] [] []) 7);
     (20, UpdateTask 1
            (mkTaskUpdate None None (Some (Some DONE)) None None None None) 7);
     (seconds 900000,
      UpdateTask 1
        (mkTaskUpdate None None None (Some (Some HIGH)) None None None) 7)]
    one_user.

(** Two creations and an update that ask for overlapping tag names, one of
    them twice in the same request. *)
Definition tagging_requests : list (Z * Request) :=
  [(10, CreateTask (mkTaskCreate "a" None TODO MEDIUM None None []
                      ["red"; "blue"; "red"] []) 1);
   (20, CreateTask (mkTaskCreate "b" None TODO MEDIUM None None []
                      ["blue"; "green"] []) 1);
   (30, UpdateTask 1
          (mkTaskUpdate None None None None None None
             (Some (Some ["green"; "black"; "red"]))) 1)].

(** Task 1 of [two_tasks], and an update that sets its status to the status
    it has. *)
Definition task_a : Task.t :=
  Task.mk 1 (Some "a") None (Some TODO) (Some MEDIUM) None 10 10 1 None.

Definition same_status : TaskUpdate :=
  mkTaskUpdate None None (Some (Some TODO)) None None None None.

(** * Sessions: weakest preconditions and invariants *)

(** [wp m Q E s]: run from the session [s], the computation [m] either
    returns [a] in a session [s'] with [Q a s'], or raises an exception [e]
    with [E e]. *)
Definition wp {A} (m : M A) (Q : A -> Session -> Prop) (E : Exn -> Prop)
    (s : Session) : Prop :=
  match m s with
  | inl e => E e
  | inr (a, s') => Q a s'
  end.

Definition may_raise : Exn -> Prop := fun _ => True.
Definition no_raise : Exn -> Prop := fun _ => False.

(** [keeps I E m]: from a session where [I] holds, [m] returns in a session
    where [I] still holds, or raises an exception allowed by [E]. *)
Definition keeps {A} (I : Session -> Prop) (E : Exn -> Prop) (m : M A) : Prop :=
  forall s, I s -> wp m (fun _ => I) E s.

(** The scalar items of [task_data.dict(exclude_unset=True)]; the items of
    the two collections follow them. *)
Definition scalar_items (d : TaskUpdate) : list (Field * PyVal) :=
  item F_title PStr (tu_title d) ++
  item F_description PStr (tu_description d) ++
  item F_status PStatus (tu_status d) ++
  item F_priority PPriority (tu_priority d) ++
  item F_due_date PDatetime (tu_due_date d).

(** The names under which scalar fields are recorded in the history. *)
Definition scalar_names : list string :=
  map field_name [F_title; F_description; F_status; F_priority; F_due_date].

(** The invariant of a transaction that started with the tag rows [T0]:
    names stay unique and the rows of [T0] stay where they are. *)
Definition tags_grow (T0 : list Tag.t) (s : Session) : Prop :=
  tag_names_unique (work s) ∧ T0 `prefix_of` tags (work s).

(** The session still holds the row of the task. *)
Definition has_row (task_id : Z) (s : Session) : Prop :=
  is_Some (query_task_first task_id (work s)).

(** Nothing is waiting for an UPDATE, and the task and history rows are the
    given ones. *)
Definition untouched (T : list Task.t) (H : list TaskHistory.t)
    (s : Session) : Prop :=
  dirty s = [] ∧ tasks (work s) = T ∧ task_history (work s) = H.

(** The assignment rows are [A], and the history is the history [H0] of the
    start followed by rows for scalar fields only. *)
Definition recorded (A : list TaskAssignment.t) (H0 : list TaskHistory.t)
    (s : Session) : Prop :=
  task_assignments (work s) = A
  ∧ exists rows,
      task_history (work s) = H0 ++ rows
      ∧ Forall (fun h => TaskHistory.field_changed h ∈ scalar_names) rows.

(** No tag waits for its INSERT and no UPDATE of a title is waiting: a flush
    cannot fail. *)
Definition flushable (s : Session) : Prop :=
  new_tags s = [] ∧ forall i, (i, "title") ∉ dirty s.

(** The rows two sessions agree on. *)
Definition same_rows (s s' : Session) : Prop :=
  task_history (work s') = task_history (work s)
  ∧ task_assignments (work s') = task_assignments (work s).

(** What a bulk update does to the assignment rows of one task. *)
Definition assignments_replaced (b : TaskBulkUpdate) (task_id : Z)
    (A A' : list TaskAssignment.t) : Prop :=
  match bu_assignee_ids b with
  | Some ids =>
      exists rows,
        A' = filter (fun a => TaskAssignment.task_id a ≠ task_id) A ++ rows
        ∧ map TaskAssignment.user_id rows = ids
        ∧ Forall (fun a => TaskAssignment.task_id a = task_id) rows
  | None => A' = A
  end.

(** What the loop of [bulk_update_tasks] has done when it ends. *)
Definition bulk_done (b : TaskBulkUpdate) (user_id now : Z) (ts : list Task.t)
    (n : Z) (s : Session) (n' : Z) (s' : Session) : Prop :=
  n' = n + Z.of_nat (length (filter (fun t => bulk_changes b t ≠ []) ts))
  ∧ flushable s'
  ∧ map history_view (task_history (work s'))
    = map history_view (task_history (work s))
      ++ flat_map
           (fun t => map (change_view (Task.id t) user_id now)
                       (bulk_changes b t)) ts
  ∧ (forall ids t, bu_assignee_ids b = Some ids -> t ∈ ts ->
       assignees_of (work s') (Task.id t) = ids)
  ∧ (forall i, bu_assignee_ids b = None ∨ i ∉ map Task.id ts ->
       assignees_of (work s') i = assignees_of (work s) i).

(** * Further predicates and invariants *)

(** The history rows of [H0] are still there, in place. *)
Definition history_kept (H0 : list TaskHistory.t) (s : Session) : Prop :=
  H0 `prefix_of` task_history (work s).

(** The store a successful [delete_task] of [task_id] at [now] leaves. *)
Definition deleted_store (now task_id : Z) (st : Store) : Store :=
  mkStore (users st)
    (map (onupdate now
            (map Task.id
               (filter (fun t => Task.parent_task_id t = Some task_id
                                 ∧ Task.id t ≠ task_id) (tasks st))))
       (map (detach_child task_id)
          (filter (fun t => Task.id t ≠ task_id) (tasks st))))
    (filter (fun a => TaskAssignment.task_id a ≠ task_id) (task_assignments st))
    (filter (fun d => TaskDependency.task_id d ≠ task_id) (task_dependencies st))
    (tags st)
    (filter (fun r => r.1 ≠ task_id) (task_tags st))
    (filter (fun h => TaskHistory.task_id h ≠ task_id) (task_history st))
    (next_task_id st) (next_assignment_id st) (next_dependency_id st)
    (next_tag_id st) (next_history_id st).


(** The ids of the task rows, in table order. *)
Definition task_ids (st : Store) : list Z := map Task.id (tasks st).

(** Primary keys as the sequence hands them out: no id twice, every id below
    the next value of the sequence. *)
Definition task_ids_fresh (st : Store) : Prop :=
  NoDup (task_ids st) ∧ forall i, i ∈ task_ids st -> i < next_task_id st.

(** The rows the dashboard is computed from are those of [st], and no
    UPDATE is waiting. *)
Definition dashboard_rows (st : Store) (s : Session) : Prop :=
  dirty s = []
  ∧ tasks (work s) = tasks st
  ∧ users (work s) = users st
  ∧ task_assignments (work s) = task_assignments st.


(** Every row that belongs to a task names one of [ids]: the [task_id] of
    the history, assignment, dependency and tag-association rows. *)
Definition refs_in (ids : list Z) (st : Store) : Prop :=
  Forall (fun h => TaskHistory.task_id h ∈ ids) (task_history st)
  ∧ Forall (fun a => TaskAssignment.task_id a ∈ ids) (task_assignments st)
  ∧ Forall (fun d => TaskDependency.task_id d ∈ ids) (task_dependencies st)
  ∧ Forall (fun r => r.1 ∈ ids) (task_tags st).

(** No row is left behind by its task. *)
Definition task_refs_ok (st : Store) : Prop := refs_in (task_ids st) st.

Definition refs_kept (ids : list Z) (s : Session) : Prop :=
  task_ids (work s) = ids ∧ refs_in ids (work s).


#[global] Instance task_refs_ok_dec st : Decision (task_refs_ok st).
Proof. unfold task_refs_ok, refs_in. apply _. Defined.

(** The session holds a NULL title for the task and the UPDATE that writes
    it has not been emitted. *)
Definition title_nulled (task_id : Z) (s : Session) : Prop :=
  (task_id, "title") ∈ dirty s
  ∧ exists t, query_task_first task_id (work s) = Some t
              ∧ Task.title t = None.

(** An item of the update dictionary that is not the title and, for a
    collection, carries a list. *)
Definition after_title (it : Field * PyVal) : Prop :=
  it.1 ≠ F_title
  ∧ (is_scalar it.1 = true
     ∨ (exists ids, it = (F_assignee_ids, PIntList ids))
     ∨ (exists names, it = (F_tag_names, PStrList names))).


(** A subtask whose parent has been deleted: the foreign key is NULL and the
    UPDATE that cleared it has refreshed [updated_at]. *)
Definition orphaned (now : Z) (t : Task.t) : Task.t :=
  Task.mk (Task.id t) (Task.title t) (Task.description t) (Task.status t)
    (Task.priority t) (Task.due_date t) (Task.created_at t) now
    (Task.creator_id t) None.

(** Another task is blocked by [task_id]. *)
Definition has_dependents (task_id : Z) (st : Store) : Prop :=
  Exists (fun d => TaskDependency.depends_on_task_id d = task_id
                   ∧ TaskDependency.task_id d ≠ task_id)
         (task_dependencies st).

#[global] Instance has_dependents_dec task_id st :
  Decision (has_dependents task_id st).
Proof. unfold has_dependents. apply _. Defined.


(** Dependency ids as the sequence hands them out: every id is below the
    next value. *)
Definition dependency_ids_below (st : Store) : Prop :=
  Forall (fun d => TaskDependency.id d < next_dependency_id st)
         (task_dependencies st).

#[global] Instance dependency_ids_below_dec st :
  Decision (dependency_ids_below st).
Proof. unfold dependency_ids_below. apply _. Defined.


(** What a request that works on the tasks outside [U] may have done to a
    session that started from [st0]: the rows of the tasks in [U] (task
    rows, assignments, tag associations) are as in [st0], dependency edges
    and users are as in [st0], and the history of [st0] is followed by rows
    that name a task outside [U], the acting user and the instant of the
    request. *)
Definition touches_only (U : Z -> Prop) `{!forall i, Decision (U i)}
    (user_id now : Z) (st0 : Store) (st : Store) : Prop :=
  filter (fun t => U (Task.id t)) (tasks st)
  = filter (fun t => U (Task.id t)) (tasks st0)
  ∧ filter (fun a => U (TaskAssignment.task_id a)) (task_assignments st)
    = filter (fun a => U (TaskAssignment.task_id a)) (task_assignments st0)
  ∧ filter (fun r => U r.1) (task_tags st)
    = filter (fun r => U r.1) (task_tags st0)
  ∧ task_dependencies st = task_dependencies st0
  ∧ users st = users st0
  ∧ exists rows,
      task_history st = task_history st0 ++ rows
      ∧ Forall (fun h => ¬ U (TaskHistory.task_id h)
                         ∧ TaskHistory.user_id h = user_id
                         ∧ TaskHistory.changed_at h = now) rows.

Definition frame_kept (U : Z -> Prop) `{!forall i, Decision (U i)}
    (user_id now : Z) (st0 : Store) (s : Session) : Prop :=
  Forall (fun c => ¬ U c.1) (dirty s)
  ∧ touches_only U user_id now st0 (work s).


(** A table (or a sequence) of the session is [X]. *)
Definition table_is {A} (f : Store -> A) (X : A) (s : Session) : Prop :=
  f (work s) = X.

(** The row [create_task] inserts when the sequence is at [n]. *)
Definition created_task (d : TaskCreate) (creator_id now n : Z) : Task.t :=
  Task.mk n (Some (tc_title d)) (tc_description d) (Some (tc_status d))
    (Some (tc_priority d)) (tc_due_date d) now now creator_id
    (tc_parent_task_id d).


(** A row for which an UPDATE has been emitted at [now]. *)
Definition touch (now : Z) (t : Task.t) : Task.t :=
  Task.mk (Task.id t) (Task.title t) (Task.description t) (Task.status t)
    (Task.priority t) (Task.due_date t) (Task.created_at t) now
    (Task.creator_id t) (Task.parent_task_id t).

(** The task rows as a flush of the session at [now] would leave them. *)
Definition effective (now : Z) (s : Session) : list Task.t :=
  map (onupdate now (map fst (dirty s))) (tasks (work s)).

Definition effective_is (now : Z) (E : list Task.t) (s : Session) : Prop :=
  effective now s = E.

(** What the assignment of one column of the task [task_id] does to a row. *)
Definition assign_row (now task_id : Z) (f : Field) (v : PyVal) (e : Task.t)
  : Task.t :=
  if bool_decide (Task.id e = task_id) then touch now (setattr e f v) else e.

(** What one turn of the loop of [bulk_update_tasks], for the task [t] as it
    was loaded, does to a row. *)
Definition bulk_step (b : TaskBulkUpdate) (now : Z) (t e : Task.t) : Task.t :=
  let e1 :=
    match bu_status b with
    | Some st =>
        if bool_decide (Task.status t ≠ Some st)
        then assign_row now (Task.id t) F_status (PStatus st) e else e
    | None => e
    end in
  match bu_priority b with
  | Some p =>
      if bool_decide (Task.priority t ≠ Some p)
      then assign_row now (Task.id t) F_priority (PPriority p) e1 else e1
  | None => e1
  end.

(** A row before and after a bulk update that lists its task: status and
    priority take the requested values, [updated_at] is refreshed exactly
    when one of the two changes, and nothing else changes. *)
Definition bulk_updated (b : TaskBulkUpdate) (now : Z) (t t' : Task.t) : Prop :=
  Task.id t' = Task.id t
  ∧ Task.title t' = Task.title t
  ∧ Task.description t' = Task.description t
  ∧ Task.due_date t' = Task.due_date t
  ∧ Task.created_at t' = Task.created_at t
  ∧ Task.creator_id t' = Task.creator_id t
  ∧ Task.parent_task_id t' = Task.parent_task_id t
  ∧ Task.status t'
    = match bu_status b with Some st => Some st | None => Task.status t end
  ∧ Task.priority t'
    = match bu_priority b with Some p => Some p | None => Task.priority t end
  ∧ Task.updated_at t'
    = if decide (Task.status t' = Task.status t
                 ∧ Task.priority t' = Task.priority t)
      then Task.updated_at t else now.


(** No UPDATE is waiting and the pending tags can be inserted: their names
    are new and distinct. *)
Definition tags_insertable (s : Session) : Prop :=
  dirty s = [] ∧ NoDup (map Tag.name (tags (work s) ++ new_tags s)).

(** * Reasoning about sessions *)

Lemma wp_ret {A} (a : A) (Q : A -> Session -> Prop) E s :
  Q a s -> wp (ret a) Q E s.
Proof. intros H. exact H. Qed.

Lemma wp_raise {A} (e : Exn) (Q : A -> Session -> Prop) (E : Exn -> Prop) s :
  E e -> wp (raise e) Q E s.
Proof. intros H. exact H. Qed.

Lemma wp_bind {A B} (m : M A) (k : A -> M B) Q E s :
  wp m (fun a => wp (k a) Q E) E s -> wp (bind m k) Q E s.
Proof.
  unfold wp, bind. destruct (m s) as [e | [a s']]; auto.
Qed.

Lemma wp_mono {A} (m : M A) (Q Q' : A -> Session -> Prop)
    (E E' : Exn -> Prop) s :
  wp m Q E s ->
  (forall a s', Q a s' -> Q' a s') ->
  (forall e, E e -> E' e) ->
  wp m Q' E' s.
Proof.
  unfold wp. destruct (m s) as [e | [a s']]; auto.
Qed.

Lemma wp_modify (f : Store -> Store) (Q : unit -> Session -> Prop) E s :
  Q tt (mkSession (f (work s)) (new_tags s) (dirty s)) -> wp (modify f) Q E s.
Proof. intros H. exact H. Qed.

Lemma wp_gets {A} (f : Store -> A) (Q : A -> Session -> Prop) E s :
  Q (f (work s)) s -> wp (gets f) Q E s.
Proof. intros H. exact H. Qed.

(** The loop rule: an invariant kept by every turn holds at the end. *)
Lemma wp_for_each {A} (xs : list A) (body : A -> M unit)
    (I : Session -> Prop) (Q : unit -> Session -> Prop) E s :
  I s ->
  (forall x s', x ∈ xs -> I s' -> wp (body x) (fun _ => I) E s') ->
  (forall s', I s' -> Q tt s') ->
  wp (for_each xs body) Q E s.
Proof.
  revert s. induction xs as [| x xs IH]; intros s HI Hbody HQ; simpl.
  - apply wp_ret. by apply HQ.
  - apply wp_bind. eapply wp_mono.
    + apply Hbody; [left | exact HI].
    + intros u s' HI'. apply IH; [exact HI' | | exact HQ].
      intros y s'' Hy. apply Hbody. by right.
    + done.
Qed.

(** What a computation that returned has established. *)
Lemma wp_inr {A} (m : M A) Q E s a s' :
  wp m Q E s -> m s = inr (a, s') -> Q a s'.
Proof. unfold wp. intros H Hm. by rewrite Hm in H. Qed.

(** ** Facts about the unit of work *)

Lemma store_eta (s : Store) :
  mkStore (users s) (tasks s) (task_assignments s) (task_dependencies s)
    (tags s) (task_tags s) (task_history s) (next_task_id s)
    (next_assignment_id s) (next_dependency_id s) (next_tag_id s)
    (next_history_id s) = s.
Proof. by destruct s. Qed.

Lemma onupdate_nil now t : onupdate now [] t = t.
Proof.
  unfold onupdate. rewrite bool_decide_eq_false_2; [done |].
  apply not_elem_of_nil.
Qed.

Lemma map_onupdate_nil now (l : list Task.t) : map (onupdate now []) l = l.
Proof.
  induction l as [| t l IH]; simpl; [done |].
  by rewrite onupdate_nil, IH.
Qed.

Lemma onupdate_id now ids t : Task.id (onupdate now ids t) = Task.id t.
Proof. unfold onupdate. by destruct (bool_decide _). Qed.

Lemma title_null_pending_false (s : Session) :
  (forall i, (i, "title") ∉ dirty s) -> title_null_pending s = false.
Proof.
  intros H. unfold title_null_pending.
  apply not_true_is_false. intros Hex.
  apply existsb_exists in Hex as (t & _ & Ht).
  apply andb_true_iff in Ht as [Ht _].
  apply bool_decide_eq_true_1 in Ht. exact (H _ Ht).
Qed.

Lemma insert_tags_Some (pending table table' : list Tag.t) :
  insert_tags pending table = Some table' ->
  table' = table ++ pending
  /\ (NoDup (map Tag.name table) -> NoDup (map Tag.name table')).
Proof.
  revert table. induction pending as [| g rest IH]; intros table H; simpl in H.
  - inversion H; subst. by rewrite app_nil_r.
  - destruct (bool_decide (Tag.name g ∈ map Tag.name table)) eqn:Hin;
      [discriminate |].
    apply bool_decide_eq_false_1 in Hin.
    destruct (IH _ H) as [-> Hnd]. split.
    + by rewrite <- app_assoc.
    + intros Hn. apply Hnd. rewrite map_app. simpl.
      apply NoDup_app. split; [exact Hn |]. split.
      * intros x Hx Hx'. apply list_elem_of_singleton in Hx'. by subst.
      * apply NoDup_singleton.
Qed.

(** A flush with nothing pending changes nothing. *)
Lemma flush_clean now (s : Session) :
  new_tags s = [] -> dirty s = [] -> flush now s = inr (tt, s).
Proof.
  intros Hn Hd. unfold flush.
  rewrite title_null_pending_false
    by (intros i; rewrite Hd; apply not_elem_of_nil).
  rewrite Hn, Hd. simpl. unfold set_tags, set_tasks. simpl.
  rewrite map_onupdate_nil, store_eta.
  destruct s; simpl in *; by subst.
Qed.

Lemma find_app_r {A} (p : A -> bool) (l : list A) (x : A) :
  List.find p l = None -> p x = true -> List.find p (l ++ [x]) = Some x.
Proof.
  induction l as [| y l IH]; simpl; intros Hf Hp.
  - by rewrite Hp.
  - destruct (p y); [discriminate |]. by apply IH.
Qed.

Lemma wp_flush now (Q : unit -> Session -> Prop) (E : Exn -> Prop) s :
  (title_null_pending s = true
   ∨ insert_tags (new_tags s) (tags (work s)) = None -> E IntegrityError) ->
  (forall table,
     title_null_pending s = false ->
     insert_tags (new_tags s) (tags (work s)) = Some table ->
     Q tt (mkSession
             (set_tags (fun _ => table)
                (set_tasks (map (onupdate now (map fst (dirty s)))) (work s)))
             [] [])) ->
  wp (flush now) Q E s.
Proof.
  intros HE HQ. unfold wp, flush.
  destruct (title_null_pending s); [apply HE; by left |].
  destruct (insert_tags _ _) as [table |]; [by apply HQ | apply HE; by right].
Qed.

(** ** Invariants of a session *)

Lemma keeps_ret {A} I E (a : A) : keeps I E (ret a).
Proof. intros s H. exact H. Qed.

Lemma keeps_raise {A} I (E : Exn -> Prop) e : E e -> keeps I E (raise (A := A) e).
Proof. intros He s H. exact He. Qed.

Lemma keeps_bind {A B} I E (m : M A) (k : A -> M B) :
  keeps I E m -> (forall a, keeps I E (k a)) -> keeps I E (bind m k).
Proof.
  intros Hm Hk s Hs. apply wp_bind. eapply wp_mono; [by apply Hm | | done].
  intros a s' Hs'. by apply Hk.
Qed.

Lemma keeps_for_each {A} I E (xs : list A) (body : A -> M unit) :
  (forall x, keeps I E (body x)) -> keeps I E (for_each xs body).
Proof.
  intros Hbody s Hs. apply (wp_for_each _ _ I); [done | | done].
  intros x s' _ Hs'. by apply Hbody.
Qed.

Lemma keeps_modify I E (f : Store -> Store) :
  (forall s, I s -> I (mkSession (f (work s)) (new_tags s) (dirty s))) ->
  keeps I E (modify f).
Proof. intros H s Hs. by apply H. Qed.

Lemma keeps_gets {A} I E (f : Store -> A) : keeps I E (gets f).
Proof. intros s Hs. exact Hs. Qed.

Lemma keeps_task_object I (E : Exn -> Prop) task_id :
  E ObjectDeletedError -> keeps I E (task_object task_id).
Proof.
  intros He s Hs. unfold wp, task_object.
  by destruct (query_task_first task_id (work s)).
Qed.

Lemma keeps_inr {A} I E (m : M A) s a s' :
  keeps I E m -> I s -> m s = inr (a, s') -> I s'.
Proof. intros Hm Hs. by apply (wp_inr _ _ _ _ _ _ (Hm s Hs)). Qed.

(** A computation kept by [I] followed by a result. *)
Lemma wp_keeps_ret {A} I E (m : M unit) (a : A) (Q : A -> Session -> Prop) s :
  keeps I E m -> I s -> (forall s', I s' -> Q a s') ->
  wp (m;; ret a) Q E s.
Proof.
  intros Hm Hs HQ. apply wp_bind. eapply wp_mono; [by apply Hm | | done].
  intros u s' Hs'. apply wp_ret. by apply HQ.
Qed.

Create HintDb keeps.

(** Take a computation apart down to the flushes, which each invariant has
    its own lemma for (in the hint database [keeps]). *)
Ltac keeps_auto :=
  repeat first
    [ apply keeps_ret
    | apply keeps_gets
    | (apply keeps_raise; done)
    | (apply keeps_task_object; done)
    | (apply keeps_modify; intros ? ?; assumption)
    | (apply keeps_for_each; intros ?)
    | (apply keeps_bind; [| intros ?])
    | solve [auto with keeps nocore]
    | progress unfold before_query, delete_assignments, add_assignment,
        add_dependency, add_history, query_tag_first, tags_append, tags_clear,
        attach_tag, commit, refresh
    | match goal with
      | |- keeps _ _ (match ?x with _ => _ end) => destruct x
      end
    | solve [intros ? ?; assumption] ].

(** * Dependency edges *)

Lemma find_filter_nil {A} (p : A -> bool) (P : A -> Prop)
    `{forall x, Decision (P x)} (l : list A) :
  (forall x, p x = true -> P x) ->
  filter P l = [] -> List.find p l = None.
Proof.
  intros HpP. induction l as [| x l IH]; simpl; [done |].
  rewrite filter_cons. destruct (decide (P x)) as [HP | HP]; [discriminate |].
  intros Hf. destruct (p x) eqn:Hp; [by apply HpP in Hp | by apply IH].
Qed.

Lemma find_none_filter {A} (p : A -> bool) (P : A -> Prop)
    `{forall x, Decision (P x)} (l : list A) :
  (forall x, P x -> p x = true) ->
  List.find p l = None -> filter P l = [].
Proof.
  intros HPp. induction l as [| x l IH]; simpl; [done |].
  destruct (p x) eqn:Hp; [discriminate |]. intros Hf.
  rewrite filter_cons. destruct (decide (P x)) as [HP | _].
  - apply HPp in HP. congruence.
  - by apply IH.
Qed.

Lemma add_dependency_commit now task_id depends_on (st : Store) :
  (add_dependency now task_id depends_on;; commit now) (begin st)
  = inr (tt, begin
               (bump_dependency_id
                  (set_task_dependencies
                     (fun l => l ++ [TaskDependency.mk (next_dependency_id st)
                                       task_id depends_on now]) st))).
Proof.
  unfold bind, add_dependency, modify, commit, begin. simpl.
  by rewrite flush_clean.
Qed.

(** C6. For two existing tasks with no edge between them yet, the first
    [add_task_dependency] succeeds and inserts the edge, the second one with
    the same ordered pair is answered with the "already exists" error and
    writes nothing, and exactly one such edge is left.  If either task is
    missing the call is answered with not-found and nothing is inserted.
    (When the edge is there already, the first call is the one that is
    answered with "already exists".) *)
Theorem add_task_dependency_twice
    (w : World) (task_id depends_on now1 now2 : Z) :
  let r1 := TasksApi.add_task_dependency task_id depends_on now1 w in
  let r2 := TasksApi.add_task_dependency task_id depends_on now2 r1.2 in
  (is_Some (query_task_first task_id (db w)) ->
   is_Some (query_task_first depends_on (db w)) ->
   filter (is_edge task_id depends_on) (task_dependencies (db w)) = [] ->
     r1.1 = Returned "Dependency added successfully"
     ∧ task_dependencies (db r1.2)
       = task_dependencies (db w)
         ++ [TaskDependency.mk (next_dependency_id (db w)) task_id depends_on
               now1]
     ∧ r2 = (Raised (HTTPException HTTP_400_BAD_REQUEST
                       "Dependency already exists"), r1.2)
     ∧ length (filter (is_edge task_id depends_on)
                 (task_dependencies (db r2.2))) = 1%nat)
  ∧ (query_task_first task_id (db w) = None
     ∨ query_task_first depends_on (db w) = None ->
     r1 = (Raised (HTTPException HTTP_404_NOT_FOUND
                     "One or both tasks not found"), w))
  ∧ (is_Some (query_task_first task_id (db w)) ->
     is_Some (query_task_first depends_on (db w)) ->
     filter (is_edge task_id depends_on) (task_dependencies (db w)) ≠ [] ->
     r1 = (Raised (HTTPException HTTP_400_BAD_REQUEST
                     "Dependency already exists"), w)).
Proof.
  intros r1 r2. split; [| split].
  - intros [t Ht] [d Hd] Hnone.
    assert (Hq : query_dependency_first task_id depends_on (db w) = None).
    { unfold query_dependency_first.
      eapply find_filter_nil; [| exact Hnone].
      intros x Hx. apply andb_true_iff in Hx as [H1 H2].
      apply bool_decide_eq_true in H1, H2. by split. }
    assert (Hr1 : r1 = (Returned "Dependency added successfully",
                        mkWorld (autoflush w)
                          (bump_dependency_id
                             (set_task_dependencies
                                (fun l => l ++ [TaskDependency.mk
                                                  (next_dependency_id (db w))
                                                  task_id depends_on now1])
                                (db w)))
                          (redis w))).
    { subst r1. unfold TasksApi.add_task_dependency.
      rewrite Ht, Hd, Hq, add_dependency_commit. done. }
    assert (Hr2 : r2 = (Raised (HTTPException HTTP_400_BAD_REQUEST
                                  "Dependency already exists"), r1.2)).
    { subst r2. rewrite Hr1. unfold TasksApi.add_task_dependency. simpl.
      unfold query_task_first in *. simpl. rewrite Ht, Hd.
      unfold query_dependency_first in *. simpl.
      erewrite find_app_r; [done | exact Hq |].
      simpl. by rewrite !bool_decide_eq_true_2. }
    rewrite Hr2. rewrite Hr1. simpl. repeat split.
    rewrite filter_app, Hnone. simpl.
    rewrite filter_cons, decide_True; [done |]. by split.
  - intros Hmiss. subst r1. unfold TasksApi.add_task_dependency.
    destruct Hmiss as [-> | ->]; [done |].
    by destruct (query_task_first task_id (db w)).
  - intros [t Ht] [d Hd] Hsome. subst r1.
    unfold TasksApi.add_task_dependency. rewrite Ht, Hd.
    destruct (query_dependency_first task_id depends_on (db w)) eqn:Hq;
      [done |].
    destruct Hsome. unfold query_dependency_first in Hq.
    eapply find_none_filter; [| exact Hq].
    intros x [H1 H2]. by rewrite !bool_decide_eq_true_2.
Qed.

Lemma add_task_dependency_twice_witness :
  (TasksApi.add_task_dependency 1 2 30 two_tasks).1
  = Returned "Dependency added successfully"
  ∧ TasksApi.add_task_dependency 1 5 30 two_tasks
    = (Raised (HTTPException HTTP_404_NOT_FOUND "One or both tasks not found"),
       two_tasks).
Proof.
  split.
  - refine (proj1 (proj1 (add_task_dependency_twice two_tasks 1 2 30 40) _ _ _)).
    + vm_compute. by eexists.
    + vm_compute. by eexists.
    + vm_compute. reflexivity.
  - refine (proj1 (proj2 (add_task_dependency_twice two_tasks 1 5 30 40)) _).
    right. vm_compute. reflexivity.
Defined.

(** * Filtering *)

Lemma sql_in_true {A} `{EqDecision A} (c : option A) (l : list A) :
  sql_in c l = true <-> exists x, c = Some x ∧ x ∈ l.
Proof.
  destruct c as [a |]; simpl.
  - rewrite bool_decide_eq_true. split; [eauto |].
    by intros (x & [= ->] & Hx).
  - split; [discriminate | by intros (x & ? & _)].
Qed.

Lemma sql_ge_true (c : option Z) (d : Z) :
  sql_ge c d = true <-> exists x, c = Some x ∧ d <= x.
Proof.
  destruct c as [a |]; simpl.
  - rewrite bool_decide_eq_true. split; [eauto |].
    by intros (x & [= ->] & Hx).
  - split; [discriminate | by intros (x & ? & _)].
Qed.

Lemma sql_le_true (c : option Z) (d : Z) :
  sql_le c d = true <-> exists x, c = Some x ∧ x <= d.
Proof.
  destruct c as [a |]; simpl.
  - rewrite bool_decide_eq_true. split; [eauto |].
    by intros (x & [= ->] & Hx).
  - split; [discriminate | by intros (x & ? & _)].
Qed.

(** The conditions the code builds decide the criteria of the spec, one for
    one. *)
Lemma filter_conditions_criteria (f : TaskFilterRequest) :
  Forall2 (fun (c : Task.t -> bool) (P : Task.t -> Prop) =>
             forall t, c t = true <-> P t)
    (TaskService.filter_conditions f) (column_criteria f).
Proof.
  unfold TaskService.filter_conditions, column_criteria.
  repeat apply Forall2_app.
  - destruct (truthy (fr_status f)); constructor; [| constructor].
    intros t. apply sql_in_true.
  - destruct (truthy (fr_priority f)); constructor; [| constructor].
    intros t. apply sql_in_true.
  - destruct (fr_due_date_from f); constructor; [| constructor].
    intros t. apply sql_ge_true.
  - destruct (fr_due_date_to f); constructor; [| constructor].
    intros t. apply sql_le_true.
  - destruct (fr_created_after f); constructor; [| constructor].
    intros t. apply bool_decide_eq_true.
Qed.

Lemma forallb_Forall2 {A} (cs : list (A -> bool)) (Ps : list (A -> Prop)) t :
  Forall2 (fun c P => forall t, c t = true <-> P t) cs Ps ->
  forallb (fun c => c t) cs = true <-> Forall (fun P => P t) Ps.
Proof.
  induction 1 as [| c P cs Ps HcP _ IH]; simpl.
  - split; [constructor | done].
  - rewrite andb_true_iff, Forall_cons, IH, HcP. done.
Qed.

Lemma existsb_Forall2 {A} (cs : list (A -> bool)) (Ps : list (A -> Prop)) t :
  Forall2 (fun c P => forall t, c t = true <-> P t) cs Ps ->
  existsb (fun c => c t) cs = true <-> Exists (fun P => P t) Ps.
Proof.
  induction 1 as [| c P cs Ps HcP _ IH]; simpl.
  - split; [discriminate | by intros H%Exists_nil].
  - rewrite orb_true_iff, Exists_cons, IH, HcP. done.
Qed.

Lemma elem_of_join_assignments s ids query t :
  t ∈ TaskService.join_assignments s ids query
  <-> t ∈ query ∧ has_assignee s ids t.
Proof.
  unfold TaskService.join_assignments, has_assignee.
  rewrite list_elem_of_In, in_flat_map. split.
  - intros (t' & Ht' & Hin). apply in_map_iff in Hin as (a & <- & Ha).
    apply list_elem_of_In, list_elem_of_filter in Ha as [[H1 H2] Ha].
    split; [by apply list_elem_of_In |]. eauto.
  - intros [Ht (a & Ha & H1 & H2)]. exists t. split; [by apply list_elem_of_In |].
    apply in_map_iff. exists a. split; [done |].
    apply list_elem_of_In, list_elem_of_filter. done.
Qed.

Lemma elem_of_join_tags s names query t :
  t ∈ TaskService.join_tags s names query
  <-> t ∈ query ∧ has_tag s names t.
Proof.
  unfold TaskService.join_tags, has_tag.
  rewrite list_elem_of_In, in_flat_map. split.
  - intros (t' & Ht' & Hin). apply in_flat_map in Hin as (r & Hr & Hin).
    apply in_map_iff in Hin as (g & <- & Hg).
    apply list_elem_of_In, list_elem_of_filter in Hr as [Hr1 Hr].
    apply list_elem_of_In, list_elem_of_filter in Hg as [[Hg1 Hg2] Hg].
    split; [by apply list_elem_of_In |]. exists r, g. done.
  - intros [Ht (r & g & Hr & Hr1 & Hg & Hg1 & Hg2)].
    exists t. split; [by apply list_elem_of_In |].
    apply in_flat_map. exists r. split.
    + apply list_elem_of_In, list_elem_of_filter. done.
    + apply in_map_iff. exists g. split; [done |].
      apply list_elem_of_In, list_elem_of_filter. done.
Qed.

(** Membership in the result of [filter_tasks]. *)
Lemma elem_of_filter_tasks (f : TaskFilterRequest) (user_id : Z) (w : World)
    (t : Task.t) :
  t ∈ TaskService.filter_tasks f user_id w
  <-> t ∈ tasks (db w)
      ∧ (truthy (fr_assignee_ids f) = true ->
         has_assignee (db w) (default [] (fr_assignee_ids f)) t)
      ∧ (truthy (fr_tags f) = true ->
         has_tag (db w) (default [] (fr_tags f)) t)
      ∧ columns_hold f t.
Proof.
  unfold TaskService.filter_tasks, columns_hold. cbv zeta.
  rewrite elem_of_remove_dups.
  pose proof (filter_conditions_criteria f) as HF.
  set (q1 := if truthy (fr_assignee_ids f) then _ else _).
  set (q2 := if truthy (fr_tags f) then _ else _).
  assert (H1 : t ∈ q1 <-> t ∈ tasks (db w)
                 ∧ (truthy (fr_assignee_ids f) = true ->
                    has_assignee (db w) (default [] (fr_assignee_ids f)) t)).
  { subst q1. destruct (truthy (fr_assignee_ids f)).
    - rewrite elem_of_join_assignments. intuition congruence.
    - intuition congruence. }
  assert (H2 : t ∈ q2 <-> t ∈ q1
                 ∧ (truthy (fr_tags f) = true ->
                    has_tag (db w) (default [] (fr_tags f)) t)).
  { subst q2. destruct (truthy (fr_tags f)).
    - rewrite elem_of_join_tags. intuition congruence.
    - intuition congruence. }
  destruct HF as [| c P cs Ps HcP HF'].
  - rewrite H2, H1. intuition congruence.
  - assert (HF : Forall2 (fun c P => forall t : Task.t, c t = true <-> P t)
                   (c :: cs) (P :: Ps)) by (by constructor).
    destruct (decide (fr_logic f = "AND")) as [Hl | Hl].
    + rewrite bool_decide_eq_true_2 by done.
      rewrite list_elem_of_In, filter_In, <- list_elem_of_In.
      rewrite (forallb_Forall2 _ _ t HF), H2, H1. intuition congruence.
    + rewrite bool_decide_eq_false_2 by done.
      rewrite list_elem_of_In, filter_In, <- list_elem_of_In.
      rewrite (existsb_Forall2 _ _ t HF), H2, H1. intuition congruence.
Qed.

(** C3, as the code has it.  In the result of [filter_tasks] the column
    criteria (status, priority, due date range, created after) that count
    are combined under the mode the caller chose, the assignee and tag
    criteria that count are required whatever the mode, and every matching
    task occurs exactly once.  A list criterion (status, priority, assignee
    ids, tags) counts only when its list is not empty: the code tests the
    list for truth ([if filters.status:]), so an empty list is passed over
    like an absent one. *)
Theorem filter_tasks_spec (f : TaskFilterRequest) (user_id : Z) (w : World) :
  NoDup (TaskService.filter_tasks f user_id w)
  ∧ forall t,
      t ∈ TaskService.filter_tasks f user_id w
      <-> t ∈ tasks (db w)
          ∧ (truthy (fr_assignee_ids f) = true ->
             has_assignee (db w) (default [] (fr_assignee_ids f)) t)
          ∧ (truthy (fr_tags f) = true ->
             has_tag (db w) (default [] (fr_tags f)) t)
          ∧ columns_hold f t.
Proof.
  split.
  - unfold TaskService.filter_tasks. cbv zeta. apply NoDup_remove_dups.
  - intros t. apply elem_of_filter_tasks.
Qed.

(** C3 as the spec words it fails on a supplied empty list.  On the two
    tasks of [two_tasks], a request with [status = []] under "AND" asks for
    the tasks whose status is in the empty set, and a request with
    [assignee_ids = []] for the tasks assigned to one of no users: no task
    meets either, and [filter_tasks] returns both tasks each time. *)
Lemma filter_tasks_empty_list :
  let f1 := mkTaskFilterRequest (Some []) None None None None None None "AND" in
  let f2 := mkTaskFilterRequest None None (Some []) None None None None "OR" in
  TaskService.filter_tasks f1 1 two_tasks = tasks (db two_tasks)
  ∧ ¬ filter_tasks_as_worded f1 (TaskService.filter_tasks f1 1 two_tasks)
        (db two_tasks)
  ∧ TaskService.filter_tasks f2 1 two_tasks = tasks (db two_tasks)
  ∧ ¬ filter_tasks_as_worded f2 (TaskService.filter_tasks f2 1 two_tasks)
        (db two_tasks).
Proof.
  intros f1 f2.
  assert (H1 : TaskService.filter_tasks f1 1 two_tasks = tasks (db two_tasks))
    by (vm_compute; reflexivity).
  assert (H2 : TaskService.filter_tasks f2 1 two_tasks = tasks (db two_tasks))
    by (vm_compute; reflexivity).
  assert (Ha : task_a ∈ tasks (db two_tasks))
    by (apply (bool_decide_unpack _); vm_compute; exact I).
  rewrite H1, H2. clear H1 H2. subst f1 f2. repeat split.
  - intros [_ H]. apply H in Ha as (_ & _ & _ & Hc).
    cbn in Hc. apply Forall_singleton in Hc as (x & _ & Hx).
    by apply elem_of_nil in Hx.
  - intros [_ H]. apply H in Ha as (_ & Hassignee & _).
    destruct (Hassignee eq_refl) as (a & _ & _ & Hx).
    by apply elem_of_nil in Hx.
Qed.

(** * Analytics *)

(** C7, at an input on which the code departs from it.  The store holds one
    task, due at 50 and not done, and the cache is empty.  At instant 100 the
    overdue query counts the task, but the call does not get to report it:
    the user-distribution query that follows cannot be run ([func.case] is
    not the CASE construct), so [get_analytics] raises, returns no dashboard
    and caches nothing, and the call repeated ten seconds later misses the
    cache and raises again. *)
Theorem get_analytics_raises :
  let r1 := TasksApi.get_analytics 100 due_task_world in
  let r2 := TasksApi.get_analytics 110 r1.2 in
  count (TaskService.overdue 100) (tasks (db due_task_world)) = 1
  ∧ Redis.get analytics_key 100 (redis due_task_world) = None
  ∧ r1 = (Raised StatementError, due_task_world)
  ∧ r2 = (Raised StatementError, due_task_world).
Proof. vm_compute. done. Qed.

(** * Deleting a task *)

Lemma flush_inr now (s s' : Session) (u : unit) :
  flush now s = inr (u, s') ->
  exists table,
    insert_tags (new_tags s) (tags (work s)) = Some table
    ∧ s' = mkSession
             (set_tags (fun _ => table)
                (set_tasks (map (onupdate now (map fst (dirty s)))) (work s)))
             [] [].
Proof.
  unfold flush. destruct (title_null_pending s); [discriminate |].
  destruct (insert_tags _ _) as [table |]; [| discriminate].
  intros [= <- <-]. eauto.
Qed.

Lemma query_task_first_Some task_id (s : Store) (t : Task.t) :
  query_task_first task_id s = Some t -> t ∈ tasks s ∧ Task.id t = task_id.
Proof.
  unfold query_task_first. intros H. apply find_some in H as [Hin Hid].
  apply bool_decide_eq_true in Hid. split; [by apply list_elem_of_In | done].
Qed.

Lemma detach_child_id task_id t : Task.id (detach_child task_id t) = Task.id t.
Proof. unfold detach_child. by destruct (bool_decide _). Qed.

(** After a successful [delete_task] no row of the store mentions the task:
    the task row, its history, its assignments and its dependency edges in
    both directions are gone, and [filter_tasks] cannot return it. *)
Lemma delete_task_removes_rows (w w' : World) (task_id now : Z) :
  TasksApi.delete_task task_id now w = (Returned tt, w') ->
  (forall t, t ∈ tasks (db w') -> Task.id t ≠ task_id)
  ∧ (forall h, h ∈ task_history (db w') -> TaskHistory.task_id h ≠ task_id)
  ∧ (forall a, a ∈ task_assignments (db w') ->
       TaskAssignment.task_id a ≠ task_id)
  ∧ (forall d, d ∈ task_dependencies (db w') ->
       TaskDependency.task_id d ≠ task_id
       ∧ TaskDependency.depends_on_task_id d ≠ task_id)
  ∧ (forall f u t, t ∈ TaskService.filter_tasks f u w' -> Task.id t ≠ task_id).
Proof.
  unfold TasksApi.delete_task.
  destruct (query_task_first task_id (db w)) as [task |] eqn:Hq; [| discriminate].
  apply query_task_first_Some in Hq as [_ Hid]. rewrite Hid.
  unfold bind, delete_task_object, commit. simpl.
  destruct (blocked_by_others task_id (db w)) as [| b bs] eqn:Hb; [| discriminate].
  destruct (flush now _) as [e | [u s']] eqn:Hf; [discriminate |].
  intros [= <-]. apply flush_inr in Hf as (table & _ & ->). simpl.
  assert (Htasks : forall t,
             t ∈ map (onupdate now
                        (map fst
                           (map (fun t => (Task.id t, "parent_task_id"))
                              (filter (fun t => Task.parent_task_id t = Some task_id
                                                ∧ Task.id t ≠ task_id)
                                 (tasks (db w))))))
                   (map (detach_child task_id)
                      (filter (fun t => Task.id t ≠ task_id) (tasks (db w)))) ->
             Task.id t ≠ task_id).
  { intros t Ht. apply list_elem_of_fmap in Ht as (t1 & -> & Ht1).
    apply list_elem_of_fmap in Ht1 as (t2 & -> & Ht2).
    apply list_elem_of_filter in Ht2 as [Hne _].
    by rewrite onupdate_id, detach_child_id. }
  split; [exact Htasks |]. split; [| split; [| split]].
  - intros h Hh. by apply list_elem_of_filter in Hh as [Hne _].
  - intros a Ha. by apply list_elem_of_filter in Ha as [Hne _].
  - intros d Hd. apply list_elem_of_filter in Hd as [Hne Hd].
    split; [done |]. intros Hdep.
    assert (Hin : d ∈ blocked_by_others task_id (db w)).
    { unfold blocked_by_others. apply list_elem_of_filter. done. }
    rewrite Hb in Hin. by apply not_elem_of_nil in Hin.
  - intros f uid t Ht. apply elem_of_filter_tasks in Ht as [Ht _].
    simpl in Ht. by apply Htasks.
Qed.

(** C2, at the input on which the code departs from it.  Task 1 is read once
    (which caches it for 300 seconds) and then deleted.  The delete succeeds
    and the row is gone, but [delete_task] only invalidates the dashboard
    entry: a [get] on the same id ten seconds later is answered from the
    cache instead of not-found, and not-found comes back only once the entry
    has expired. *)
Theorem get_task_after_delete_is_cached :
  let w1 := (TasksApi.get_task 1 30 two_tasks).2 in
  let r := TasksApi.delete_task 1 40 w1 in
  r.1 = Returned tt
  ∧ query_task_first 1 (db r.2) = None
  ∧ (TasksApi.get_task 1 50 r.2).1
    = Returned (Decoded (JString "<app.models.task.Task object>"))
  ∧ (TasksApi.get_task 1 (30 + seconds 300) r.2).1
    = Raised (HTTPException HTTP_404_NOT_FOUND "Task not found").
Proof. vm_compute. done. Qed.

(** * The timeline *)

Lemma insert_desc_perm h l : insert_desc h l ≡ₚ h :: l.
Proof.
  induction l as [| x l IH]; simpl; [done |].
  destruct (bool_decide _); [done |].
  rewrite IH. apply Permutation_swap.
Qed.

Lemma order_by_changed_at_desc_perm l : order_by_changed_at_desc l ≡ₚ l.
Proof.
  unfold order_by_changed_at_desc.
  induction l as [| x l IH]; simpl; [done |].
  by rewrite insert_desc_perm, IH.
Qed.

Lemma insert_desc_sorted h l :
  newest_first l -> newest_first (insert_desc h l).
Proof.
  unfold newest_first.
  induction 1 as [| x l Hs IH Hx]; simpl.
  - repeat constructor.
  - destruct (bool_decide _) eqn:Hlt.
    + apply bool_decide_eq_true in Hlt.
      constructor; [by constructor |].
      constructor; [lia |].
      eapply Forall_impl; [exact Hx |]. simpl. intros y Hy. lia.
    + apply bool_decide_eq_false in Hlt.
      constructor; [exact IH |].
      rewrite insert_desc_perm. constructor; [lia | exact Hx].
Qed.

Lemma order_by_changed_at_desc_sorted l :
  newest_first (order_by_changed_at_desc l).
Proof.
  unfold order_by_changed_at_desc.
  induction l as [| x l IH]; simpl; [constructor |].
  by apply insert_desc_sorted.
Qed.

Lemma filter_none {A} (P : A -> Prop) `{forall x, Decision (P x)} (l : list A) :
  (forall x, x ∈ l -> ~ P x) -> filter P l = [].
Proof.
  induction l as [| y l IH]; intros Hl; [done |].
  rewrite filter_cons_False by (apply Hl; left).
  apply IH. intros x Hx. apply Hl. by right.
Qed.

Lemma filter_ext_in {A} (P Q : A -> Prop) `{forall x, Decision (P x)}
    `{forall x, Decision (Q x)} (l : list A) :
  (forall x, x ∈ l -> P x <-> Q x) -> filter P l = filter Q l.
Proof.
  induction l as [| y l IH]; intros Hl; [done |].
  rewrite !filter_cons.
  assert (Hy : P y <-> Q y) by (apply Hl; left).
  rewrite IH by (intros x Hx; apply Hl; by right).
  destruct (decide (P y)), (decide (Q y)); tauto.
Qed.

(** A key that occurs once selects one row. *)
Lemma filter_key_unique {A} (key : A -> Z) (k : Z) (l : list A) :
  NoDup (map key l) ->
  (exists x, x ∈ l ∧ key x = k) ->
  exists x, filter (fun y => k = key y) l = [x].
Proof.
  induction l as [| y l IH]; simpl; intros Hnd (x & Hx & Hk).
  - by apply elem_of_nil in Hx.
  - apply NoDup_cons in Hnd as [Hy Hnd]. rewrite filter_cons.
    destruct (decide (k = key y)) as [Heq | Hne].
    + exists y. f_equal. apply filter_none. intros z Hz Hkz.
      apply Hy. rewrite <- Heq, Hkz. by apply list_elem_of_fmap_2.
    + apply IH; [exact Hnd |]. exists x. split; [| done].
      apply elem_of_cons in Hx as [-> | Hx]; [congruence | done].
Qed.

(** With the keys in order, joining the history with its task and its user
    neither drops nor repeats a row. *)
Lemma history_joined_id (s : Store) :
  history_keys_ok s -> TaskService.history_joined s = task_history s.
Proof.
  intros (Ht & Hu & Hfk). unfold TaskService.history_joined.
  induction Hfk as [| h l [Hht Hhu] _ IH]; simpl; [done |].
  apply Exists_exists in Hht, Hhu.
  destruct (filter_key_unique Task.id (TaskHistory.task_id h) (tasks s) Ht Hht)
    as [t ->].
  destruct (filter_key_unique User.id (TaskHistory.user_id h) (users s) Hu Hhu)
    as [u ->].
  simpl. by rewrite IH.
Qed.

Lemma elem_of_user_task_ids (s : Store) (user_id task_id : Z) :
  task_id ∈ map TaskAssignment.task_id
              (filter (fun a => TaskAssignment.user_id a = user_id)
                 (task_assignments s))
  <-> assigned_to s user_id task_id.
Proof.
  unfold assigned_to. rewrite Exists_exists. split.
  - intros H. apply list_elem_of_fmap in H as (a & -> & Ha).
    apply list_elem_of_filter in Ha as [Hu Ha]. eauto.
  - intros (a & Ha & Hu & <-). apply list_elem_of_fmap_2.
    apply list_elem_of_filter. done.
Qed.

(** C8. For a window of 1 to 30 days, on a store whose keys are in order and
    whose history lies in the past, the timeline of a user is exactly the
    history entries of the tasks currently assigned to the user that were
    recorded within the window, most recent first. *)
Theorem get_my_timeline_spec (w : World) (user_id days now : Z) :
  1 <= days <= 30 ->
  history_keys_ok (db w) ->
  Forall (fun h => TaskHistory.changed_at h <= now) (task_history (db w)) ->
  exists l,
    TasksApi.get_my_timeline days user_id now w = Returned l
    ∧ l ≡ₚ filter (timeline_entry (db w) user_id days now)
             (task_history (db w))
    ∧ newest_first l.
Proof.
  intros Hdays Hkeys Hpast. unfold TasksApi.get_my_timeline.
  rewrite bool_decide_eq_true_2 by done.
  eexists. split; [reflexivity |].
  unfold TaskService.get_user_timeline. cbv zeta. split.
  - rewrite order_by_changed_at_desc_perm, history_joined_id by done.
    erewrite filter_ext_in; [reflexivity |].
    intros h Hh. unfold timeline_entry.
    rewrite elem_of_user_task_ids.
    rewrite Forall_forall in Hpast. specialize (Hpast h Hh). simpl in Hpast.
    intuition lia.
  - apply order_by_changed_at_desc_sorted.
Qed.

Lemma get_my_timeline_spec_witness :
  exists l,
    TasksApi.get_my_timeline 7 7 (seconds 900100) timeline_world = Returned l
    ∧ l ≡ₚ filter (timeline_entry (db timeline_world) 7 7 (seconds 900100))
             (task_history (db timeline_world))
    ∧ newest_first l.
Proof.
  apply (get_my_timeline_spec timeline_world 7 7 (seconds 900100)).
  - lia.
  - apply (bool_decide_unpack _). vm_compute. exact I.
  - apply (bool_decide_unpack _). vm_compute. exact I.
Defined.

(** * Tags *)

Lemma keeps_tags_flush T0 now : keeps (tags_grow T0) may_raise (flush now).
Proof.
  intros s [Hu Hp]. apply wp_flush; [done |].
  intros table _ Hins. apply insert_tags_Some in Hins as [-> Hnd].
  split; simpl.
  - by apply Hnd.
  - by apply prefix_app_r.
Qed.

Lemma keeps_tags_delete_task_object T0 task_id :
  keeps (tags_grow T0) may_raise (delete_task_object task_id).
Proof.
  intros s H. unfold wp, delete_task_object.
  destruct (blocked_by_others task_id (work s)); [exact H | exact Logic.I].
Qed.

#[local] Hint Resolve keeps_tags_flush keeps_tags_delete_task_object : keeps.

Lemma keeps_tags_update_fields T0 af now task_id items changes :
  keeps (tags_grow T0) may_raise
    (TaskService.update_fields af now task_id items changes).
Proof.
  revert changes. induction items as [| [field value] items IH]; intros changes;
    simpl; [apply keeps_ret |].
  apply keeps_bind; [| intros c; apply IH].
  unfold TaskService.update_field.
  assert (Hgen : keeps (tags_grow T0) may_raise
            (let* task := task_object task_id in
             match getattr task field with
             | inl e => raise e
             | inr old_value =>
                 if bool_decide (old_value ≠ value)
                 then assign task_id field value;;
                      ret (changes ++ [(field_name field, Str old_value,
                                        Str value)])
                 else ret changes
             end)) by keeps_auto.
  destruct field; try exact Hgen; destruct value; try exact Hgen; keeps_auto.
Qed.

Lemma keeps_tags_bulk_update_loop T0 af bulk_data user_id now ts n :
  keeps (tags_grow T0) may_raise
    (TaskService.bulk_update_loop af bulk_data user_id now ts n).
Proof.
  revert n. induction ts as [| t ts IH]; intros n; simpl; [apply keeps_ret |].
  apply keeps_bind; [| intros changes; apply IH].
  unfold TaskService.bulk_update_one. cbv zeta. keeps_auto.
Qed.

#[local] Hint Resolve keeps_tags_update_fields keeps_tags_bulk_update_loop
  : keeps.

Lemma tags_grow_begin (st : Store) :
  tag_names_unique st -> tags_grow (tags st) (begin st).
Proof. intros H. split; [exact H | done]. Qed.

(** Serving one request keeps tag names unique and keeps the tag rows there
    were. *)
Lemma serve_tags now (r : Request) (w : World) :
  tag_names_unique (db w) ->
  tag_names_unique (db (serve now r w))
  ∧ tags (db w) `prefix_of` tags (db (serve now r w)).
Proof.
  intros Hu. pose proof (tags_grow_begin (db w) Hu) as Hb.
  assert (Hsame : tag_names_unique (db w) ∧ tags (db w) `prefix_of` tags (db w))
    by done.
  destruct r; simpl;
    unfold TasksApi.create_task, TaskService.create_task,
      TasksApi.get_task, TaskService.get_task,
      TasksApi.update_task, TaskService.update_task,
      TasksApi.delete_task,
      TasksApi.bulk_update_tasks, TaskService.bulk_update_tasks,
      TasksApi.get_analytics, TaskService.get_analytics,
      TasksApi.add_task_dependency, TasksApi.remove_task_dependency;
    cbv zeta;
    repeat match goal with
      | |- context [match Redis.get ?k ?n ?r with _ => _ end] =>
          destruct (Redis.get k n r)
      | |- context [match query_task_first ?i ?st with _ => _ end] =>
          destruct (query_task_first i st)
      | |- context [match query_dependency_first ?i ?j ?st with _ => _ end] =>
          destruct (query_dependency_first i j st)
      end;
    try exact Hsame;
    match goal with
    | |- context [match ?b (begin (db w)) with _ => _ end] =>
        destruct (b (begin (db w))) as [e | [a s']] eqn:Hbody
    end;
    try exact Hsame;
    simpl;
    refine (keeps_inr (tags_grow (tags (db w))) may_raise _ _ _ _ _ Hb Hbody);
    keeps_auto.
Qed.

(** With nothing pending, [attach_tag] attaches the row that has the name
    when there is one and creates no row; it creates a row only when the
    lookup finds none. *)
Lemma attach_tag_get_or_create af now task_id tag_name (st : Store) :
  match List.find (fun g => bool_decide (Tag.name g = tag_name)) (tags st) with
  | Some g =>
      attach_tag af now task_id tag_name (begin st)
      = inr (tt, begin (set_task_tags (fun l => l ++ [(task_id, Tag.id g)]) st))
  | None =>
      attach_tag af now task_id tag_name (begin st)
      = inr (tt, mkSession
                   (set_task_tags
                      (fun l => l ++ [(task_id, next_tag_id st)])
                      (bump_tag_id st))
                   [Tag.mk (next_tag_id st) tag_name] [])
  end.
Proof.
  unfold attach_tag, query_tag_first, before_query, bind, gets.
  assert (Hf : (if af then flush now else ret tt) (begin st)
               = inr (tt, begin st)).
  { destruct af; [by apply flush_clean | done]. }
  rewrite Hf. simpl. by destruct (List.find _ _).
Qed.

(** C9. Tags are resolved by name.  Each requested name is looked up first
    and a row is created only when the lookup finds none; whatever requests
    are served, a store whose tag names are unique keeps them unique, and the
    tag rows it had stay in place. *)
Theorem tag_names_stay_unique (rs : list (Z * Request)) (w : World) :
  tag_names_unique (db w) ->
  (forall af now task_id tag_name g,
     List.find (fun g => bool_decide (Tag.name g = tag_name)) (tags (db w))
     = Some g ->
     attach_tag af now task_id tag_name (begin (db w))
     = inr (tt, begin (set_task_tags
                         (fun l => l ++ [(task_id, Tag.id g)]) (db w))))
  ∧ tag_names_unique (db (serve_all rs w))
  ∧ tags (db w) `prefix_of` tags (db (serve_all rs w)).
Proof.
  intros Hu. split.
  { intros af now task_id tag_name g Hg.
    pose proof (attach_tag_get_or_create af now task_id tag_name (db w)) as H.
    by rewrite Hg in H. }
  revert w Hu. induction rs as [| [now r] rs IH]; intros w Hu; simpl; [done |].
  destruct (serve_tags now r w Hu) as [Hu' Hp'].
  destruct (IH _ Hu') as [Hu'' Hp'']. split; [exact Hu'' |].
  by transitivity (tags (db (serve now r w))).
Qed.

Lemma tag_names_stay_unique_witness :
  tag_names_unique (db (serve_all tagging_requests (empty_world false)))
  ∧ tags (db (empty_world false))
    `prefix_of` tags (db (serve_all tagging_requests (empty_world false))).
Proof.
  apply (tag_names_stay_unique tagging_requests (empty_world false)).
  apply (bool_decide_unpack _). vm_compute. exact I.
Defined.

(** * Partial updates *)

Arguments TaskService.update_field : simpl never.

Lemma dict_exclude_unset_split (d : TaskUpdate) :
  dict_exclude_unset d
  = scalar_items d
    ++ item F_assignee_ids PIntList (tu_assignee_ids d)
    ++ item F_tag_names PStrList (tu_tag_names d).
Proof.
  unfold dict_exclude_unset, scalar_items. by rewrite <- !app_assoc.
Qed.

Lemma scalar_items_scalar (d : TaskUpdate) :
  Forall (fun it => is_scalar it.1 = true) (scalar_items d).
Proof.
  unfold scalar_items, item.
  repeat apply Forall_app_2;
    match goal with
    | |- Forall _ (match ?o with _ => _ end) =>
        destruct o; repeat constructor
    end.
Qed.

Lemma update_fields_app af now task_id l1 l2 changes s :
  TaskService.update_fields af now task_id (l1 ++ l2) changes s
  = (let* c := TaskService.update_fields af now task_id l1 changes in
     TaskService.update_fields af now task_id l2 c) s.
Proof.
  revert changes s. induction l1 as [| [f v] l1 IH]; intros changes s.
  - reflexivity.
  - simpl. unfold bind.
    destruct (TaskService.update_field af now task_id f v changes s)
      as [e | [c s']]; [reflexivity |].
    apply IH.
Qed.

Lemma wp_update_fields_app af now task_id l1 l2 changes Q E s :
  wp (TaskService.update_fields af now task_id l1 changes)
     (fun c => wp (TaskService.update_fields af now task_id l2 c) Q E) E s ->
  wp (TaskService.update_fields af now task_id (l1 ++ l2) changes) Q E s.
Proof.
  intros H. unfold wp at 1. rewrite update_fields_app. by apply wp_bind.
Qed.

Lemma setattr_id t f v : Task.id (setattr t f v) = Task.id t.
Proof. destruct f, v; reflexivity. Qed.

Lemma find_task_map (g : Task.t -> Task.t) task_id (l : list Task.t) :
  (forall t, Task.id (g t) = Task.id t) ->
  List.find (fun t => bool_decide (Task.id t = task_id)) (map g l)
  = g <$> List.find (fun t => bool_decide (Task.id t = task_id)) l.
Proof.
  intros Hg. induction l as [| t l IH]; simpl; [done |].
  rewrite Hg. by destruct (bool_decide (Task.id t = task_id)).
Qed.

(** One turn of the loop on a scalar field, spelled out. *)
Lemma update_field_scalar af now task_id f v changes s t :
  is_scalar f = true ->
  query_task_first task_id (work s) = Some t ->
  exists old_value,
    getattr t f = inr old_value
    ∧ TaskService.update_field af now task_id f v changes s
      = if bool_decide (old_value ≠ v)
        then inr (changes ++ [(field_name f, Str old_value, Str v)],
                  mkSession
                    (set_tasks
                       (map (fun t => if bool_decide (Task.id t = task_id)
                                      then setattr t f v else t))
                       (work s))
                    (new_tags s)
                    (dirty s ++ [(task_id, field_name f)]))
        else inr (changes, s).
Proof.
  intros Hf Hq.
  assert (Hgen : forall old_value, getattr t f = inr old_value ->
            (let* task := task_object task_id in
             match getattr task f with
             | inl e => raise e
             | inr old_value =>
                 if bool_decide (old_value ≠ v)
                 then assign task_id f v;;
                      ret (changes ++ [(field_name f, Str old_value, Str v)])
                 else ret changes
             end) s
            = if bool_decide (old_value ≠ v)
              then inr (changes ++ [(field_name f, Str old_value, Str v)],
                        mkSession
                          (set_tasks
                             (map (fun t => if bool_decide (Task.id t = task_id)
                                            then setattr t f v else t))
                             (work s))
                          (new_tags s)
                          (dirty s ++ [(task_id, field_name f)]))
              else inr (changes, s)).
  { intros old_value Hg. unfold bind, task_object. rewrite Hq, Hg.
    by destruct (bool_decide _). }
  destruct f; try discriminate; eexists; (split; [reflexivity |]);
    unfold TaskService.update_field; by apply Hgen.
Qed.

Lemma has_row_assign task_id f v s :
  has_row task_id s ->
  has_row task_id
    (mkSession
       (set_tasks
          (map (fun t => if bool_decide (Task.id t = task_id)
                         then setattr t f v else t))
          (work s))
       (new_tags s) (dirty s ++ [(task_id, field_name f)])).
Proof.
  unfold has_row, query_task_first. simpl. intros [t Ht].
  rewrite find_task_map, Ht; [by eexists |].
  intros t'. destruct (bool_decide _); [apply setattr_id | done].
Qed.

Lemma keeps_has_row_flush task_id (E : Exn -> Prop) now :
  E IntegrityError -> keeps (has_row task_id) E (flush now).
Proof.
  intros He s [t Ht]. apply wp_flush; [done |].
  intros table _ _. unfold has_row, query_task_first in *. simpl.
  rewrite find_task_map, Ht; [by eexists |].
  intros t'. apply onupdate_id.
Qed.

(** Scalar fields never make the loop raise, and the row stays. *)
Lemma update_fields_scalars_keep_row af now task_id items changes E s :
  Forall (fun it => is_scalar it.1 = true) items ->
  has_row task_id s ->
  wp (TaskService.update_fields af now task_id items changes)
     (fun _ => has_row task_id) E s.
Proof.
  intros Hitems. revert changes s.
  induction Hitems as [| [f v] items Hf _ IH]; intros changes s Hrow; simpl.
  - exact Hrow.
  - apply wp_bind. unfold wp at 1.
    destruct Hrow as [t Ht].
    destruct (update_field_scalar af now task_id f v changes s t Hf Ht)
      as (old & _ & ->).
    destruct (bool_decide _).
    + apply IH. apply has_row_assign. by exists t.
    + apply IH. by exists t.
Qed.

Lemma update_field_null af now task_id f changes s :
  is_scalar f = false ->
  has_row task_id s ->
  TaskService.update_field af now task_id f PNone changes s
  = inl (AttributeError (field_name f)).
Proof.
  intros Hf [t Ht]. destruct f; try discriminate;
    unfold TaskService.update_field, bind, task_object; by rewrite Ht.
Qed.

(** C10. An update that sets [assignee_ids] or [tag_names] to null does not
    clear the collection.  The task has no attribute of that name, the null
    reaches the generic branch, and the call fails leaving store and cache
    as they were: with the attribute error for [assignee_ids] when that
    field is the null one, and otherwise with the attribute error for
    [tag_names], unless the flush that the assignee replacement triggers
    fails first. *)
Theorem update_task_null_collection
    (w : World) (task_id : Z) (d : TaskUpdate) (user_id now : Z) (t : Task.t) :
  query_task_first task_id (db w) = Some t ->
  tu_assignee_ids d = Some None ∨ tu_tag_names d = Some None ->
  getattr t F_assignee_ids = inl (AttributeError "assignee_ids")
  ∧ getattr t F_tag_names = inl (AttributeError "tag_names")
  ∧ exists e,
      TaskService.update_task task_id d user_id now w = (Raised e, w)
      ∧ (tu_assignee_ids d = Some None -> e = AttributeError "assignee_ids")
      ∧ (tu_assignee_ids d ≠ Some None ->
         e = AttributeError "tag_names" ∨ e = IntegrityError).
Proof.
  intros Hq Hnull. split; [done |]. split; [done |].
  set (E := fun e : Exn =>
              (tu_assignee_ids d = Some None -> e = AttributeError "assignee_ids")
              ∧ (tu_assignee_ids d ≠ Some None ->
                 e = AttributeError "tag_names" ∨ e = IntegrityError)).
  assert (Hrow : has_row task_id (begin (db w))) by (by exists t).
  assert (Hwp : wp (TaskService.update_fields (autoflush w) now task_id
                      (dict_exclude_unset d) [])
                  (fun _ _ => False) E (begin (db w))).
  { rewrite dict_exclude_unset_split. apply wp_update_fields_app.
    eapply wp_mono;
      [apply (update_fields_scalars_keep_row _ _ _ _ _ E);
         [apply scalar_items_scalar | exact Hrow]
      | | done].
    intros c s Hs. simpl.
    destruct (tu_assignee_ids d) as [[ids |] |] eqn:Ha; simpl.
    - (* the assignee list is replaced, then the null tag list is read *)
      destruct Hnull as [Hn | Hn]; [discriminate |]. rewrite Hn. simpl.
      apply wp_bind.
      assert (Hk : keeps (has_row task_id) E
                (TaskService.update_field (autoflush w) now task_id
                   F_assignee_ids (PIntList ids) c)).
      { unfold TaskService.update_field.
        assert (HE : E IntegrityError) by (split; [discriminate | by right]).
        pose proof (keeps_has_row_flush task_id E now HE).
        keeps_auto. }
      eapply wp_mono; [by apply Hk | | done].
      intros c' s' Hs'. apply wp_bind. unfold wp at 1.
      rewrite update_field_null by done.
      split; [discriminate | by left].
    - (* the null assignee list is read *)
      apply wp_bind. unfold wp at 1. rewrite update_field_null by done.
      split; [done | congruence].
    - (* no assignee list: the null tag list is read *)
      destruct Hnull as [Hn | Hn]; [discriminate |]. rewrite Hn. simpl.
      apply wp_bind. unfold wp at 1. rewrite update_field_null by done.
      split; [discriminate | by left]. }
  unfold TaskService.update_task. rewrite Hq.
  unfold wp in Hwp. unfold bind at 1.
  destruct (TaskService.update_fields _ _ _ _ _ _) as [e | [c s]];
    [| done].
  exists e. split; [done | exact Hwp].
Qed.

Lemma update_task_null_collection_witness :
  exists e,
    TaskService.update_task 1
      (mkTaskUpdate None None None None None (Some None) None) 1 30 two_tasks
    = (Raised e, two_tasks)
    ∧ e = AttributeError "assignee_ids".
Proof.
  destruct (update_task_null_collection two_tasks 1
              (mkTaskUpdate None None None None None (Some None) None) 1 30
              (Task.mk 1 (Some "a") None (Some TODO) (Some MEDIUM) None 10 10 1
                 None))
    as (_ & _ & e & He & Ha & _).
  - vm_compute. reflexivity.
  - left. reflexivity.
  - exists e. split; [exact He | by apply Ha].
Defined.

(** ** Updates that change no scalar field *)

Lemma keeps_untouched_flush T H now : keeps (untouched T H) may_raise (flush now).
Proof.
  intros s (Hd & HT & HH). apply wp_flush; [done |].
  intros table _ _. split; [done |]. simpl.
  by rewrite Hd, map_onupdate_nil.
Qed.

#[local] Hint Resolve keeps_untouched_flush : keeps.

Lemma scalar_items_unchanged (t : Task.t) (d : TaskUpdate) :
  scalars_unchanged t d ->
  Forall (fun it => is_scalar it.1 = true ∧ getattr t it.1 = inr it.2)
    (scalar_items d).
Proof.
  intros (H1 & H2 & H3 & H4 & H5). unfold scalar_items, item.
  repeat apply Forall_app_2;
    match goal with
    | |- Forall _ (match ?o with _ => _ end) =>
        destruct o as [v |] eqn:Ho; repeat constructor; simpl
    end.
  - by rewrite <- (H1 v).
  - by rewrite <- (H2 v).
  - by rewrite <- (H3 v).
  - by rewrite <- (H4 v).
  - by rewrite <- (H5 v).
Qed.

(** Scalar fields that carry the current values leave the session alone. *)
Lemma update_fields_scalars_noop af now task_id items changes s t :
  Forall (fun it => is_scalar it.1 = true ∧ getattr t it.1 = inr it.2) items ->
  query_task_first task_id (work s) = Some t ->
  TaskService.update_fields af now task_id items changes s = inr (changes, s).
Proof.
  intros Hitems Hq. induction Hitems as [| [f v] items [Hf Hg] _ IH]; simpl.
  - reflexivity.
  - unfold bind.
    destruct (update_field_scalar af now task_id f v changes s t Hf Hq)
      as (old & Hold & ->).
    simpl in Hg. rewrite Hg in Hold. injection Hold as <-.
    rewrite bool_decide_eq_false_2 by (intros Hne; by apply Hne).
    exact IH.
Qed.

(** A collection field changes neither the tasks nor the history, and adds
    no change record. *)
Lemma update_field_collection_untouched af now task_id f v changes T H s :
  is_scalar f = false ->
  untouched T H s ->
  wp (TaskService.update_field af now task_id f v changes)
     (fun c s' => c = changes ∧ untouched T H s') may_raise s.
Proof.
  intros Hf Hs.
  assert (Hraise : forall task,
            getattr task f = inl (AttributeError (field_name f))).
  { intros task. by destruct f. }
  assert (Hgen : wp (let* task := task_object task_id in
                     match getattr task f with
                     | inl e => raise e
                     | inr old_value =>
                         if bool_decide (old_value ≠ v)
                         then assign task_id f v;;
                              ret (changes ++ [(field_name f, Str old_value,
                                                Str v)])
                         else ret changes
                     end)
                    (fun c s' => c = changes ∧ untouched T H s') may_raise s).
  { apply wp_bind. unfold wp at 1, task_object.
    destruct (query_task_first task_id (work s)); [| done].
    by rewrite Hraise. }
  unfold TaskService.update_field.
  destruct f; try discriminate; destruct v; try exact Hgen.
  - apply wp_bind.
    assert (Hk1 : keeps (untouched T H) may_raise
                    (delete_assignments af now task_id)) by keeps_auto.
    eapply wp_mono; [by apply Hk1 | | done]. intros u s' Hs'.
    apply (wp_keeps_ret (untouched T H)); [| done | done].
    keeps_auto.
  - apply wp_bind.
    assert (Hk1 : keeps (untouched T H) may_raise (tags_clear task_id))
      by keeps_auto.
    eapply wp_mono; [by apply Hk1 | | done]. intros u s' Hs'.
    apply (wp_keeps_ret (untouched T H)); [| done | done].
    keeps_auto.
Qed.

Lemma update_fields_collections_untouched af now task_id items changes T H s :
  Forall (fun it => is_scalar it.1 = false) items ->
  untouched T H s ->
  wp (TaskService.update_fields af now task_id items changes)
     (fun c s' => c = changes ∧ untouched T H s') may_raise s.
Proof.
  intros Hitems. revert s.
  induction Hitems as [| [f v] items Hf _ IH]; intros s Hs; simpl.
  - done.
  - apply wp_bind. eapply wp_mono;
      [by apply update_field_collection_untouched | | done].
    intros c s' [-> Hs']. by apply IH.
Qed.

Lemma collection_items_not_scalar (d : TaskUpdate) :
  Forall (fun it => is_scalar it.1 = false)
    (item F_assignee_ids PIntList (tu_assignee_ids d)
     ++ item F_tag_names PStrList (tu_tag_names d)).
Proof.
  unfold item. apply Forall_app_2.
  - destruct (tu_assignee_ids d); repeat constructor.
  - destruct (tu_tag_names d); repeat constructor.
Qed.

(** C1, as the code has it.  An update in which every scalar field that is
    present carries the task's current value records no history entry and
    leaves the task rows as they are: the task it returns is the task as it
    was, so [updated_at] keeps its value and is not refreshed.  With no
    collection field in the input the call does return. *)
Theorem update_task_no_change
    (w : World) (task_id : Z) (d : TaskUpdate) (user_id now : Z) (t : Task.t) :
  query_task_first task_id (db w) = Some t ->
  scalars_unchanged t d ->
  let r := TaskService.update_task task_id d user_id now w in
  task_history (db r.2) = task_history (db w)
  ∧ tasks (db r.2) = tasks (db w)
  ∧ (r.1 = Returned (Some t) ∨ exists e, r.1 = Raised e)
  ∧ (forall t', r.1 = Returned (Some t') ->
       Task.updated_at t' = Task.updated_at t)
  ∧ (tu_assignee_ids d = None -> tu_tag_names d = None ->
     r.1 = Returned (Some t)).
Proof.
  intros Hq Hsame r.
  set (T := tasks (db w)). set (H := task_history (db w)).
  assert (Hu0 : untouched T H (begin (db w))) by done.
  assert (Hbody :
    wp (let* changes :=
          TaskService.update_fields (autoflush w) now task_id
            (dict_exclude_unset d) [] in
        for_each changes (add_history now task_id user_id);;
        commit now;;
        refresh task_id)
       (fun t' s' => t' = t ∧ untouched T H s') may_raise (begin (db w))).
  { apply wp_bind. rewrite dict_exclude_unset_split.
    apply wp_update_fields_app. unfold wp at 1.
    rewrite (update_fields_scalars_noop _ _ _ _ _ (begin (db w)) t
               (scalar_items_unchanged t d Hsame) Hq).
    eapply wp_mono;
      [apply (update_fields_collections_untouched _ _ _ _ _ T H);
         [apply collection_items_not_scalar | exact Hu0]
      | | done].
    intros c s [-> Hs]. simpl. apply wp_bind, wp_ret.
    apply wp_bind. eapply wp_mono;
      [by apply (keeps_untouched_flush T H now) | | done].
    intros u s' Hs'. unfold wp, refresh, task_object.
    destruct Hs' as (Hd' & HT' & HH').
    unfold query_task_first in *. rewrite HT'. subst T. by rewrite Hq. }
  assert (Hres : task_history (db r.2) = H ∧ tasks (db r.2) = T
                 ∧ (r.1 = Returned (Some t) ∨ exists e, r.1 = Raised e)).
  { subst r. unfold TaskService.update_task. rewrite Hq.
    unfold wp in Hbody.
    match goal with
    | |- context [match ?b (begin (db w)) with _ => _ end] =>
        destruct (b (begin (db w))) as [e | [t' s']]
    end; simpl.
    - eauto.
    - destruct Hbody as (-> & _ & HT' & HH'). eauto. }
  destruct Hres as (HH & HT & Hr). repeat split; try done.
  - intros t' Ht'. destruct Hr as [Hr | [e Hr]]; congruence.
  - intros Ha Ht. subst r. unfold TaskService.update_task. rewrite Hq.
    rewrite dict_exclude_unset_split, Ha, Ht. simpl. rewrite app_nil_r.
    unfold bind at 1.
    rewrite (update_fields_scalars_noop _ _ _ _ _ (begin (db w)) t
               (scalar_items_unchanged t d Hsame) Hq).
    simpl. unfold bind, commit, refresh, task_object, ret.
    rewrite flush_clean by done. simpl. by rewrite Hq.
Qed.

Lemma scalars_unchanged_same_status : scalars_unchanged task_a same_status.
Proof. repeat split; intros v Hv; simpl in Hv; by simplify_eq. Qed.

Lemma update_task_no_change_witness :
  let r := TaskService.update_task 1 same_status 1 200 two_tasks in
  task_history (db r.2) = task_history (db two_tasks)
  ∧ tasks (db r.2) = tasks (db two_tasks)
  ∧ (r.1 = Returned (Some task_a) ∨ exists e, r.1 = Raised e)
  ∧ (forall t', r.1 = Returned (Some t') ->
       Task.updated_at t' = Task.updated_at task_a)
  ∧ (tu_assignee_ids same_status = None -> tu_tag_names same_status = None ->
     r.1 = Returned (Some task_a)).
Proof.
  apply (update_task_no_change two_tasks 1 same_status 1 200 task_a).
  - vm_compute. reflexivity.
  - repeat split; intros v Hv; simpl in Hv; by simplify_eq.
Defined.

(** The claim fails on the timestamp: task 1 was last written at instant 10;
    an update at instant 200 that sets its status to the status it has
    returns the task with [updated_at] still 10. *)
Lemma update_task_no_change_not_refreshed :
  scalars_unchanged task_a same_status
  ∧ query_task_first 1 (db two_tasks) = Some task_a
  ∧ exists t',
      (TaskService.update_task 1 same_status 1 200 two_tasks).1
      = Returned (Some t')
      ∧ Task.updated_at t' = 10
      ∧ Task.updated_at t' ≠ 200.
Proof.
  split; [apply scalars_unchanged_same_status |].
  split; [vm_compute; reflexivity |].
  exists task_a. vm_compute. repeat split; discriminate.
Qed.

(** ** Replacing the assignees *)

Lemma keeps_recorded_flush A H0 now : keeps (recorded A H0) may_raise (flush now).
Proof.
  intros s HA. apply wp_flush; [done |]. intros table _ _. exact HA.
Qed.

#[local] Hint Resolve keeps_recorded_flush : keeps.

Lemma field_name_scalar f : is_scalar f = true -> field_name f ∈ scalar_names.
Proof.
  destruct f; try discriminate; intros _;
    apply list_elem_of_In; simpl; tauto.
Qed.

Lemma update_fields_scalars_recorded af now task_id items changes A H0 s :
  Forall (fun it => is_scalar it.1 = true) items ->
  Forall (fun c : string * Text * Text => c.1.1 ∈ scalar_names) changes ->
  recorded A H0 s ->
  wp (TaskService.update_fields af now task_id items changes)
     (fun c s' => Forall (fun c : string * Text * Text => c.1.1 ∈ scalar_names) c
                  ∧ recorded A H0 s')
     may_raise s.
Proof.
  intros Hitems. revert changes s.
  induction Hitems as [| [f v] items Hf _ IH]; intros changes s Hc Hs; simpl.
  - done.
  - apply wp_bind. unfold wp at 1.
    destruct (query_task_first task_id (work s)) as [t |] eqn:Hq.
    + destruct (update_field_scalar af now task_id f v changes s t Hf Hq)
        as (old & _ & ->).
      destruct (bool_decide _).
      * apply IH; [| exact Hs].
        apply Forall_app_2; [exact Hc |]. constructor; [| constructor].
        by apply field_name_scalar.
      * by apply IH.
    + destruct f; try discriminate;
        unfold TaskService.update_field, bind, task_object; by rewrite Hq.
Qed.

Lemma add_assignments_rows now task_id ids (Q : unit -> Session -> Prop) E s :
  (forall s' rows,
     task_assignments (work s') = task_assignments (work s) ++ rows ->
     map TaskAssignment.user_id rows = ids ->
     Forall (fun a => TaskAssignment.task_id a = task_id) rows ->
     task_history (work s') = task_history (work s) ->
     new_tags s' = new_tags s ∧ dirty s' = dirty s ->
     Q tt s') ->
  wp (for_each ids (add_assignment now task_id)) Q E s.
Proof.
  revert s Q. induction ids as [| u ids IH]; intros s Q HQ; simpl.
  - apply wp_ret. apply (HQ s []); [by rewrite app_nil_r | done | done | done | done].
  - apply wp_bind. unfold add_assignment at 1. apply wp_modify.
    apply IH. intros s' rows Hrows Hu Ht Hh Hnd. simpl in *.
    apply (HQ s' (TaskAssignment.mk (next_assignment_id (work s)) task_id u now
                    :: rows)).
    + by rewrite Hrows, <- app_assoc.
    + simpl. by rewrite Hu.
    + by constructor.
    + done.
    + done.
Qed.

Lemma assignees_replaced (A rows : list TaskAssignment.t) task_id ids :
  map TaskAssignment.user_id rows = ids ->
  Forall (fun a => TaskAssignment.task_id a = task_id) rows ->
  let A1 := filter (fun a => TaskAssignment.task_id a ≠ task_id) A ++ rows in
  map TaskAssignment.user_id
    (filter (fun a => TaskAssignment.task_id a = task_id) A1) = ids
  ∧ forall i, i ≠ task_id ->
      map TaskAssignment.user_id
        (filter (fun a => TaskAssignment.task_id a = i) A1)
      = map TaskAssignment.user_id
          (filter (fun a => TaskAssignment.task_id a = i) A).
Proof.
  intros Hu Ht A1. subst A1. split.
  - rewrite filter_app.
    rewrite (filter_none (fun a => TaskAssignment.task_id a = task_id)
               (filter _ A)).
    + simpl. subst ids. f_equal. clear -Ht.
      induction Ht as [| a rows Ha _ IH]; [done |].
      rewrite filter_cons_True by done. by rewrite IH.
    + intros a Ha. by apply list_elem_of_filter in Ha as [Hne _].
  - intros i Hi. rewrite filter_app, map_app.
    rewrite (filter_none (fun a => TaskAssignment.task_id a = i) rows).
    + simpl. rewrite app_nil_r. f_equal.
      induction A as [| a A IH]; [done |].
      rewrite !filter_cons.
      destruct (decide (TaskAssignment.task_id a ≠ task_id)) as [Hne | He].
      * rewrite filter_cons.
        destruct (decide (TaskAssignment.task_id a = i)); by rewrite IH.
      * apply dec_stable in He.
        destruct (decide (TaskAssignment.task_id a = i)); [congruence | done].
    + intros a Ha. rewrite Forall_forall in Ht. rewrite (Ht a Ha). congruence.
Qed.

Lemma add_history_recorded now task_id user_id changes A H0 s :
  Forall (fun c : string * Text * Text => c.1.1 ∈ scalar_names) changes ->
  recorded A H0 s ->
  wp (for_each changes (add_history now task_id user_id))
     (fun _ => recorded A H0) may_raise s.
Proof.
  intros Hc Hs. apply (wp_for_each _ _ (recorded A H0)); [exact Hs | | done].
  intros c s' Hin (HA & rows & Hrows & Hsc). unfold add_history.
  apply wp_modify. split; [exact HA |]. simpl.
  eexists (rows ++ [_]). split.
  - rewrite Hrows, <- app_assoc. reflexivity.
  - apply Forall_app_2; [exact Hsc |]. constructor; [| constructor]. simpl.
    rewrite Forall_forall in Hc. by apply Hc.
Qed.

Lemma update_tag_names_recorded af now task_id o changes A H0 s :
  recorded A H0 s ->
  wp (TaskService.update_fields af now task_id
        (item F_tag_names PStrList o) changes)
     (fun c s' => c = changes ∧ recorded A H0 s') may_raise s.
Proof.
  intros Hs. destruct o as [[names |] |]; simpl.
  - apply wp_bind. unfold TaskService.update_field.
    apply wp_bind.
    assert (Hk1 : keeps (recorded A H0) may_raise (tags_clear task_id))
      by keeps_auto.
    eapply wp_mono; [by apply Hk1 | | done]. intros u s' Hs'.
    apply (wp_keeps_ret (recorded A H0)); [| done | done].
    keeps_auto.
  - apply wp_bind. unfold TaskService.update_field, wp at 1, bind, task_object.
    by destruct (query_task_first task_id (work s)).
  - done.
Qed.

(** C5. When an update that carries an assignee list returns, the task is
    assigned to exactly the users of the list, in the order given (no row of
    the old assignment is left), the assignments of the other tasks are as
    before, and every history entry the call recorded is for a scalar field:
    none is for the assignees. *)
Theorem update_task_replaces_assignees
    (w w' : World) (task_id : Z) (d : TaskUpdate) (user_id now : Z)
    (ids : list Z) (t' : Task.t) :
  tu_assignee_ids d = Some (Some ids) ->
  TaskService.update_task task_id d user_id now w = (Returned (Some t'), w') ->
  assignees_of (db w') task_id = ids
  ∧ (forall i, i ≠ task_id -> assignees_of (db w') i = assignees_of (db w) i)
  ∧ exists rows,
      task_history (db w') = task_history (db w) ++ rows
      ∧ Forall (fun h => TaskHistory.field_changed h ∈ scalar_names) rows.
Proof.
  intros Ha Hupd.
  set (A0 := task_assignments (db w)). set (H0 := task_history (db w)).
  set (good := fun A1 : list TaskAssignment.t =>
         map TaskAssignment.user_id
           (filter (fun a => TaskAssignment.task_id a = task_id) A1) = ids
         ∧ forall i, i ≠ task_id ->
             map TaskAssignment.user_id
               (filter (fun a => TaskAssignment.task_id a = i) A1)
             = map TaskAssignment.user_id
                 (filter (fun a => TaskAssignment.task_id a = i) A0)).
  assert (Hbody :
    wp (let* changes :=
          TaskService.update_fields (autoflush w) now task_id
            (dict_exclude_unset d) [] in
        for_each changes (add_history now task_id user_id);;
        commit now;;
        refresh task_id)
       (fun _ s' => exists A1, good A1 ∧ recorded A1 H0 s')
       may_raise (begin (db w))).
  { assert (Hr0 : recorded A0 H0 (begin (db w))).
    { split; [done |]. exists []. by rewrite app_nil_r. }
    apply wp_bind. rewrite dict_exclude_unset_split, Ha.
    apply wp_update_fields_app.
    eapply wp_mono;
      [apply (update_fields_scalars_recorded _ _ _ _ _ A0 H0);
         [apply scalar_items_scalar | constructor | exact Hr0]
      | | done].
    intros c s1 [Hc Hs1]. simpl. apply wp_bind.
    unfold TaskService.update_field, delete_assignments.
    apply wp_bind, wp_bind.
    assert (Hk : keeps (recorded A0 H0) may_raise
                   (before_query (autoflush w) now)) by keeps_auto.
    eapply wp_mono; [by apply Hk | | done].
    intros u s2 (HA2 & rows2 & Hrows2 & Hsc2). apply wp_modify, wp_bind.
    apply add_assignments_rows. simpl.
    intros s3 rows HA3 Hu Ht Hh3 _. apply wp_ret.
    set (A1 := filter (fun a => TaskAssignment.task_id a ≠ task_id) A0 ++ rows).
    assert (Hgood : good A1) by (by apply assignees_replaced).
    assert (Hr3 : recorded A1 H0 s3).
    { split; [by rewrite HA3, HA2 |]. exists rows2. by rewrite Hh3. }
    eapply wp_mono;
      [by apply (update_tag_names_recorded _ _ _ _ _ A1 H0) | | done].
    intros c' s4 [-> Hs4]. simpl. apply wp_bind.
    eapply wp_mono; [by apply (add_history_recorded _ _ _ _ A1 H0) | | done].
    intros u' s5 Hs5. simpl.
    assert (Hk' : keeps (recorded A1 H0) may_raise
                    (commit now;; refresh task_id)) by keeps_auto.
    eapply wp_mono; [by apply Hk' | | done].
    intros t'' s6 Hs6. by exists A1. }
  unfold TaskService.update_task in Hupd.
  destruct (query_task_first task_id (db w)); [| discriminate].
  unfold wp in Hbody.
  match type of Hupd with
  | context [match ?b (begin (db w)) with _ => _ end] =>
      destruct (b (begin (db w))) as [e | [t'' s']]
  end; [discriminate |].
  injection Hupd as _ <-. simpl.
  destruct Hbody as (A1 & [Hg1 Hg2] & HA & rows & Hrows & Hsc).
  unfold assignees_of. rewrite HA. eauto.
Qed.

Lemma add_assignments_total now task_id ids s :
  exists s',
    for_each ids (add_assignment now task_id) s = inr (tt, s')
    ∧ tasks (work s') = tasks (work s)
    ∧ new_tags s' = new_tags s
    ∧ dirty s' = dirty s.
Proof.
  revert s. induction ids as [| u ids IH]; intros s; simpl.
  - by exists s.
  - unfold bind, add_assignment at 1, modify.
    match goal with
    | |- context [for_each ids _ ?s1] => destruct (IH s1) as (s' & -> & H1 & H2 & H3)
    end.
    exists s'. done.
Qed.

(** An update that only carries an assignee list always returns. *)
Lemma update_task_assignees_only_returns
    (w : World) (task_id : Z) (ids : list Z) (user_id now : Z) (t : Task.t) :
  query_task_first task_id (db w) = Some t ->
  exists w',
    TaskService.update_task task_id
      (mkTaskUpdate None None None None None (Some (Some ids)) None)
      user_id now w
    = (Returned (Some t), w').
Proof.
  intros Hq. unfold TaskService.update_task. rewrite Hq. simpl.
  unfold TaskService.update_field, delete_assignments, before_query.
  assert (Hf : (if autoflush w then flush now else ret tt) (begin (db w))
               = inr (tt, begin (db w))).
  { destruct (autoflush w); [by apply flush_clean | done]. }
  unfold bind at 1 2 3 4. rewrite Hf. simpl. unfold bind at 1.
  match goal with
  | |- context [for_each ids _ ?s1] =>
      destruct (add_assignments_total now task_id ids s1)
        as (s' & -> & H1 & H2 & H3)
  end.
  simpl in H1, H2, H3.
  simpl. unfold bind, commit, refresh, task_object, ret.
  rewrite flush_clean by done.
  unfold query_task_first in *. rewrite H1, Hq. eauto.
Qed.

Lemma update_task_replaces_assignees_witness :
  exists w',
    TaskService.update_task 1
      (mkTaskUpdate None None (Some (Some DONE)) None None (Some (Some [8; 9]))
         None)
      7 30 timeline_world
    = (Returned (Some (Task.mk 1 (Some "a") None (Some DONE) (Some HIGH) None
                         10 (seconds 900000) 7 None)), w')
    ∧ assignees_of (db timeline_world) 1 = [7]
    ∧ assignees_of (db w') 1 = [8; 9].
Proof.
  eexists. split; [vm_compute; reflexivity |]. split; [vm_compute; reflexivity |].
  refine (proj1 (update_task_replaces_assignees timeline_world _ 1
                   (mkTaskUpdate None None (Some (Some DONE)) None None
                      (Some (Some [8; 9])) None)
                   7 30 [8; 9] _ _ _)).
  - reflexivity.
  - vm_compute. reflexivity.
Defined.

(** * Bulk updates *)

Lemma wp_flush_flushable now (Q : unit -> Session -> Prop) E s :
  flushable s ->
  (forall s', flushable s' -> same_rows s s' -> Q tt s') ->
  wp (flush now) Q E s.
Proof.
  intros [Hn Hd] HQ. apply wp_flush.
  - rewrite title_null_pending_false by exact Hd. rewrite Hn. simpl.
    intros [? | ?]; discriminate.
  - intros table _ _. apply HQ; [| done].
    split; [done |]. intros i. apply not_elem_of_nil.
Qed.

Lemma wp_before_query_flushable af now (Q : unit -> Session -> Prop) E s :
  flushable s ->
  (forall s', flushable s' -> same_rows s s' -> Q tt s') ->
  wp (before_query af now) Q E s.
Proof.
  intros Hs HQ. unfold before_query. destruct af.
  - by apply wp_flush_flushable.
  - apply wp_ret. by apply HQ.
Qed.

Lemma flushable_assign task_id f v s :
  f ≠ F_title ->
  flushable s ->
  flushable
    (mkSession
       (set_tasks
          (map (fun t => if bool_decide (Task.id t = task_id)
                         then setattr t f v else t))
          (work s))
       (new_tags s) (dirty s ++ [(task_id, field_name f)])).
Proof.
  intros Hf [Hn Hd]. split; [exact Hn |]. simpl. intros i Hi.
  apply elem_of_app in Hi as [Hi | Hi]; [by apply (Hd i) |].
  apply list_elem_of_singleton in Hi. injection Hi as _ Hi.
  destruct f; try discriminate. done.
Qed.

Lemma wp_add_history_views now task_id user_id changes
    (Q : unit -> Session -> Prop) E s :
  (forall s',
     map history_view (task_history (work s'))
     = map history_view (task_history (work s))
       ++ map (change_view task_id user_id now) changes ->
     task_assignments (work s') = task_assignments (work s) ->
     new_tags s' = new_tags s -> dirty s' = dirty s ->
     Q tt s') ->
  wp (for_each changes (add_history now task_id user_id)) Q E s.
Proof.
  revert s Q. induction changes as [| c cs IH]; intros s Q HQ; simpl.
  - apply wp_ret. apply HQ; try done. by rewrite app_nil_r.
  - apply wp_bind. unfold add_history at 1. apply wp_modify.
    apply IH. intros s' Hh Ha Hn Hd. simpl in *.
    apply HQ; try done.
    rewrite Hh, map_app, <- app_assoc. reflexivity.
Qed.

Lemma wp_bulk_status (b : TaskBulkUpdate) (t : Task.t)
    (Q : list (string * Text * Text) -> Session -> Prop) E s :
  flushable s ->
  (forall s', flushable s' -> same_rows s s' -> Q (status_change b t) s') ->
  wp (match bu_status b with
      | Some st =>
          if bool_decide (Task.status t ≠ Some st)
          then assign (Task.id t) F_status (PStatus st);;
               ret [("status", Str (of_option PStatus (Task.status t)),
                     Str (PStatus st))]
          else ret []
      | None => ret []
      end) Q E s.
Proof.
  intros Hs HQ. unfold status_change in HQ.
  destruct (bu_status b) as [st |]; [| apply wp_ret; by apply HQ].
  case_bool_decide as Hne.
  - rewrite decide_True in HQ by done. apply wp_bind, wp_ret.
    apply HQ; [apply flushable_assign; [discriminate | exact Hs] |].
    split; reflexivity.
  - rewrite decide_False in HQ by tauto. apply wp_ret. by apply HQ.
Qed.

Lemma wp_bulk_priority (b : TaskBulkUpdate) (t : Task.t)
    (Q : list (string * Text * Text) -> Session -> Prop) E s :
  flushable s ->
  (forall s', flushable s' -> same_rows s s' -> Q (priority_change b t) s') ->
  wp (match bu_priority b with
      | Some p =>
          if bool_decide (Task.priority t ≠ Some p)
          then assign (Task.id t) F_priority (PPriority p);;
               ret [("priority", Str (of_option PPriority (Task.priority t)),
                     Str (PPriority p))]
          else ret []
      | None => ret []
      end) Q E s.
Proof.
  intros Hs HQ. unfold priority_change in HQ.
  destruct (bu_priority b) as [p |]; [| apply wp_ret; by apply HQ].
  case_bool_decide as Hne.
  - rewrite decide_True in HQ by done. apply wp_bind, wp_ret.
    apply HQ; [apply flushable_assign; [discriminate | exact Hs] |].
    split; reflexivity.
  - rewrite decide_False in HQ by tauto. apply wp_ret. by apply HQ.
Qed.

Lemma wp_bulk_assignees af now (b : TaskBulkUpdate) (t : Task.t)
    (Q : list (string * Text * Text) -> Session -> Prop) E s :
  flushable s ->
  (forall s',
     flushable s' ->
     task_history (work s') = task_history (work s) ->
     assignments_replaced b (Task.id t) (task_assignments (work s))
       (task_assignments (work s')) ->
     Q (assignees_change b) s') ->
  wp (match bu_assignee_ids b with
      | Some ids =>
          delete_assignments af now (Task.id t);;
          for_each ids (add_assignment now (Task.id t));;
          ret [("assignees", Lit "", Lit (String.concat "," (map pretty ids)))]
      | None => ret []
      end) Q E s.
Proof.
  intros Hs HQ. unfold assignees_change, assignments_replaced in HQ.
  destruct (bu_assignee_ids b) as [ids |]; [| apply wp_ret; by apply HQ].
  apply wp_bind. unfold delete_assignments. apply wp_bind.
  apply wp_before_query_flushable; [exact Hs |].
  intros s1 Hs1 [Hh1 Ha1]. apply wp_modify, wp_bind.
  apply add_assignments_rows. simpl.
  intros s2 rows Ha2 Hu Ht Hh2 [Hn2 Hd2]. apply wp_ret. apply HQ.
  - destruct Hs1 as [Hn1 Hd1]. split; [by rewrite Hn2 | by rewrite Hd2].
  - congruence.
  - exists rows. by rewrite Ha2, Ha1.
Qed.

Lemma wp_bulk_update_one af (b : TaskBulkUpdate) user_id now (t : Task.t)
    (Q : list (string * Text * Text) -> Session -> Prop) E s :
  flushable s ->
  (forall s',
     flushable s' ->
     map history_view (task_history (work s'))
     = map history_view (task_history (work s))
       ++ map (change_view (Task.id t) user_id now) (bulk_changes b t) ->
     assignments_replaced b (Task.id t) (task_assignments (work s))
       (task_assignments (work s')) ->
     Q (bulk_changes b t) s') ->
  wp (TaskService.bulk_update_one af b user_id now t) Q E s.
Proof.
  intros Hs HQ. unfold TaskService.bulk_update_one. cbv zeta.
  apply wp_bind, wp_bulk_status; [exact Hs |]. intros s1 Hs1 [Hh1 Ha1].
  apply wp_bind, wp_bulk_priority; [exact Hs1 |]. intros s2 Hs2 [Hh2 Ha2].
  apply wp_bind, wp_bulk_assignees; [exact Hs2 |]. intros s3 Hs3 Hh3 Ha3.
  apply wp_bind, wp_add_history_views. intros s4 Hh4 Ha4 Hn4 Hd4.
  apply wp_ret. apply HQ.
  - destruct Hs3 as [Hn3 Hd3]. split; [by rewrite Hn4 | by rewrite Hd4].
  - unfold bulk_changes. by rewrite Hh4, Hh3, Hh2, Hh1.
  - by rewrite Ha4, <- Ha1, <- Ha2.
Qed.

(** The assignees of a task after its rows were replaced, and of the other
    tasks. *)
Lemma assignments_replaced_assignees (b : TaskBulkUpdate) task_id A A' :
  assignments_replaced b task_id A A' ->
  (forall ids, bu_assignee_ids b = Some ids ->
     map TaskAssignment.user_id
       (filter (fun a => TaskAssignment.task_id a = task_id) A') = ids)
  ∧ (forall i, bu_assignee_ids b = None ∨ i ≠ task_id ->
       map TaskAssignment.user_id
         (filter (fun a => TaskAssignment.task_id a = i) A')
       = map TaskAssignment.user_id
           (filter (fun a => TaskAssignment.task_id a = i) A)).
Proof.
  unfold assignments_replaced.
  destruct (bu_assignee_ids b) as [ids |].
  - intros (rows & -> & Hu & Ht).
    destruct (assignees_replaced A rows task_id ids Hu Ht) as [H1 H2].
    split.
    + by intros ? [= <-].
    + intros i [? | Hi]; [discriminate | by apply H2].
  - intros ->. split; [discriminate | done].
Qed.

Lemma wp_bulk_update_loop af (b : TaskBulkUpdate) user_id now ts n E s :
  flushable s ->
  wp (TaskService.bulk_update_loop af b user_id now ts n)
     (bulk_done b user_id now ts n s) E s.
Proof.
  revert n s. induction ts as [| t ts IH]; intros n s Hs; simpl.
  - apply wp_ret. split; [simpl; lia |]. split; [exact Hs |].
    split; [by rewrite app_nil_r |]. split; [| done].
    intros ids t _ Ht. by apply elem_of_nil in Ht.
  - apply wp_bind, wp_bulk_update_one; [exact Hs |].
    intros s1 Hs1 Hh1 Ha1.
    destruct (assignments_replaced_assignees _ _ _ _ Ha1) as [Hnew Hold].
    eapply wp_mono; [by apply IH | | done].
    intros n' s' (Hn & Hs' & Hh & Hmatched & Hothers).
    split; [| split; [exact Hs' | split; [| split]]].
    + rewrite filter_cons. subst n'.
      destruct (bulk_changes b t) as [| c cs];
        [rewrite decide_False by tauto | rewrite decide_True by done];
        simpl length; lia.
    + rewrite Hh, Hh1, <- app_assoc. reflexivity.
    + intros ids t' Hids Ht'.
      destruct (decide (Task.id t' ∈ map Task.id ts)) as [Hin | Hnin].
      * apply list_elem_of_fmap in Hin as (t'' & -> & Hin).
        by apply Hmatched.
      * apply elem_of_cons in Ht' as [-> | Ht'].
        -- rewrite Hothers by (by right). unfold assignees_of.
           by apply Hnew.
        -- destruct Hnin. by apply list_elem_of_fmap_2.
    + intros i Hi.
      assert (Hi' : bu_assignee_ids b = None ∨ i ∉ map Task.id ts).
      { destruct Hi as [? | Hi]; [by left | right].
        intros Hin. apply Hi. simpl. by right. }
      rewrite Hothers by exact Hi'. unfold assignees_of. apply Hold.
      destruct Hi as [? | Hi]; [by left | right].
      intros ->. apply Hi. simpl. by left.
Qed.

(** The loop reads the status, the priority and the assignee list of the
    request, not its ids. *)
Lemma bulk_update_loop_ids af (b : TaskBulkUpdate) ids' user_id now ts n s :
  TaskService.bulk_update_loop af
    (mkTaskBulkUpdate ids' (bu_status b) (bu_priority b) (bu_assignee_ids b))
    user_id now ts n s
  = TaskService.bulk_update_loop af b user_id now ts n s.
Proof.
  revert n s. induction ts as [| t ts IH]; intros n s; simpl; [done |].
  unfold bind.
  change (TaskService.bulk_update_one af
            (mkTaskBulkUpdate ids' (bu_status b) (bu_priority b)
               (bu_assignee_ids b)) user_id now t s)
    with (TaskService.bulk_update_one af b user_id now t s).
  destruct (TaskService.bulk_update_one af b user_id now t s)
    as [e | [c s']]; [done |].
  apply IH.
Qed.

Lemma bulk_update_tasks_matched (b : TaskBulkUpdate) user_id now (w : World) :
  TaskService.bulk_update_tasks b user_id now w
  = match (let* updated_count :=
             TaskService.bulk_update_loop (autoflush w) b user_id now
               (matched b (db w)) 0 in
           commit now;;
           ret updated_count) (begin (db w)) with
    | inl e => (Raised e, w)
    | inr (updated_count, s) =>
        (Returned updated_count,
         mkWorld (autoflush w) (work s)
           (TaskService._invalidate_task_cache (redis w)))
    end.
Proof. reflexivity. Qed.

(** C4. A bulk update never fails and only touches the tasks it matches: ids
    that match no task change nothing.  For each matched task it records a
    history entry for the status and for the priority exactly when the value
    is given and differs from the current one, and, when an assignee list is
    given, replaces the assignments by the list and records one "assignees"
    entry whether or not the list differs from the old one.  The count it
    returns is the number of matched tasks with at least one change
    record. *)
Theorem bulk_update_tasks_spec
    (w : World) (b : TaskBulkUpdate) (user_id now : Z) :
  let ms := matched b (db w) in
  exists w',
    TaskService.bulk_update_tasks b user_id now w
    = (Returned (Z.of_nat (length (filter (fun t => bulk_changes b t ≠ []) ms))),
       w')
    ∧ map history_view (task_history (db w'))
      = map history_view (task_history (db w))
        ++ flat_map
             (fun t => map (change_view (Task.id t) user_id now)
                         (bulk_changes b t)) ms
    ∧ (forall ids t, bu_assignee_ids b = Some ids -> t ∈ ms ->
         assignees_of (db w') (Task.id t) = ids)
    ∧ (forall i, bu_assignee_ids b = None ∨ i ∉ map Task.id ms ->
         assignees_of (db w') i = assignees_of (db w) i)
    ∧ (forall ids',
         (forall t, t ∈ tasks (db w) ->
            Task.id t ∈ ids' <-> Task.id t ∈ bu_task_ids b) ->
         TaskService.bulk_update_tasks
           (mkTaskBulkUpdate ids' (bu_status b) (bu_priority b)
              (bu_assignee_ids b)) user_id now w
         = TaskService.bulk_update_tasks b user_id now w).
Proof.
  intros ms.
  assert (Hbody :
    wp (let* updated_count :=
          TaskService.bulk_update_loop (autoflush w) b user_id now ms 0 in
        commit now;;
        ret updated_count)
       (fun n' s' =>
          exists s1, bulk_done b user_id now ms 0 (begin (db w)) n' s1
                     ∧ same_rows s1 s')
       no_raise (begin (db w))).
  { assert (H0 : flushable (begin (db w))).
    { split; [done |]. intros i. apply not_elem_of_nil. }
    apply wp_bind. eapply wp_mono; [by apply wp_bulk_update_loop | | done].
    intros n' s1 Hdone. simpl. apply wp_bind. unfold commit.
    apply wp_flush_flushable; [apply Hdone |].
    intros s2 _ Hsame. apply wp_ret. by exists s1. }
  assert (Hignored : forall ids',
            (forall t, t ∈ tasks (db w) ->
               Task.id t ∈ ids' <-> Task.id t ∈ bu_task_ids b) ->
            TaskService.bulk_update_tasks
              (mkTaskBulkUpdate ids' (bu_status b) (bu_priority b)
                 (bu_assignee_ids b)) user_id now w
            = TaskService.bulk_update_tasks b user_id now w).
  { intros ids' Hids'.
    assert (Hms : matched (mkTaskBulkUpdate ids' (bu_status b) (bu_priority b)
                             (bu_assignee_ids b)) (db w) = ms).
    { unfold ms, matched. simpl. by apply filter_ext_in. }
    rewrite !bulk_update_tasks_matched, Hms. simpl. unfold bind at 1 3.
    by rewrite bulk_update_loop_ids. }
  rewrite bulk_update_tasks_matched. fold ms.
  unfold wp in Hbody.
  match goal with
  | |- context [match ?m (begin (db w)) with _ => _ end] =>
      destruct (m (begin (db w))) as [e | [n' s']] eqn:Hrun
  end; [done |].
  destruct Hbody as (s1 & (-> & _ & Hh & Hm & Ho) & [Hsh Hsa]).
  eexists. split; [reflexivity |]. simpl.
  split; [by rewrite Hsh |].
  split; [| split].
  - intros ids t Hids Ht. unfold assignees_of. rewrite Hsa. by eapply Hm.
  - intros i Hi. unfold assignees_of. rewrite Hsa. by apply Ho.
  - intros ids' Hids'.
    rewrite (Hignored ids' Hids'), bulk_update_tasks_matched. fold ms.
    by rewrite Hrun.
Qed.

(** Tasks 1 and 2 both have status "todo"; id 99 matches nothing.  Setting
    the status to "todo" changes no task; giving an assignee list as well
    changes both, and writes one "assignees" entry for each. *)
Example bulk_update_two_tasks :
  (TaskService.bulk_update_tasks
     (mkTaskBulkUpdate [1; 2; 99] (Some TODO) None None) 7 30 two_tasks).1
  = Returned 0
  ∧ (TaskService.bulk_update_tasks
       (mkTaskBulkUpdate [1; 2; 99] (Some TODO) None (Some [5])) 7 30
       two_tasks).1
    = Returned 2
  ∧ map TaskHistory.field_changed
      (task_history
         (db (TaskService.bulk_update_tasks
                (mkTaskBulkUpdate [1; 2; 99] (Some TODO) None (Some [5])) 7 30
                two_tasks).2))
    = ["assignees"; "assignees"].
Proof. vm_compute. done. Qed.

(** * Further properties of the operations *)

(** ** What [delete_task] does, case by case *)

Lemma title_null_pending_other_column (st : Store) (nt : list Tag.t)
    (cols : list (Z * string)) :
  Forall (fun c => c.2 ≠ "title") cols ->
  title_null_pending (mkSession st nt cols) = false.
Proof.
  intros Hc. apply title_null_pending_false. simpl. intros i Hi.
  rewrite Forall_forall in Hc. by apply (Hc _ Hi).
Qed.

Lemma flush_no_tags now (s : Session) :
  new_tags s = [] ->
  Forall (fun c => c.2 ≠ "title") (dirty s) ->
  flush now s
  = inr (tt, mkSession
               (set_tasks (map (onupdate now (map fst (dirty s)))) (work s))
               [] []).
Proof.
  destruct s as [st nt cols]. simpl. intros -> Hc. unfold flush.
  rewrite title_null_pending_other_column by done. simpl.
  by destruct st.
Qed.

Lemma delete_task_cases (task_id now : Z) (w : World) :
  TasksApi.delete_task task_id now w
  = match query_task_first task_id (db w) with
    | None => (Raised (HTTPException HTTP_404_NOT_FOUND "Task not found"), w)
    | Some _ =>
        match blocked_by_others task_id (db w) with
        | _ :: _ => (Raised IntegrityError, w)
        | [] =>
            (Returned tt,
             mkWorld (autoflush w) (deleted_store now task_id (db w))
               (TaskService._invalidate_task_cache (redis w)))
        end
    end.
Proof.
  unfold TasksApi.delete_task.
  destruct (query_task_first task_id (db w)) as [tk |] eqn:Hq; [| done].
  apply query_task_first_Some in Hq as [_ <-].
  unfold bind, delete_task_object, commit, begin. cbn [work new_tags dirty].
  destruct (blocked_by_others (Task.id tk) (db w)) as [| b bs]; [| done].
  rewrite flush_no_tags; cbn [work new_tags dirty app]; [| done |].
  2:{ apply Forall_forall. intros c Hc.
      apply list_elem_of_fmap in Hc as (t & -> & _). done. }
  unfold deleted_store, set_tasks. cbn.
  by rewrite (map_map _ fst).
Qed.

(** ** The history is append-only *)

Lemma keeps_history_flush H0 E now :
  E IntegrityError -> keeps (history_kept H0) E (flush now).
Proof. intros He s Hs. apply wp_flush; [done |]. intros table _ _. exact Hs. Qed.

Lemma keeps_history_add_history H0 E now task_id user_id c :
  keeps (history_kept H0) E (add_history now task_id user_id c).
Proof.
  unfold add_history. apply keeps_modify. intros s Hs.
  unfold history_kept in *. simpl. by apply prefix_app_r.
Qed.

Lemma keeps_history_flush_may H0 now :
  keeps (history_kept H0) may_raise (flush now).
Proof. by apply keeps_history_flush. Qed.

#[local] Hint Resolve keeps_history_flush_may keeps_history_add_history : keeps.

(** [keeps_auto], taking the branches of a computation apart before any of
    its steps is unfolded. *)
Ltac keeps_cases :=
  repeat first
    [ apply keeps_ret
    | match goal with
      | |- keeps _ _ (match ?x with _ => _ end) => destruct x
      end
    | (apply keeps_for_each; intros ?)
    | (apply keeps_bind; [| intros ?]) ];
  keeps_auto.

(** The two loops keep whatever the steps they are made of keep. *)
Ltac keeps_update_fields :=
  match goal with
  | |- keeps ?I ?E (TaskService.update_fields ?af ?now ?task_id ?items ?changes) =>
      revert changes;
      induction items as [| [field value] items IH]; intros changes; simpl;
      [ apply keeps_ret
      | apply keeps_bind; [| intros c; apply IH];
        unfold TaskService.update_field;
        assert (Hgen : keeps I E
                  (let* task := task_object task_id in
                   match getattr task field with
                   | inl e => raise e
                   | inr old_value =>
                       if bool_decide (old_value ≠ value)
                       then assign task_id field value;;
                            ret (changes ++ [(field_name field, Str old_value,
                                              Str value)])
                       else ret changes
                   end)) by keeps_auto;
        destruct field; try exact Hgen; destruct value; try exact Hgen;
        keeps_auto ]
  end.

Ltac keeps_bulk_update_loop :=
  match goal with
  | |- keeps ?I ?E (TaskService.bulk_update_loop ?af ?b ?u ?now ?ts ?n) =>
      revert n; induction ts as [| t ts IH]; intros n; simpl;
      [ apply keeps_ret
      | apply keeps_bind; [| intros changes; apply IH];
        unfold TaskService.bulk_update_one; cbv zeta; keeps_auto ]
  end.

Lemma keeps_history_update_fields H0 af now task_id items changes :
  keeps (history_kept H0) may_raise
    (TaskService.update_fields af now task_id items changes).
Proof. keeps_update_fields. Qed.

Lemma keeps_history_bulk_update_loop H0 af bulk_data user_id now ts n :
  keeps (history_kept H0) may_raise
    (TaskService.bulk_update_loop af bulk_data user_id now ts n).
Proof. keeps_bulk_update_loop. Qed.

#[local] Hint Resolve keeps_history_update_fields
  keeps_history_bulk_update_loop : keeps.

(** Take a request apart: a read leaves the store alone, a transaction that
    raises leaves the world alone, and one that returns installs the rows of
    its session. *)
Ltac serve_cases w :=
  simpl;
  unfold TasksApi.create_task, TaskService.create_task,
    TasksApi.get_task, TaskService.get_task,
    TasksApi.update_task, TaskService.update_task, TasksApi.delete_task,
    TasksApi.bulk_update_tasks, TaskService.bulk_update_tasks,
    TasksApi.get_analytics, TaskService.get_analytics,
    TasksApi.add_task_dependency, TasksApi.remove_task_dependency;
  cbv zeta;
  repeat match goal with
    | |- context [match Redis.get ?k ?n ?r with _ => _ end] =>
        destruct (Redis.get k n r)
    | |- context [match query_task_first ?i ?st with _ => _ end] =>
        destruct (query_task_first i st) eqn:?
    | |- context [match query_dependency_first ?i ?j ?st with _ => _ end] =>
        destruct (query_dependency_first i j st)
    end;
  try done;
  try match goal with
    | |- context [match ?b (begin (db w)) with _ => _ end] =>
        let Hbody := fresh "Hbody" in
        destruct (b (begin (db w))) as [e | [a s']] eqn:Hbody
    end;
  try done; simpl.

(** X1. Serving a request never rewrites or drops a history row, except that
    deleting a task removes the rows of that task: any other request leaves
    the history it found as a prefix of the history it leaves. *)
Theorem history_append_only (now : Z) (r : Request) (w : World) :
  match r with
  | DeleteTask task_id =>
      task_history (db (serve now r w)) = task_history (db w)
      ∨ task_history (db (serve now r w))
        = filter (fun h => TaskHistory.task_id h ≠ task_id)
            (task_history (db w))
  | _ => task_history (db w) `prefix_of` task_history (db (serve now r w))
  end.
Proof.
  assert (Hb : history_kept (task_history (db w)) (begin (db w)))
    by (unfold history_kept; simpl; reflexivity).
  destruct r;
    try (serve_cases w;
         refine (keeps_inr (history_kept (task_history (db w))) may_raise
                   _ _ _ _ _ Hb Hbody);
         keeps_auto; fail).
  simpl. rewrite delete_task_cases.
  destruct (query_task_first task_id (db w)); [| by left].
  destruct (blocked_by_others task_id (db w)); [by right | by left].
Qed.


(** ** Row ids under the unit of work *)

Lemma map_id_onupdate now ids (l : list Task.t) :
  map Task.id (map (onupdate now ids) l) = map Task.id l.
Proof.
  rewrite map_map. apply map_ext. intros t. apply onupdate_id.
Qed.

Lemma map_id_assign task_id f v (l : list Task.t) :
  map Task.id
    (map (fun t => if bool_decide (Task.id t = task_id)
                   then setattr t f v else t) l)
  = map Task.id l.
Proof.
  rewrite map_map. apply map_ext. intros t.
  destruct (bool_decide _); [apply setattr_id | done].
Qed.

(** ** A cached dashboard does not outlive a change of its rows *)

Lemma task_key_not_analytics task_id : task_key task_id ≠ analytics_key.
Proof. unfold task_key, analytics_key. simpl. discriminate. Qed.

Lemma keeps_dashboard_flush st now :
  keeps (dashboard_rows st) may_raise (flush now).
Proof.
  intros s (Hd & Ht & Hu & Ha). apply wp_flush; [done |]. intros table _ _.
  unfold dashboard_rows. simpl. rewrite Hd. simpl.
  by rewrite map_onupdate_nil.
Qed.

#[local] Hint Resolve keeps_dashboard_flush : keeps.

Lemma analytics_key_invalidated (r : gmap string (Z * Json)) :
  TaskService._invalidate_task_cache r !! analytics_key = None.
Proof.
  unfold TaskService._invalidate_task_cache, Redis.delete.
  apply lookup_delete_eq.
Qed.

Lemma serve_analytics_entry now (r : Request) (w : World) (v : Z * Json) :
  redis (serve now r w) !! analytics_key = Some v ->
  redis w !! analytics_key = Some v
  ∧ tasks (db (serve now r w)) = tasks (db w)
  ∧ task_assignments (db (serve now r w)) = task_assignments (db w)
  ∧ users (db (serve now r w)) = users (db w).
Proof.
  assert (Hb : dashboard_rows (db w) (begin (db w))) by done.
  assert (Hdeps : forall (m : M unit) u s',
            keeps (dashboard_rows (db w)) may_raise m ->
            m (begin (db w)) = inr (u, s') ->
            tasks (work s') = tasks (db w)
            ∧ task_assignments (work s') = task_assignments (db w)
            ∧ users (work s') = users (db w)).
  { intros m u s' Hm Hrun.
    by destruct (keeps_inr _ _ _ _ _ _ Hm Hb Hrun) as (_ & Ht & Hu & Ha). }
  destruct r; serve_cases w;
    rewrite ?analytics_key_invalidated; try done.
  - unfold Redis.setex. rewrite lookup_insert_ne; [done |].
    apply task_key_not_analytics.
  - unfold Redis.delete.
    rewrite lookup_delete_ne by apply task_key_not_analytics.
    by rewrite analytics_key_invalidated.
  - intros Hv. split; [done |]. refine (Hdeps _ _ _ _ Hbody). keeps_auto.
  - intros Hv. split; [done |]. refine (Hdeps _ _ _ _ Hbody). keeps_auto.
Qed.

(** X3. A cached dashboard does not outlive a change of the rows it shows.
    If the cache holds an entry under the analytics key after a sequence of
    requests, the entry was there, with the same value and expiry, before
    the first of them, and the task, assignment and user rows are the ones
    of that moment: every request that changes one of them deletes the key,
    and no request writes it (the miss path of [get_analytics], the only
    writer, raises before it gets there). *)
Theorem analytics_entry_outlives_no_change
    (rs : list (Z * Request)) (w : World) (v : Z * Json) :
  redis (serve_all rs w) !! analytics_key = Some v ->
  redis w !! analytics_key = Some v
  ∧ tasks (db (serve_all rs w)) = tasks (db w)
  ∧ task_assignments (db (serve_all rs w)) = task_assignments (db w)
  ∧ users (db (serve_all rs w)) = users (db w).
Proof.
  revert w. induction rs as [| [now r] rs IH]; intros w Hv; [done |].
  cbn [serve_all] in *.
  apply IH in Hv as (Hv & Ht & Ha & Hu).
  apply serve_analytics_entry in Hv as (Hv & Ht' & Ha' & Hu').
  by rewrite Ht, Ha, Hu.
Qed.

Lemma analytics_entry_outlives_no_change_witness :
  let w := mkWorld true (db two_tasks)
             (<[analytics_key := (seconds 500, JString "dashboard")]> ∅) in
  let rs := [(30, GetTask 1); (40, AddTaskDependency 1 2);
             (50, GetAnalytics);
             (60, UpdateTask 9
                    (mkTaskUpdate None None (Some (Some DONE)) None None None
                       None) 1)] in
  redis w !! analytics_key = Some (seconds 500, JString "dashboard")
  ∧ tasks (db (serve_all rs w)) = tasks (db w)
  ∧ task_assignments (db (serve_all rs w)) = task_assignments (db w)
  ∧ users (db (serve_all rs w)) = users (db w).
Proof.
  intros w rs.
  apply (analytics_entry_outlives_no_change rs w).
  vm_compute. reflexivity.
Defined.

(** ** Rows of a task do not outlive it *)

Lemma Forall_filter_keep {A} (P Q : A -> Prop) `{forall x, Decision (Q x)}
    (l : list A) :
  Forall P l -> Forall P (filter Q l).
Proof.
  rewrite !Forall_forall. intros Hl x [_ Hx]%list_elem_of_filter. by apply Hl.
Qed.

Lemma keeps_refs_flush ids now : keeps (refs_kept ids) may_raise (flush now).
Proof.
  intros s [Hi Hr]. apply wp_flush; [done |]. intros table _ _.
  split; [| exact Hr].
  unfold task_ids. simpl. rewrite map_id_onupdate. exact Hi.
Qed.

Lemma keeps_refs_assign ids E task_id f v :
  keeps (refs_kept ids) E (assign task_id f v).
Proof.
  intros s [Hi Hr]. split; [| exact Hr].
  unfold task_ids. simpl. rewrite map_id_assign. exact Hi.
Qed.

Lemma keeps_refs_add_assignment ids E now task_id user_id :
  task_id ∈ ids -> keeps (refs_kept ids) E (add_assignment now task_id user_id).
Proof.
  intros Hin s (Hi & Hh & Ha & Hd & Ht).
  split; [exact Hi |]. split; [exact Hh |]. split; [| by split].
  simpl. apply Forall_app_2; [exact Ha |]. by apply Forall_singleton.
Qed.

Lemma keeps_refs_add_dependency ids E now task_id depends_on :
  task_id ∈ ids ->
  keeps (refs_kept ids) E (add_dependency now task_id depends_on).
Proof.
  intros Hin s (Hi & Hh & Ha & Hd & Ht).
  split; [exact Hi |]. split; [exact Hh |]. split; [exact Ha |].
  split; [| exact Ht].
  simpl. apply Forall_app_2; [exact Hd |]. by apply Forall_singleton.
Qed.

Lemma keeps_refs_add_history ids E now task_id user_id c :
  task_id ∈ ids ->
  keeps (refs_kept ids) E (add_history now task_id user_id c).
Proof.
  intros Hin s (Hi & Hh & Ha & Hd & Ht).
  split; [exact Hi |]. split; [| by split].
  simpl. apply Forall_app_2; [exact Hh |]. by apply Forall_singleton.
Qed.

Lemma keeps_refs_tags_append ids E task_id g :
  task_id ∈ ids -> keeps (refs_kept ids) E (tags_append task_id g).
Proof.
  intros Hin s (Hi & Hh & Ha & Hd & Ht).
  split; [exact Hi |]. split; [exact Hh |]. split; [exact Ha |].
  split; [exact Hd |].
  simpl. apply Forall_app_2; [exact Ht |]. by apply Forall_singleton.
Qed.

Lemma keeps_refs_filter_assignments ids E (P : TaskAssignment.t -> Prop)
    `{forall a, Decision (P a)} :
  keeps (refs_kept ids) E (modify (set_task_assignments (filter P))).
Proof.
  intros s (Hi & Hh & Ha & Hd & Ht).
  split; [exact Hi |]. split; [exact Hh |]. split; [| by split].
  simpl. by apply Forall_filter_keep.
Qed.

Lemma keeps_refs_filter_dependencies ids E (P : TaskDependency.t -> Prop)
    `{forall a, Decision (P a)} :
  keeps (refs_kept ids) E (modify (set_task_dependencies (filter P))).
Proof.
  intros s (Hi & Hh & Ha & Hd & Ht).
  split; [exact Hi |]. split; [exact Hh |]. split; [exact Ha |].
  split; [| exact Ht].
  simpl. by apply Forall_filter_keep.
Qed.

Lemma keeps_refs_tags_clear ids E task_id :
  keeps (refs_kept ids) E (tags_clear task_id).
Proof.
  intros s (Hi & Hh & Ha & Hd & Ht).
  split; [exact Hi |]. split; [exact Hh |]. split; [exact Ha |].
  split; [exact Hd |].
  simpl. by apply Forall_filter_keep.
Qed.

#[local] Hint Resolve keeps_refs_flush keeps_refs_assign
  keeps_refs_add_assignment keeps_refs_add_dependency keeps_refs_add_history
  keeps_refs_tags_append keeps_refs_filter_assignments
  keeps_refs_filter_dependencies keeps_refs_tags_clear : keeps.

Lemma keeps_refs_update_fields ids af now task_id items changes :
  task_id ∈ ids ->
  keeps (refs_kept ids) may_raise
    (TaskService.update_fields af now task_id items changes).
Proof. intros Hin. keeps_update_fields. Qed.

Lemma keeps_refs_bulk_update_loop ids af bulk_data user_id now ts n :
  Forall (fun t => Task.id t ∈ ids) ts ->
  keeps (refs_kept ids) may_raise
    (TaskService.bulk_update_loop af bulk_data user_id now ts n).
Proof.
  intros Hts. revert n.
  induction Hts as [| t ts Ht Hts IH]; intros n; simpl; [apply keeps_ret |].
  apply keeps_bind; [| intros changes; apply IH].
  cbv beta in Ht.
  unfold TaskService.bulk_update_one. cbv zeta. keeps_cases.
Qed.

Lemma refs_in_mono ids ids' (st : Store) :
  (forall i, i ∈ ids -> i ∈ ids') -> refs_in ids st -> refs_in ids' st.
Proof.
  intros Hsub (Hh & Ha & Hd & Ht).
  repeat split; (eapply Forall_impl; [eassumption |]); simpl; auto.
Qed.

Lemma refs_kept_ok ids s : refs_kept ids s -> task_refs_ok (work s).
Proof. intros [Hi Hr]. unfold task_refs_ok. by rewrite Hi. Qed.

(** The rows [create_task] adds for its task come after the INSERT of the
    task. *)
Lemma refs_new_task {A} E (row : Z -> Task.t) (k : Z -> M A) s :
  (forall i, Task.id (row i) = i) ->
  (forall i ids, i ∈ ids -> keeps (refs_kept ids) E (k i)) ->
  task_refs_ok (work s) ->
  wp (let* task_id := gets next_task_id in
      modify (fun s =>
        bump_task_id (set_tasks (fun l => l ++ [row task_id]) s));;
      k task_id)
     (fun _ s' => task_refs_ok (work s')) E s.
Proof.
  intros Hrow Hk Hs.
  apply wp_bind, wp_gets, wp_bind, wp_modify.
  refine (wp_mono _ _ _ _ _ _
            (Hk _ (task_ids (work s) ++ [next_task_id (work s)]) _ _ _)
            _ _).
  - apply elem_of_app. right. apply list_elem_of_singleton. done.
  - split.
    + unfold task_ids. simpl. rewrite map_app. simpl. by rewrite Hrow.
    + refine (refs_in_mono _ _ _ _ Hs). intros i Hi.
      apply elem_of_app. by left.
  - intros a s'. apply refs_kept_ok.
  - done.
Qed.

Lemma refs_deleted now task_id (st : Store) :
  task_refs_ok st -> task_refs_ok (deleted_store now task_id st).
Proof.
  intros (Hh & Ha & Hd & Ht).
  assert (Hin : forall i, i ≠ task_id -> i ∈ task_ids st ->
                          i ∈ task_ids (deleted_store now task_id st)).
  { intros i Hne Hi. unfold task_ids, deleted_store. simpl.
    rewrite map_id_onupdate, map_map.
    rewrite (map_ext _ Task.id) by (intros t; apply detach_child_id).
    apply list_elem_of_fmap in Hi as (t & -> & Ht').
    apply list_elem_of_fmap. exists t. split; [done |].
    by apply list_elem_of_filter. }
  unfold task_refs_ok, refs_in in *.
  rewrite !Forall_forall in *.
  repeat split; intros x [Hx Hx']%list_elem_of_filter; apply Hin; auto.
Qed.

Lemma serve_refs now (r : Request) (w : World) :
  task_refs_ok (db w) -> task_refs_ok (db (serve now r w)).
Proof.
  intros Hw.
  assert (Hb : refs_kept (task_ids (db w)) (begin (db w))) by done.
  assert (Hq : forall i t, query_task_first i (db w) = Some t ->
                           i ∈ task_ids (db w)).
  { intros i t [Ht <-]%query_task_first_Some.
    apply list_elem_of_fmap. by exists t. }
  destruct r;
    try (simpl; rewrite (delete_task_cases task_id now w);
         destruct (query_task_first task_id (db w)); [| done];
         destruct (blocked_by_others task_id (db w)); [| done];
         by apply refs_deleted);
    serve_cases w.
  - refine (wp_inr _ _ _ _ _ _
              (refs_new_task may_raise _ _ (begin (db w)) _ _ Hw) Hbody);
      [done |].
    intros i ids Hi. keeps_auto.
  - apply (refs_kept_ok (task_ids (db w))).
    refine (keeps_inr _ may_raise _ _ _ _ _ Hb Hbody).
    assert (Hin : task_id ∈ task_ids (db w)) by eauto.
    keeps_auto. by apply keeps_refs_update_fields.
  - apply (refs_kept_ok (task_ids (db w))).
    refine (keeps_inr _ may_raise _ _ _ _ _ Hb Hbody).
    keeps_auto. apply keeps_refs_bulk_update_loop.
    apply Forall_forall. intros t [_ Ht]%list_elem_of_filter.
    apply list_elem_of_fmap. by exists t.
  - apply (refs_kept_ok (task_ids (db w))).
    refine (keeps_inr _ may_raise _ _ _ _ _ Hb Hbody).
    assert (Hin : task_id ∈ task_ids (db w)) by eauto.
    keeps_auto.
  - apply (refs_kept_ok (task_ids (db w))).
    refine (keeps_inr _ may_raise _ _ _ _ _ Hb Hbody).
    keeps_auto.
Qed.

(** X4. Foreign keys are not enforced, and still no request leaves a row
    behind its task: if every history, assignment, dependency and tag
    association row names (in its [task_id]) a task that exists, the same
    holds after any sequence of requests. *)
Theorem task_rows_never_dangle (rs : list (Z * Request)) (w : World) :
  task_refs_ok (db w) -> task_refs_ok (db (serve_all rs w)).
Proof.
  revert w. induction rs as [| [now r] rs IH]; intros w Hw; [done |].
  simpl. apply IH. by apply serve_refs.
Qed.


Lemma task_rows_never_dangle_witness :
  task_refs_ok (db timeline_world)
  ∧ task_refs_ok
      (db (serve_all [(40, DeleteTask 1);
                      (50, CreateTask (plain_task "b" None) 7)]
             timeline_world)).
Proof.
  assert (H : task_refs_ok (db timeline_world)).
  { apply (bool_decide_unpack _). vm_compute. exact I. }
  split; [exact H | exact (task_rows_never_dangle _ _ H)].
Defined.

(** ** A null title is refused by the database, not by the handler *)

Lemma title_nulled_pending task_id s :
  title_nulled task_id s -> title_null_pending s = true.
Proof.
  intros (Hd & t & [Ht Hi]%query_task_first_Some & Hn).
  unfold title_null_pending. apply existsb_exists. exists t.
  split; [by apply list_elem_of_In |].
  rewrite Hi. by rewrite !bool_decide_eq_true_2.
Qed.

Lemma wp_flush_title_nulled task_id now Q s :
  title_nulled task_id s -> wp (flush now) Q (eq IntegrityError) s.
Proof.
  intros H. unfold wp, flush. by rewrite (title_nulled_pending _ _ H).
Qed.

Lemma keeps_title_flush task_id now :
  keeps (title_nulled task_id) (eq IntegrityError) (flush now).
Proof. intros s Hs. by apply (wp_flush_title_nulled task_id). Qed.

Lemma keeps_title_task_object task_id :
  keeps (title_nulled task_id) (eq IntegrityError) (task_object task_id).
Proof.
  intros s Hs. unfold wp, task_object.
  destruct Hs as (Hd & t & Ht & Hn). rewrite Ht. by split; [| exists t].
Qed.

Lemma setattr_title t f v : f ≠ F_title -> Task.title (setattr t f v) = Task.title t.
Proof. intros Hf. by destruct f, v. Qed.

Lemma title_nulled_assign task_id f v s :
  f ≠ F_title ->
  title_nulled task_id s ->
  title_nulled task_id
    (mkSession
       (set_tasks
          (map (fun t => if bool_decide (Task.id t = task_id)
                         then setattr t f v else t))
          (work s))
       (new_tags s) (dirty s ++ [(task_id, field_name f)])).
Proof.
  intros Hf (Hd & t & Ht & Hn). split.
  - simpl. apply elem_of_app. by left.
  - unfold query_task_first in *. simpl. rewrite find_task_map.
    + rewrite Ht. simpl. eexists. split; [done |].
      apply query_task_first_Some in Ht as [_ Hi].
      rewrite bool_decide_eq_true_2 by done. by rewrite setattr_title.
    + intros t'. destruct (bool_decide _); [apply setattr_id | done].
Qed.

Lemma title_nulled_assign_title task_id s t :
  query_task_first task_id (work s) = Some t ->
  title_nulled task_id
    (mkSession
       (set_tasks
          (map (fun t => if bool_decide (Task.id t = task_id)
                         then setattr t F_title PNone else t))
          (work s))
       (new_tags s) (dirty s ++ [(task_id, field_name F_title)])).
Proof.
  intros Ht. split.
  - cbn [dirty]. apply elem_of_app. right. by apply list_elem_of_singleton.
  - unfold query_task_first in *. cbn [work set_tasks tasks].
    rewrite find_task_map.
    + rewrite Ht. cbn [fmap option_fmap option_map]. eexists. split; [done |].
      apply query_task_first_Some in Ht as [_ Hi].
      by rewrite bool_decide_eq_true_2.
    + intros t'. destruct (bool_decide _); [apply setattr_id | done].
Qed.

#[local] Hint Resolve keeps_title_flush keeps_title_task_object : keeps.

Lemma keeps_title_update_field af now task_id f v changes :
  after_title (f, v) ->
  keeps (title_nulled task_id) (eq IntegrityError)
    (TaskService.update_field af now task_id f v changes).
Proof.
  intros [Hf [Hs | [[ids [= -> ->]] | [names [= -> ->]]]]]; simpl in *.
  - intros s Hn. unfold wp.
    destruct Hn as (Hd & t & Ht & Hnull).
    destruct (update_field_scalar af now task_id f v changes s t Hs Ht)
      as (old & _ & ->).
    destruct (bool_decide (old ≠ v)).
    + apply title_nulled_assign; [done |]. by split; [| exists t].
    + by split; [| exists t].
  - unfold TaskService.update_field. keeps_auto.
  - unfold TaskService.update_field. keeps_auto.
Qed.

Lemma keeps_title_update_fields af now task_id items changes :
  Forall after_title items ->
  keeps (title_nulled task_id) (eq IntegrityError)
    (TaskService.update_fields af now task_id items changes).
Proof.
  intros Hitems. revert changes.
  induction Hitems as [| [f v] items Hit Hitems IH]; intros changes; simpl.
  - apply keeps_ret.
  - apply keeps_bind; [| intros c; apply IH].
    by apply keeps_title_update_field.
Qed.

Lemma items_after_title (d : TaskUpdate) :
  tu_assignee_ids d ≠ Some None ->
  tu_tag_names d ≠ Some None ->
  Forall after_title
    (item F_description PStr (tu_description d) ++
     item F_status PStatus (tu_status d) ++
     item F_priority PPriority (tu_priority d) ++
     item F_due_date PDatetime (tu_due_date d) ++
     item F_assignee_ids PIntList (tu_assignee_ids d) ++
     item F_tag_names PStrList (tu_tag_names d)).
Proof.
  intros Ha Hg. unfold item.
  repeat (apply Forall_app_2);
    repeat match goal with
      | |- Forall _ match ?o with _ => _ end => destruct o as [[?|] |]
      end;
    try done; try apply Forall_nil_2;
    apply Forall_singleton; (split; [done |]); simpl; eauto.
Qed.

(** X5. [TaskUpdate] lets a null title through, the column does not: an
    update of an existing task with ["title": null] (and no null collection)
    ends in the database's [IntegrityError], whatever else it asks for, and
    changes nothing. *)
Theorem update_task_null_title
    (w : World) (task_id : Z) (d : TaskUpdate) (user_id now : Z) (t : Task.t) :
  query_task_first task_id (db w) = Some t ->
  Task.title t ≠ None ->
  tu_title d = Some None ->
  tu_assignee_ids d ≠ Some None ->
  tu_tag_names d ≠ Some None ->
  TasksApi.update_task task_id d user_id now w = (Raised IntegrityError, w).
Proof.
  intros Hq Htitle Hd Ha Hg.
  unfold TasksApi.update_task, TaskService.update_task. rewrite Hq.
  match goal with
  | |- context [match ?b (begin (db w)) with _ => _ end] =>
      assert (Hwp : wp b (fun _ _ => False) (eq IntegrityError) (begin (db w)))
  end.
  { apply wp_bind. unfold dict_exclude_unset. rewrite Hd.
    change (item F_title PStr (Some None) ++ ?l) with ((F_title, PNone) :: l).
    cbn [TaskService.update_fields]. apply wp_bind.
    destruct (update_field_scalar (autoflush w) now task_id F_title PNone []
                (begin (db w)) t eq_refl Hq) as (old & Hold & Hrun).
    simpl in Hold. injection Hold as <-.
    unfold wp at 1. rewrite Hrun.
    rewrite bool_decide_eq_true_2 by (by destruct (Task.title t)).
    assert (Hn : title_nulled task_id
              (mkSession
                 (set_tasks
                    (map (fun t => if bool_decide (Task.id t = task_id)
                                   then setattr t F_title PNone else t))
                    (work (begin (db w))))
                 (new_tags (begin (db w)))
                 (dirty (begin (db w)) ++ [(task_id, field_name F_title)]))).
    { by apply (title_nulled_assign_title _ _ t). }
    refine (wp_mono _ _ _ _ _ _
              (keeps_title_update_fields _ _ _ _ _
                 (items_after_title d Ha Hg) _ Hn) _ _); [| done].
    intros changes s1 H1. apply wp_bind.
    assert (Hh : keeps (title_nulled task_id) (eq IntegrityError)
                   (for_each changes (add_history now task_id user_id)))
      by keeps_auto.
    refine (wp_mono _ _ _ _ _ _ (Hh _ H1) _ _); [| done].
    intros u s2 H2. apply wp_bind. by apply (wp_flush_title_nulled task_id). }
  unfold wp in Hwp.
  match goal with
  | |- context [match ?b (begin (db w)) with _ => _ end] =>
      destruct (b (begin (db w))) as [e | [a s']]
  end; [by subst e | done].
Qed.

Lemma update_task_null_title_witness :
  TasksApi.update_task 1
    (mkTaskUpdate (Some None) None (Some (Some DONE)) None None
       (Some (Some [7])) None) 1 30 two_tasks
  = (Raised IntegrityError, two_tasks).
Proof.
  apply (update_task_null_title two_tasks 1 _ 1 30 task_a);
    [reflexivity | discriminate | reflexivity | discriminate | discriminate].
Defined.


(** ** Deleting a task: dependents block it, subtasks are orphaned *)

Lemma NoDup_key_inj {A} (key : A -> Z) (l : list A) (x y : A) :
  NoDup (map key l) -> x ∈ l -> y ∈ l -> key x = key y -> x = y.
Proof.
  induction l as [| z l IH]; simpl; intros Hnd Hx Hy Hk.
  - by apply elem_of_nil in Hx.
  - apply NoDup_cons in Hnd as [Hz Hnd].
    apply elem_of_cons in Hx as [-> | Hx];
      apply elem_of_cons in Hy as [-> | Hy]; [done | | | by apply IH].
    + exfalso. apply Hz. rewrite Hk. by apply list_elem_of_fmap_2.
    + exfalso. apply Hz. rewrite <- Hk. by apply list_elem_of_fmap_2.
Qed.

Lemma has_dependents_blocked task_id (st : Store) :
  has_dependents task_id st <-> blocked_by_others task_id st ≠ [].
Proof.
  unfold has_dependents, blocked_by_others. rewrite Exists_exists. split.
  - intros (d & Hd & HP) Hnil.
    by apply (filter_nil_not_elem_of _ _ d Hnil HP).
  - intros Hne.
    destruct (filter _ (task_dependencies st)) as [| d ds] eqn:Hf; [done |].
    assert (Hd : d ∈ d :: ds) by left.
    rewrite <- Hf in Hd. apply list_elem_of_filter in Hd as [HP Hd].
    by exists d.
Qed.

(** X6. Deleting an existing task.  While another task depends on it the
    delete fails with the database's [IntegrityError] and changes nothing
    (the edge that points at the task cannot be detached).  Otherwise the
    delete returns, and the task table is the old one without the task,
    where each subtask of the task is kept, with its parent cleared and its
    [updated_at] refreshed, and every other row is exactly as it was. *)
Theorem delete_task_outcomes
    (w : World) (task_id now : Z) (t0 : Task.t) :
  query_task_first task_id (db w) = Some t0 ->
  NoDup (task_ids (db w)) ->
  let r := TasksApi.delete_task task_id now w in
  (has_dependents task_id (db w) -> r = (Raised IntegrityError, w))
  ∧ (¬ has_dependents task_id (db w) ->
     r.1 = Returned tt
     ∧ tasks (db r.2)
       = map (fun t => if bool_decide (Task.parent_task_id t = Some task_id)
                       then orphaned now t else t)
           (filter (fun t => Task.id t ≠ task_id) (tasks (db w)))).
Proof.
  intros Hq Hnd r. subst r. rewrite delete_task_cases, Hq.
  rewrite has_dependents_blocked.
  destruct (blocked_by_others task_id (db w)) as [| b bs]; split; try done;
    [| intros Hb; by destruct Hb].
  intros _. split; [done |]. simpl.
  rewrite map_map. apply map_ext_in. intros t Ht.
  apply list_elem_of_In, list_elem_of_filter in Ht as [Hid Ht].
  unfold detach_child, onupdate.
  destruct (bool_decide (Task.parent_task_id t = Some task_id)) eqn:Hp.
  - apply bool_decide_eq_true in Hp. simpl.
    rewrite bool_decide_eq_true_2; [done |].
    apply list_elem_of_fmap. exists t. split; [done |].
    by apply list_elem_of_filter.
  - apply bool_decide_eq_false in Hp.
    rewrite bool_decide_eq_false_2; [done |].
    intros (t' & Hid' & [[Hp' _] Ht']%list_elem_of_filter)%list_elem_of_fmap.
    assert (t = t') by (by apply (NoDup_key_inj Task.id (tasks (db w)))).
    by subst t'.
Qed.

Lemma delete_task_outcomes_witness :
  let w := serve_all
             [(30, CreateTask (mkTaskCreate "c" None TODO MEDIUM None (Some 1)
                                 [] [] [2]) 1)] two_tasks in
  (has_dependents 2 (db w) ->
   TasksApi.delete_task 2 40 w = (Raised IntegrityError, w))
  ∧ (¬ has_dependents 1 (db w) ->
     (TasksApi.delete_task 1 40 w).1 = Returned tt
     ∧ tasks (db (TasksApi.delete_task 1 40 w).2)
       = map (fun t => if bool_decide (Task.parent_task_id t = Some 1)
                       then orphaned 40 t else t)
           (filter (fun t => Task.id t ≠ 1) (tasks (db w)))).
Proof.
  intros w.
  assert (Hnd : NoDup (task_ids (db w)))
    by (apply (bool_decide_unpack _); vm_compute; exact I).
  split.
  - apply (delete_task_outcomes w 2 40
             (Task.mk 2 (Some "b") None (Some TODO) (Some MEDIUM) None 20 20 1
                None)); [reflexivity | exact Hnd].
  - apply (delete_task_outcomes w 1 40 task_a); [reflexivity | exact Hnd].
Defined.


(** ** Dependency edges: adding and removing *)

Lemma filter_all {A} (P : A -> Prop) `{forall x, Decision (P x)} (l : list A) :
  (forall x, x ∈ l -> P x) -> filter P l = l.
Proof.
  induction l as [| y l IH]; intros Hl; [done |].
  rewrite filter_cons_True by (apply Hl; left).
  f_equal. apply IH. intros x Hx. apply Hl. by right.
Qed.

Lemma query_dependency_first_none task_id depends_on (st : Store) :
  filter (is_edge task_id depends_on) (task_dependencies st) = [] ->
  query_dependency_first task_id depends_on st = None.
Proof.
  intros Hnone. unfold query_dependency_first.
  eapply find_filter_nil; [| exact Hnone].
  intros x Hx. apply andb_true_iff in Hx as [H1 H2].
  apply bool_decide_eq_true in H1, H2. by split.
Qed.

Lemma add_task_dependency_new task_id depends_on now (w : World) :
  is_Some (query_task_first task_id (db w)) ->
  is_Some (query_task_first depends_on (db w)) ->
  filter (is_edge task_id depends_on) (task_dependencies (db w)) = [] ->
  TasksApi.add_task_dependency task_id depends_on now w
  = (Returned "Dependency added successfully",
     mkWorld (autoflush w)
       (bump_dependency_id
          (set_task_dependencies
             (fun l => l ++ [TaskDependency.mk (next_dependency_id (db w))
                               task_id depends_on now])
             (db w)))
       (redis w)).
Proof.
  intros [t Ht] [d Hd] Hnone. unfold TasksApi.add_task_dependency.
  rewrite Ht, Hd, (query_dependency_first_none _ _ _ Hnone).
  by rewrite add_dependency_commit.
Qed.

Lemma remove_task_dependency_found task_id depends_on now (w : World) d :
  query_dependency_first task_id depends_on (db w) = Some d ->
  TasksApi.remove_task_dependency task_id depends_on now w
  = (Returned tt,
     mkWorld (autoflush w)
       (set_task_dependencies
          (filter (fun x => TaskDependency.id x ≠ TaskDependency.id d))
          (db w))
       (redis w)).
Proof.
  intros Hq. unfold TasksApi.remove_task_dependency. rewrite Hq.
  unfold bind, modify, commit, begin. cbn [work new_tags dirty].
  by rewrite flush_clean.
Qed.

(** X7. Adding an edge and removing it again is a round trip.  For two
    existing tasks with no edge between them, in a store whose dependency ids
    are below their sequence: after [add_task_dependency] and
    [remove_task_dependency] of the same pair the dependency table, the task
    table and the cache are what they were, only the sequence has advanced;
    and removing once more is answered with not-found. *)
Theorem add_remove_dependency_round_trip
    (w : World) (task_id depends_on now1 now2 now3 : Z) :
  is_Some (query_task_first task_id (db w)) ->
  is_Some (query_task_first depends_on (db w)) ->
  filter (is_edge task_id depends_on) (task_dependencies (db w)) = [] ->
  dependency_ids_below (db w) ->
  let r1 := TasksApi.add_task_dependency task_id depends_on now1 w in
  let r2 := TasksApi.remove_task_dependency task_id depends_on now2 r1.2 in
  r2.1 = Returned tt
  ∧ db r2.2 = bump_dependency_id (db w)
  ∧ redis r2.2 = redis w
  ∧ TasksApi.remove_task_dependency task_id depends_on now3 r2.2
    = (Raised (HTTPException HTTP_404_NOT_FOUND "Dependency not found"), r2.2).
Proof.
  intros Ht Hd Hnone Hbelow r1 r2. subst r1 r2.
  rewrite (add_task_dependency_new _ _ _ _ Ht Hd Hnone). cbn [snd].
  set (e := TaskDependency.mk (next_dependency_id (db w)) task_id depends_on
              now1).
  rewrite (remove_task_dependency_found _ _ _ _ e).
  2:{ unfold query_dependency_first. cbn.
      apply find_app_r; [by apply query_dependency_first_none |].
      cbn. by rewrite !bool_decide_eq_true_2. }
  assert (Hf : filter (fun x => TaskDependency.id x ≠ TaskDependency.id e)
                 (task_dependencies (db w) ++ [e])
               = task_dependencies (db w)).
  { rewrite filter_app, filter_cons_False, filter_nil, app_nil_r
      by (intros H; by apply H).
    apply filter_all. intros x Hx. unfold dependency_ids_below in Hbelow.
    rewrite Forall_forall in Hbelow. apply Hbelow in Hx. simpl. lia. }
  clearbody e.
  assert (Hdb : set_task_dependencies
                  (filter (fun x => TaskDependency.id x ≠ TaskDependency.id e))
                  (bump_dependency_id
                     (set_task_dependencies (fun l => l ++ [e]) (db w)))
                = bump_dependency_id (db w)).
  { unfold set_task_dependencies, bump_dependency_id. cbn. by rewrite Hf. }
  cbn [fst snd db redis autoflush]. rewrite Hdb.
  split; [done |]. split; [done |]. split; [done |].
  unfold TasksApi.remove_task_dependency.
  by rewrite query_dependency_first_none.
Qed.

Lemma add_remove_dependency_round_trip_witness :
  let r1 := TasksApi.add_task_dependency 1 2 30 two_tasks in
  let r2 := TasksApi.remove_task_dependency 1 2 40 r1.2 in
  r2.1 = Returned tt
  ∧ db r2.2 = bump_dependency_id (db two_tasks)
  ∧ redis r2.2 = redis two_tasks
  ∧ TasksApi.remove_task_dependency 1 2 50 r2.2
    = (Raised (HTTPException HTTP_404_NOT_FOUND "Dependency not found"), r2.2).
Proof.
  apply (add_remove_dependency_round_trip two_tasks 1 2 30 40 50).
  - by eexists.
  - by eexists.
  - reflexivity.
  - apply (bool_decide_unpack _). vm_compute. exact I.
Defined.


(** ** Reading a task after it was updated *)

Lemma bind_inr {A B} (m : M A) (k : A -> M B) s b s' :
  bind m k s = inr (b, s') ->
  exists a s1, m s = inr (a, s1) ∧ k a s1 = inr (b, s').
Proof.
  unfold bind. destruct (m s) as [e | [a s1]]; [done |]. by exists a, s1.
Qed.

Lemma refresh_inr task_id s t s' :
  refresh task_id s = inr (t, s') ->
  s' = s ∧ query_task_first task_id (work s) = Some t.
Proof.
  unfold refresh, task_object.
  destruct (query_task_first task_id (work s)); [| done].
  by intros [= -> ->].
Qed.

Lemma redis_get_deleted key now (r : gmap string (Z * Json)) :
  Redis.get key now (Redis.delete key r) = None.
Proof. unfold Redis.get, Redis.delete. by rewrite lookup_delete_eq. Qed.

(** X8. An update is seen by the next read.  When [update_task] returns a
    task, a [get_task] of the same id at any later instant is not answered
    from the cache, whatever was cached before the update: it loads the row,
    which is the task the update returned, and caches it; a read that follows
    within the 300 seconds of that entry is answered from the cache with the
    string form of the task. *)
Theorem get_task_after_update
    (w w' : World) (task_id : Z) (d : TaskUpdate) (user_id now now1 now2 : Z)
    (t' : Task.t) :
  TasksApi.update_task task_id d user_id now w = (Returned t', w') ->
  now2 < now1 + seconds 300 ->
  let r1 := TasksApi.get_task task_id now1 w' in
  r1.1 = Returned (Loaded t')
  ∧ db r1.2 = db w'
  ∧ (TasksApi.get_task task_id now2 r1.2).1
    = Returned (Decoded (json_dumps_task t')).
Proof.
  intros Hup Hlt.
  unfold TasksApi.update_task, TaskService.update_task in Hup.
  destruct (query_task_first task_id (db w)) as [t |]; [| done].
  match type of Hup with
  | context [match ?b (begin (db w)) with _ => _ end] =>
      destruct (b (begin (db w))) as [e | [t1 s']] eqn:Hbody
  end; [done |].
  injection Hup as <- <-.
  apply bind_inr in Hbody as (c & s1 & _ & Hbody).
  apply bind_inr in Hbody as (u & s2 & _ & Hbody).
  apply bind_inr in Hbody as (u' & s3 & _ & Hbody).
  apply refresh_inr in Hbody as [-> Hq].
  unfold TasksApi.get_task, TaskService.get_task. cbn [redis db autoflush].
  rewrite redis_get_deleted, Hq. cbn [fst snd redis db autoflush].
  split; [done |]. split; [done |].
  unfold Redis.get, Redis.setex. rewrite lookup_insert_eq.
  by rewrite decide_True by lia.
Qed.

Lemma get_task_after_update_witness :
  let w1 := (TasksApi.get_task 1 25 two_tasks).2 in
  let w' := (TasksApi.update_task 1
               (mkTaskUpdate None None (Some (Some DONE)) None None None None)
               1 30 w1).2 in
  let r1 := TasksApi.get_task 1 40 w' in
  r1.1 = Returned (Loaded (Task.mk 1 (Some "a") None (Some DONE) (Some MEDIUM)
                             None 10 30 1 None))
  ∧ db r1.2 = db w'
  ∧ (TasksApi.get_task 1 50 r1.2).1
    = Returned (Decoded (json_dumps_task
                           (Task.mk 1 (Some "a") None (Some DONE)
                              (Some MEDIUM) None 10 30 1 None))).
Proof.
  intros w1 w'.
  apply (get_task_after_update w1 w' 1
           (mkTaskUpdate None None (Some (Some DONE)) None None None None)
           1 30 40 50).
  - vm_compute. reflexivity.
  - vm_compute. reflexivity.
Defined.


(** ** An update touches the rows of its task only *)

Lemma filter_map_same {A} (P : A -> Prop) `{forall x, Decision (P x)}
    (g : A -> A) (l : list A) :
  (forall x, P (g x) <-> P x) ->
  (forall x, P x -> g x = x) ->
  filter P (map g l) = filter P l.
Proof.
  intros HP Hg. induction l as [| x l IH]; [done |].
  simpl. rewrite !filter_cons.
  destruct (decide (P x)) as [Hx | Hx].
  - rewrite decide_True by (by apply HP). by rewrite IH, Hg.
  - by rewrite decide_False by (by rewrite HP).
Qed.

Lemma filter_snoc_out {A} (P : A -> Prop) `{forall x, Decision (P x)}
    (l : list A) (x : A) :
  ¬ P x -> filter P (l ++ [x]) = filter P l.
Proof.
  intros Hx. by rewrite filter_app, filter_cons_False, filter_nil, app_nil_r.
Qed.

Section frame.
Context (U : Z -> Prop) `{!forall i, Decision (U i)}.
Context (user_id now : Z) (st0 : Store).

Lemma keeps_frame_flush :
  keeps (frame_kept U user_id now st0) may_raise (flush now).
Proof.
  intros s (Hd & Ht & Hrest). apply wp_flush; [done |]. intros table _ _.
  split; [by apply Forall_nil_2 |]. split; [| exact Hrest].
  cbn [work set_tags set_tasks tasks]. rewrite <- Ht.
  apply filter_map_same.
  - intros t. by rewrite onupdate_id.
  - intros t Hu. unfold onupdate. rewrite bool_decide_eq_false_2; [done |].
    intros (c & Hc & Hin)%list_elem_of_fmap.
    rewrite Forall_forall in Hd. apply (Hd c Hin). by rewrite <- Hc.
Qed.

Lemma keeps_frame_assign E task_id f v :
  ¬ U task_id -> keeps (frame_kept U user_id now st0) E (assign task_id f v).
Proof.
  intros Hi s (Hd & Ht & Hrest).
  split; [| split; [| exact Hrest]].
  - cbn [dirty]. apply Forall_app_2; [done |]. by apply Forall_singleton.
  - cbn [work set_tasks tasks]. rewrite <- Ht.
    apply filter_map_same.
    + intros t. destruct (bool_decide _); [by rewrite setattr_id | done].
    + intros t Hu. rewrite bool_decide_eq_false_2; [done |]. by intros <-.
Qed.

Lemma keeps_frame_delete_assignments E task_id :
  ¬ U task_id ->
  keeps (frame_kept U user_id now st0) E
    (modify (set_task_assignments
               (filter (fun a => TaskAssignment.task_id a ≠ task_id)))).
Proof.
  intros Hi s (Hd & Ht & Ha & Hrest).
  split; [done |]. split; [done |]. split; [| exact Hrest].
  cbn [work set_task_assignments task_assignments]. rewrite <- Ha.
  apply list_filter_filter_l. intros a Hu. by intros <-.
Qed.

Lemma keeps_frame_add_assignment E task_id u :
  ¬ U task_id ->
  keeps (frame_kept U user_id now st0) E (add_assignment now task_id u).
Proof.
  intros Hi s (Hd & Ht & Ha & Hrest).
  split; [done |]. split; [done |]. split; [| exact Hrest].
  cbn. rewrite <- Ha. by apply filter_snoc_out.
Qed.

Lemma keeps_frame_tags_clear E task_id :
  ¬ U task_id -> keeps (frame_kept U user_id now st0) E (tags_clear task_id).
Proof.
  intros Hi s (Hd & Ht & Ha & Hg & Hrest).
  split; [done |]. split; [done |]. split; [done |]. split; [| exact Hrest].
  cbn. rewrite <- Hg.
  apply list_filter_filter_l. intros a Hu. by intros <-.
Qed.

Lemma keeps_frame_tags_append E task_id g :
  ¬ U task_id ->
  keeps (frame_kept U user_id now st0) E (tags_append task_id g).
Proof.
  intros Hi s (Hd & Ht & Ha & Hg & Hrest).
  split; [done |]. split; [done |]. split; [done |]. split; [| exact Hrest].
  cbn. rewrite <- Hg. by apply filter_snoc_out.
Qed.

Lemma keeps_frame_add_history E task_id c :
  ¬ U task_id ->
  keeps (frame_kept U user_id now st0) E (add_history now task_id user_id c).
Proof.
  intros Hi s (Hd & Ht & Ha & Hg & Hdep & Hu & rows & Hh & Hrows).
  split; [done |]. repeat (split; [done |]).
  exists (rows ++ [TaskHistory.mk (next_history_id (work s)) task_id user_id
                     c.1.1 c.1.2 c.2 now]).
  split.
  - cbn. by rewrite Hh, app_assoc.
  - apply Forall_app_2; [done |]. by apply Forall_singleton.
Qed.

#[local] Hint Resolve keeps_frame_flush keeps_frame_assign
  keeps_frame_delete_assignments keeps_frame_add_assignment
  keeps_frame_tags_clear keeps_frame_tags_append keeps_frame_add_history
  : keeps.

Lemma keeps_frame_update_fields af task_id items changes :
  ¬ U task_id ->
  keeps (frame_kept U user_id now st0) may_raise
    (TaskService.update_fields af now task_id items changes).
Proof. intros Hi. keeps_update_fields. Qed.

Lemma keeps_frame_bulk_update_loop af bulk_data ts n :
  Forall (fun t => ¬ U (Task.id t)) ts ->
  keeps (frame_kept U user_id now st0) may_raise
    (TaskService.bulk_update_loop af bulk_data user_id now ts n).
Proof.
  intros Hts. revert n.
  induction Hts as [| t ts Ht Hts IH]; intros n; simpl; [apply keeps_ret |].
  apply keeps_bind; [| intros changes; apply IH].
  cbv beta in Ht.
  unfold TaskService.bulk_update_one. cbv zeta. keeps_cases.
Qed.

Lemma frame_kept_begin : frame_kept U user_id now st0 (begin st0).
Proof.
  split; [by apply Forall_nil_2 |]. repeat (split; [done |]).
  exists []. split; [by rewrite app_nil_r | by apply Forall_nil_2].
Qed.

Lemma touches_only_refl : touches_only U user_id now st0 st0.
Proof. apply frame_kept_begin. Qed.

End frame.

#[local] Hint Resolve keeps_frame_flush keeps_frame_assign
  keeps_frame_delete_assignments keeps_frame_add_assignment
  keeps_frame_tags_clear keeps_frame_tags_append keeps_frame_add_history
  : keeps.

(** X9. [update_task] touches the rows of its task only.  Whatever the
    request asks for and however it ends, the rows of every other task (task
    rows with their [updated_at], assignments, tag associations) are as
    before, no dependency edge and no user changes, and the history is the
    old one followed by rows that all name the updated task, the acting user
    and the instant of the request. *)
Theorem update_task_frame
    (w : World) (task_id : Z) (d : TaskUpdate) (user_id now : Z) :
  touches_only (fun i => i ≠ task_id) user_id now (db w)
    (db (TasksApi.update_task task_id d user_id now w).2).
Proof.
  unfold TasksApi.update_task, TaskService.update_task.
  destruct (query_task_first task_id (db w)); [| apply touches_only_refl].
  match goal with
  | |- context [match ?b (begin (db w)) with _ => _ end] =>
      destruct (b (begin (db w))) as [e | [a s']] eqn:Hbody
  end; [apply touches_only_refl |].
  simpl.
  refine (proj2 (keeps_inr (frame_kept _ user_id now (db w)) may_raise
                   _ _ _ _ _ (frame_kept_begin _ _ _ _) Hbody)).
  assert (Hi : ¬ task_id ≠ task_id) by (intros H; by apply H).
  keeps_auto. by apply keeps_frame_update_fields.
Qed.

(** X10. [bulk_update_tasks] touches the rows of the listed tasks only: the
    rows of every task whose id is not in [task_ids] (task rows, assignments,
    tag associations) are as before, no dependency edge and no user changes,
    and every history row it appends names a listed task, the acting user
    and the instant of the request. *)
Theorem bulk_update_tasks_frame
    (w : World) (b : TaskBulkUpdate) (user_id now : Z) :
  touches_only (fun i => i ∉ bu_task_ids b) user_id now (db w)
    (db (TasksApi.bulk_update_tasks b user_id now w).2).
Proof.
  unfold TasksApi.bulk_update_tasks, TaskService.bulk_update_tasks.
  cbv zeta.
  match goal with
  | |- context [match ?b (begin (db w)) with _ => _ end] =>
      destruct (b (begin (db w))) as [e | [a s']] eqn:Hbody
  end; [apply touches_only_refl |].
  simpl.
  refine (proj2 (keeps_inr (frame_kept _ user_id now (db w)) may_raise
                   _ _ _ _ _ (frame_kept_begin _ _ _ _) Hbody)).
  keeps_auto. apply keeps_frame_bulk_update_loop.
  apply Forall_forall. intros t [Ht _]%list_elem_of_filter Hn. by apply Hn.
Qed.


(** ** What [create_task] writes *)

Lemma keeps_assignments_flush X now :
  keeps (table_is task_assignments X) may_raise (flush now).
Proof. intros s Hs. apply wp_flush; [done |]. intros table _ _. exact Hs. Qed.

Lemma keeps_dependencies_flush X now :
  keeps (table_is task_dependencies X) may_raise (flush now).
Proof. intros s Hs. apply wp_flush; [done |]. intros table _ _. exact Hs. Qed.

#[local] Hint Resolve keeps_assignments_flush keeps_dependencies_flush : keeps.

Lemma add_dependencies_rows now task_id ids (Q : unit -> Session -> Prop) E s :
  (forall s' rows,
     task_dependencies (work s') = task_dependencies (work s) ++ rows ->
     map TaskDependency.depends_on_task_id rows = ids ->
     Forall (fun d => TaskDependency.task_id d = task_id) rows ->
     Q tt s') ->
  wp (for_each ids (add_dependency now task_id)) Q E s.
Proof.
  revert s Q. induction ids as [| j ids IH]; intros s Q HQ; simpl.
  - apply wp_ret. apply (HQ s []); [by rewrite app_nil_r | done | done].
  - apply wp_bind. unfold add_dependency at 1. apply wp_modify.
    apply IH. intros s' rows Hrows Hj Ht. simpl in *.
    apply (HQ s' (TaskDependency.mk (next_dependency_id (work s)) task_id j now
                    :: rows)).
    + by rewrite Hrows, <- app_assoc.
    + simpl. by rewrite Hj.
    + by constructor.
Qed.

Lemma find_none {A} (p : A -> bool) (l : list A) :
  (forall x, x ∈ l -> p x = false) -> List.find p l = None.
Proof.
  induction l as [| y l IH]; intros Hl; [done |].
  simpl. rewrite Hl by left. apply IH. intros x Hx. apply Hl. by right.
Qed.

Lemma query_task_first_new (st : Store) (l : list Task.t) (r : Task.t) :
  tasks st = l ++ [r] ->
  (forall t, t ∈ l -> Task.id t ≠ Task.id r) ->
  query_task_first (Task.id r) st = Some r.
Proof.
  intros Ht Hl. unfold query_task_first. rewrite Ht.
  apply find_app_r; [| by apply bool_decide_eq_true_2].
  apply find_none. intros t Hin. apply bool_decide_eq_false_2. by apply Hl.
Qed.

(** X11. What a [create_task] that returns has written.  In a store whose
    task ids are below the sequence, the task returned is the new row: it
    takes the next id, the fields of the request, the caller as creator and
    the instant of the request as both timestamps, and it is appended to the
    task table, whose other rows do not change.  One assignment row per
    requested assignee and one dependency edge per requested dependency id
    are appended for the new task, in request order and without any check
    of the ids; no history row is written. *)
Theorem create_task_result
    (w w' : World) (d : TaskCreate) (creator_id now : Z) (t : Task.t) :
  task_ids_fresh (db w) ->
  TasksApi.create_task d creator_id now w = (Returned t, w') ->
  t = created_task d creator_id now (next_task_id (db w))
  ∧ tasks (db w') = tasks (db w) ++ [t]
  ∧ (exists rows,
       task_assignments (db w') = task_assignments (db w) ++ rows
       ∧ map TaskAssignment.user_id rows = tc_assignee_ids d
       ∧ Forall (fun a => TaskAssignment.task_id a = Task.id t) rows)
  ∧ (exists rows,
       task_dependencies (db w') = task_dependencies (db w) ++ rows
       ∧ map TaskDependency.depends_on_task_id rows = tc_dependency_ids d
       ∧ Forall (fun e => TaskDependency.task_id e = Task.id t) rows)
  ∧ task_history (db w') = task_history (db w).
Proof.
  intros [_ Hlt] Hrun.
  unfold TasksApi.create_task, TaskService.create_task in Hrun.
  cbv zeta in Hrun.
  match type of Hrun with
  | context [match ?b (begin (db w)) with _ => _ end] =>
      destruct (b (begin (db w))) as [e | [t1 s']] eqn:Hbody
  end; [done |].
  injection Hrun as -> <-. cbn [db].
  apply bind_inr in Hbody as (n & s0 & Hgets & Hbody).
  unfold gets in Hgets. injection Hgets as <- <-.
  apply bind_inr in Hbody as (u1 & s1 & Hmod & Hbody).
  unfold modify in Hmod. injection Hmod as _ <-.
  apply bind_inr in Hbody as (u2 & s2 & Hfl & Hbody).
  rewrite flush_clean in Hfl by done. injection Hfl as _ <-.
  cbn [work begin new_tags dirty] in Hbody.
  set (n := next_task_id (db w)) in *.
  set (row := created_task d creator_id now n).
  set (s1 := mkSession _ [] []) in Hbody.
  assert (Hu : untouched (tasks (db w) ++ [row]) (task_history (db w)) s').
  { refine (keeps_inr _ may_raise _ _ _ _ _ _ Hbody); [keeps_auto | done]. }
  destruct Hu as (_ & Htasks & Hhist).
  apply bind_inr in Hbody as (u3 & s3 & HA & Hbody).
  assert (HA3 : exists rows,
             task_assignments (work s3) = task_assignments (db w) ++ rows
             ∧ map TaskAssignment.user_id rows = tc_assignee_ids d
             ∧ Forall (fun a => TaskAssignment.task_id a = n) rows).
  { refine (wp_inr _
              (fun _ s => exists rows,
                 task_assignments (work s) = task_assignments (db w) ++ rows
                 ∧ map TaskAssignment.user_id rows = tc_assignee_ids d
                 ∧ Forall (fun a => TaskAssignment.task_id a = n) rows)
              may_raise _ _ _ _ HA).
    apply add_assignments_rows. intros s rows ? ? ? _ _. by exists rows. }
  assert (HD3 : table_is task_dependencies (task_dependencies (db w)) s3).
  { refine (keeps_inr _ may_raise _ _ _ _ _ _ HA); [keeps_auto | done]. }
  assert (HA' : table_is task_assignments (task_assignments (work s3)) s').
  { refine (keeps_inr _ may_raise _ _ _ _ _ _ Hbody); [keeps_auto | done]. }
  apply bind_inr in Hbody as (u4 & s4 & HT & Hbody).
  assert (HD4 : table_is task_dependencies (task_dependencies (db w)) s4).
  { refine (keeps_inr _ may_raise _ _ _ _ _ HD3 HT). keeps_auto. }
  apply bind_inr in Hbody as (u5 & s5 & HD & Hbody).
  assert (HD5 : exists rows,
             task_dependencies (work s5) = task_dependencies (db w) ++ rows
             ∧ map TaskDependency.depends_on_task_id rows = tc_dependency_ids d
             ∧ Forall (fun e => TaskDependency.task_id e = n) rows).
  { refine (wp_inr _
              (fun _ s => exists rows,
                 task_dependencies (work s) = task_dependencies (db w) ++ rows
                 ∧ map TaskDependency.depends_on_task_id rows
                   = tc_dependency_ids d
                 ∧ Forall (fun e => TaskDependency.task_id e = n) rows)
              may_raise _ _ _ _ HD).
    apply add_dependencies_rows. intros s rows Hrows ? ?. exists rows.
    by rewrite Hrows, HD4. }
  assert (HD' : table_is task_dependencies (task_dependencies (work s5)) s').
  { refine (keeps_inr _ may_raise _ _ _ _ _ _ Hbody); [keeps_auto | done]. }
  apply bind_inr in Hbody as (u6 & s6 & _ & Hbody).
  apply refresh_inr in Hbody as [Heq Hq]. subst s6.
  assert (Ht : t = row).
  { pose proof (query_task_first_new (work s') (tasks (db w)) row Htasks)
      as Hnew.
    change (Task.id row) with n in Hnew.
    rewrite Hnew in Hq; [congruence |].
    intros t0 Ht0.
    assert (Task.id t0 < n); [| lia].
    apply Hlt. by apply (list_elem_of_fmap_2 Task.id). }
  subst t. split; [done |]. split; [done |].
  unfold table_is in HA', HD'. rewrite HA', HD'.
  split; [exact HA3 |]. split; [exact HD5 | exact Hhist].
Qed.

Lemma create_task_result_witness :
  let d := mkTaskCreate "c" None TODO HIGH (Some 99) (Some 1) [7; 8]
             ["red"] [2; 5] in
  let r := TasksApi.create_task d 7 30 two_tasks in
  exists t,
    r.1 = Returned t
    ∧ t = created_task d 7 30 (next_task_id (db two_tasks))
    ∧ tasks (db r.2) = tasks (db two_tasks) ++ [t]
    ∧ (exists rows,
         task_assignments (db r.2) = task_assignments (db two_tasks) ++ rows
         ∧ map TaskAssignment.user_id rows = tc_assignee_ids d
         ∧ Forall (fun a => TaskAssignment.task_id a = Task.id t) rows)
    ∧ (exists rows,
         task_dependencies (db r.2) = task_dependencies (db two_tasks) ++ rows
         ∧ map TaskDependency.depends_on_task_id rows = tc_dependency_ids d
         ∧ Forall (fun e => TaskDependency.task_id e = Task.id t) rows)
    ∧ task_history (db r.2) = task_history (db two_tasks).
Proof.
  intros d r. exists (created_task d 7 30 3). split; [reflexivity |].
  apply (create_task_result two_tasks r.2 d 7 30).
  - split.
    + apply (bool_decide_unpack _). vm_compute. exact I.
    + intros i Hi. vm_compute in Hi.
      apply elem_of_cons in Hi as [-> | Hi]; [reflexivity |].
      apply elem_of_cons in Hi as [-> | Hi]; [reflexivity |].
      by apply elem_of_nil in Hi.
  - vm_compute. reflexivity.
Defined.


(** ** What a bulk update does to the task rows *)

Lemma onupdate_touch now ids t :
  Task.id t ∈ ids -> onupdate now ids t = touch now t.
Proof. intros Hin. unfold onupdate. by rewrite bool_decide_eq_true_2. Qed.

Lemma onupdate_out now ids t : Task.id t ∉ ids -> onupdate now ids t = t.
Proof. intros Hin. unfold onupdate. by rewrite bool_decide_eq_false_2. Qed.

Lemma touch_setattr_onupdate now ids t f v :
  touch now (setattr (onupdate now ids t) f v) = touch now (setattr t f v).
Proof. unfold onupdate. destruct (bool_decide _); by destruct f, v. Qed.

Lemma effective_assign now task_id f v s :
  effective now
    (mkSession
       (set_tasks
          (map (fun t => if bool_decide (Task.id t = task_id)
                         then setattr t f v else t))
          (work s))
       (new_tags s) (dirty s ++ [(task_id, field_name f)]))
  = map (assign_row now task_id f v) (effective now s).
Proof.
  unfold effective. cbn [work dirty set_tasks tasks].
  rewrite !map_map. apply map_ext. intros t.
  unfold assign_row. rewrite onupdate_id, map_app. cbn [map fst].
  destruct (decide (Task.id t = task_id)) as [Hi | Hi].
  - rewrite !bool_decide_eq_true_2 by done.
    rewrite onupdate_touch, touch_setattr_onupdate; [done |].
    rewrite setattr_id. apply elem_of_app. right.
    by apply list_elem_of_singleton.
  - rewrite !bool_decide_eq_false_2 by done.
    unfold onupdate. apply (f_equal (fun c : bool => if c then _ else _)).
    apply bool_decide_ext. rewrite elem_of_app, list_elem_of_singleton. tauto.
Qed.

Lemma keeps_effective_flush now E :
  keeps (effective_is now E) may_raise (flush now).
Proof.
  intros s Hs. apply wp_flush; [done |]. intros table _ _.
  unfold effective_is, effective in *. cbn [work dirty set_tags set_tasks tasks].
  cbn [map]. by rewrite map_onupdate_nil.
Qed.

#[local] Hint Resolve keeps_effective_flush : keeps.

(** A computation that assigns no column leaves the rows a flush gives. *)
Lemma wp_effective_kept {A} (m : M A) now
    (Q : A -> Session -> Prop) s :
  keeps (effective_is now (effective now s)) may_raise m ->
  (forall a s', effective now s' = effective now s -> Q a s') ->
  wp m Q may_raise s.
Proof.
  intros Hm HQ. refine (wp_mono _ _ _ _ _ _ (Hm s eq_refl) _ _); [| done].
  intros a s' Hs'. by apply HQ.
Qed.

Lemma wp_assign task_id f v (Q : unit -> Session -> Prop) E s :
  Q tt (mkSession
          (set_tasks
             (map (fun t => if bool_decide (Task.id t = task_id)
                            then setattr t f v else t))
             (work s))
          (new_tags s) (dirty s ++ [(task_id, field_name f)])) ->
  wp (assign task_id f v) Q E s.
Proof. intros H. exact H. Qed.

Lemma wp_bulk_update_one_rows af (b : TaskBulkUpdate) user_id now t s :
  wp (TaskService.bulk_update_one af b user_id now t)
     (fun _ s' => effective now s' = map (bulk_step b now t) (effective now s))
     may_raise s.
Proof.
  unfold TaskService.bulk_update_one. cbv zeta.
  set (E1 := map (fun e =>
                    match bu_status b with
                    | Some st =>
                        if bool_decide (Task.status t ≠ Some st)
                        then assign_row now (Task.id t) F_status (PStatus st) e
                        else e
                    | None => e
                    end) (effective now s)).
  apply wp_bind.
  assert (Hst : forall Q : list (string * Text * Text) -> Session -> Prop,
            (forall c s1, effective now s1 = E1 -> Q c s1) ->
            wp (match bu_status b with
                | Some st =>
                    if bool_decide (Task.status t ≠ Some st)
                    then assign (Task.id t) F_status (PStatus st);;
                         ret [("status",
                               Str (of_option PStatus (Task.status t)),
                               Str (PStatus st))]
                    else ret []
                | None => ret []
                end) Q may_raise s).
  { intros Q HQ. subst E1.
    destruct (bu_status b) as [st |];
      [destruct (bool_decide (Task.status t ≠ Some st)) |].
    - apply wp_bind, wp_assign, wp_ret. apply HQ. apply effective_assign.
    - apply wp_ret. apply HQ. by rewrite map_id.
    - apply wp_ret. apply HQ. by rewrite map_id. }
  apply Hst. clear Hst. intros c1 s1 H1.
  apply wp_bind.
  assert (Hpr : forall Q : list (string * Text * Text) -> Session -> Prop,
            (forall c s2,
               effective now s2 = map (bulk_step b now t) (effective now s) ->
               Q c s2) ->
            wp (match bu_priority b with
                | Some p =>
                    if bool_decide (Task.priority t ≠ Some p)
                    then assign (Task.id t) F_priority (PPriority p);;
                         ret [("priority",
                               Str (of_option PPriority (Task.priority t)),
                               Str (PPriority p))]
                    else ret []
                | None => ret []
                end) Q may_raise s1).
  { intros Q HQ.
    assert (HE : map (bulk_step b now t) (effective now s)
                 = map (fun e =>
                          match bu_priority b with
                          | Some p =>
                              if bool_decide (Task.priority t ≠ Some p)
                              then assign_row now (Task.id t) F_priority
                                     (PPriority p) e
                              else e
                          | None => e
                          end) E1).
    { subst E1. rewrite map_map. apply map_ext. intros e. reflexivity. }
    rewrite HE in HQ.
    destruct (bu_priority b) as [p |];
      [destruct (bool_decide (Task.priority t ≠ Some p)) |].
    - apply wp_bind, wp_assign, wp_ret. apply HQ.
      by rewrite effective_assign, H1.
    - apply wp_ret. apply HQ. by rewrite map_id.
    - apply wp_ret. apply HQ. by rewrite map_id. }
  apply Hpr. clear Hpr. intros c2 s2 H2.
  rewrite <- H2. apply (wp_effective_kept _ now); [keeps_cases | done].
Qed.

Lemma wp_bulk_update_loop_rows af (b : TaskBulkUpdate) user_id now ts n s :
  wp (TaskService.bulk_update_loop af b user_id now ts n)
     (fun _ s' =>
        effective now s'
        = map (fun e => foldl (fun e t => bulk_step b now t e) e ts)
            (effective now s))
     may_raise s.
Proof.
  revert n s. induction ts as [| t ts IH]; intros n s; simpl.
  - apply wp_ret. by rewrite map_id.
  - apply wp_bind.
    refine (wp_mono _ _ _ _ _ _ (wp_bulk_update_one_rows _ _ _ _ _ _) _ _);
      [| done].
    intros c s1 H1.
    refine (wp_mono _ _ _ _ _ _ (IH _ s1) _ _); [| done].
    intros n' s' Hs'. cbv beta in Hs'. by rewrite Hs', H1, map_map.
Qed.


Lemma bulk_step_id b now t e : Task.id (bulk_step b now t e) = Task.id e.
Proof.
  unfold bulk_step, assign_row.
  destruct (bu_status b), (bu_priority b);
    repeat (destruct (bool_decide _)); simpl; by rewrite ?setattr_id.
Qed.

Lemma bulk_step_other b now t e :
  Task.id t ≠ Task.id e -> bulk_step b now t e = e.
Proof.
  intros Hne. unfold bulk_step.
  assert (H1 : forall f v, assign_row now (Task.id t) f v e = e).
  { intros f v. unfold assign_row. by rewrite bool_decide_eq_false_2. }
  destruct (bu_status b), (bu_priority b);
    repeat (destruct (bool_decide _)); by rewrite ?H1.
Qed.

Lemma foldl_bulk_step_others b now ts e :
  (forall t, t ∈ ts -> Task.id t ≠ Task.id e) ->
  foldl (fun e t => bulk_step b now t e) e ts = e.
Proof.
  induction ts as [| t ts IH]; intros Hts; [done |].
  simpl. rewrite bulk_step_other by (apply Hts; left).
  apply IH. intros t' Ht'. apply Hts. by right.
Qed.

Lemma foldl_bulk_step b now ts e :
  NoDup (map Task.id ts) ->
  (forall t, t ∈ ts -> Task.id t = Task.id e -> t = e) ->
  foldl (fun e t => bulk_step b now t e) e ts
  = if decide (Task.id e ∈ map Task.id ts) then bulk_step b now e e else e.
Proof.
  induction ts as [| t ts IH]; intros Hnd Hts.
  - cbn [map foldl]. rewrite decide_False; [done | apply not_elem_of_nil].
  - cbn [map foldl] in *. apply NoDup_cons in Hnd as [Ht Hnd].
    destruct (decide (Task.id t = Task.id e)) as [Heq | Hne].
    + assert (t = e) as -> by (apply Hts; [left | done]).
      rewrite decide_True by left.
      apply foldl_bulk_step_others. intros t' Ht'.
      rewrite bulk_step_id. intros Hid. apply Ht. rewrite <- Hid.
      by apply list_elem_of_fmap_2.
    + rewrite bulk_step_other by done.
      rewrite IH; [| done | intros t' Ht'; apply Hts; by right].
      destruct (decide (Task.id e ∈ map Task.id ts)) as [Hin | Hout].
      * rewrite decide_True; [done | by right].
      * rewrite decide_False; [done |].
        intros [Heq | Hin]%elem_of_cons; [by apply Hne | by apply Hout].
Qed.

Lemma bulk_step_updated b now e : bulk_updated b now e (bulk_step b now e e).
Proof.
  unfold bulk_updated, bulk_step, assign_row.
  destruct e as [i ti de st pr du cr up ci pa]. cbn [Task.id].
  destruct (bu_status b) as [st' |], (bu_priority b) as [pr' |];
    cbn [Task.status Task.priority];
    repeat case_bool_decide; cbn;
    repeat (split; [reflexivity |]);
    repeat match goal with
      | |- context [decide ?P] => destruct (decide P)
      | H : ¬ (_ ≠ _) |- _ => apply dec_stable in H
      end;
    try reflexivity; try congruence; try tauto;
    intuition congruence.
Qed.

Lemma bulk_update_body_returns (b : TaskBulkUpdate) user_id now (st : Store)
    af :
  exists n s',
    (let* updated_count :=
       TaskService.bulk_update_loop af b user_id now (matched b st) 0 in
     commit now;;
     ret updated_count) (begin st) = inr (n, s').
Proof.
  assert (Hwp : wp (let* updated_count :=
                      TaskService.bulk_update_loop af b user_id now
                        (matched b st) 0 in
                    commit now;;
                    ret updated_count)
                  (fun _ _ => True) no_raise (begin st)).
  { assert (H0 : flushable (begin st)).
    { split; [done |]. intros i. apply not_elem_of_nil. }
    apply wp_bind. eapply wp_mono; [by apply wp_bulk_update_loop | | done].
    intros n' s1 Hdone. simpl. apply wp_bind. unfold commit.
    apply wp_flush_flushable; [apply Hdone |].
    intros s2 _ _. by apply wp_ret. }
  unfold wp in Hwp.
  match type of Hwp with
  | match ?m with _ => _ end => destruct m as [e | [n s']]
  end; [done |].
  by exists n, s'.
Qed.

(** X12. What a bulk update does to the task rows (task ids distinct).  The
    update returns, and row by row: a task that is not listed is untouched; a
    listed task takes the requested status and priority and keeps every other
    column, and its [updated_at] is set to the instant of the request exactly
    when its status or its priority changes, so replacing the assignees
    alone, though it is recorded in the history, does not refresh it. *)
Theorem bulk_update_tasks_rows
    (w : World) (b : TaskBulkUpdate) (user_id now : Z) :
  NoDup (task_ids (db w)) ->
  let r := TasksApi.bulk_update_tasks b user_id now w in
  (exists n, r.1 = Returned n)
  ∧ Forall2 (fun t t' => if decide (Task.id t ∈ bu_task_ids b)
                         then bulk_updated b now t t' else t' = t)
      (tasks (db w)) (tasks (db r.2)).
Proof.
  intros Hnd r. subst r.
  unfold TasksApi.bulk_update_tasks, TaskService.bulk_update_tasks.
  cbv zeta. fold (matched b (db w)).
  destruct (bulk_update_body_returns b user_id now (db w) (autoflush w))
    as (n & s' & Hbody).
  rewrite Hbody. cbn [fst snd db]. split; [by exists n |].
  apply bind_inr in Hbody as (n1 & s1 & Hloop & Hbody).
  apply bind_inr in Hbody as (u & s2 & Hcommit & Hret).
  unfold ret in Hret. injection Hret as _ <-.
  pose proof (wp_inr _ _ _ _ _ _
                (wp_bulk_update_loop_rows (autoflush w) b user_id now
                   (matched b (db w)) 0 (begin (db w))) Hloop) as Hrows.
  cbv beta in Hrows.
  unfold commit in Hcommit.
  apply flush_inr in Hcommit as (table & _ & ->).
  cbn [work set_tags set_tasks tasks].
  fold (effective now s1). rewrite Hrows.
  unfold effective at 1. cbn [begin work dirty map]. rewrite map_onupdate_nil.
  apply Forall2_fmap_r, Forall_Forall2_diag, Forall_forall.
  intros e He. unfold compose.
  rewrite foldl_bulk_step.
  - assert (Hin : Task.id e ∈ map Task.id (matched b (db w))
                  <-> Task.id e ∈ bu_task_ids b).
    { split.
      - intros (t & -> & [Ht _]%list_elem_of_filter)%list_elem_of_fmap.
        exact Ht.
      - intros Hid. apply list_elem_of_fmap. exists e. split; [done |].
        by apply list_elem_of_filter. }
    destruct (decide (Task.id e ∈ bu_task_ids b)) as [Hl | Hl].
    + rewrite decide_True by (by apply Hin). apply bulk_step_updated.
    + by rewrite decide_False by (by rewrite Hin).
  - eapply sublist_NoDup; [exact Hnd |].
    apply (fmap_sublist Task.id). apply sublist_filter.
  - intros t [_ Ht]%list_elem_of_filter Hid.
    by apply (NoDup_key_inj Task.id (tasks (db w))).
Qed.

Lemma bulk_update_tasks_rows_witness :
  let b := mkTaskBulkUpdate [2; 99] (Some TODO) (Some HIGH) (Some [5]) in
  let r := TasksApi.bulk_update_tasks b 7 30 two_tasks in
  (exists n, r.1 = Returned n)
  ∧ Forall2 (fun t t' => if decide (Task.id t ∈ bu_task_ids b)
                         then bulk_updated b 30 t t' else t' = t)
      (tasks (db two_tasks)) (tasks (db r.2)).
Proof.
  intros b r. apply (bulk_update_tasks_rows two_tasks b 7 30).
  apply (bool_decide_unpack _). vm_compute. exact I.
Defined.


(** ** When [create_task] returns *)

Lemma insert_tags_NoDup (pending table : list Tag.t) :
  NoDup (map Tag.name (table ++ pending)) ->
  insert_tags pending table = Some (table ++ pending).
Proof.
  revert table. induction pending as [| g pending IH]; intros table Hnd.
  - by rewrite app_nil_r.
  - simpl. rewrite bool_decide_eq_false_2.
    + rewrite IH; rewrite <- app_assoc; done.
    + rewrite map_app in Hnd. apply NoDup_app in Hnd as (_ & Hdis & _).
      intros Hin. apply (Hdis _ Hin). simpl. left.
Qed.

Lemma wp_flush_insertable now (Q : unit -> Session -> Prop) E s :
  tags_insertable s ->
  (forall s',
     tags_insertable s' -> new_tags s' = [] ->
     tasks (work s') = tasks (work s) ->
     Q tt s') ->
  wp (flush now) Q E s.
Proof.
  intros [Hd Hnd] HQ. unfold wp, flush.
  rewrite title_null_pending_false
    by (intros i; rewrite Hd; apply not_elem_of_nil).
  rewrite (insert_tags_NoDup _ _ Hnd). apply HQ.
  - split; [done |]. cbn. by rewrite app_nil_r.
  - done.
  - cbn. rewrite Hd. cbn. apply map_onupdate_nil.
Qed.

Lemma find_tag_none (name : string) (table : list Tag.t) :
  List.find (fun g => bool_decide (Tag.name g = name)) table = None ->
  name ∉ map Tag.name table.
Proof.
  induction table as [| g table IH]; simpl; [intros _; apply not_elem_of_nil |].
  case_bool_decide as Hg; [done |]. intros Hf.
  apply not_elem_of_cons. split; [congruence | by apply IH].
Qed.

(** The loop over [tag_names] cannot fail when the session flushes before
    each lookup, or when the names are distinct. *)
Lemma wp_attach_tags af now task_id names (Q : unit -> Session -> Prop) E s :
  tags_insertable s ->
  af = true
  ∨ (NoDup names ∧ forall g, g ∈ new_tags s -> Tag.name g ∉ names) ->
  (forall s', tags_insertable s' -> tasks (work s') = tasks (work s) ->
              Q tt s') ->
  wp (for_each names (attach_tag af now task_id)) Q E s.
Proof.
  revert s Q. induction names as [| name names IH]; intros s Q Hs Hcase HQ.
  - apply wp_ret. by apply HQ.
  - cbn [for_each]. apply wp_bind. unfold attach_tag at 1.
    apply wp_bind. unfold query_tag_first. apply wp_bind.
    assert (Hq : forall s1,
              tags_insertable s1 -> tasks (work s1) = tasks (work s) ->
              af = true ∧ new_tags s1 = []
              ∨ (NoDup (name :: names)
                 ∧ forall g, g ∈ new_tags s1 -> Tag.name g ∉ name :: names) ->
              wp (gets (fun st =>
                          List.find
                            (fun g => bool_decide (Tag.name g = name))
                            (tags st)))
                 (fun found =>
                    wp (let* tag := match found with
                                    | Some g => ret g
                                    | None => add_tag name
                                    end in
                        tags_append task_id tag)
                       (fun _ =>
                          wp (for_each names (attach_tag af now task_id)) Q E)
                       E)
                 E s1).
    { intros s1 [Hd1 Hnd1] Ht1 Hc1. apply wp_gets.
      destruct (List.find _ (tags (work s1))) as [g |] eqn:Hfind.
      - apply wp_bind, wp_ret. unfold tags_append. apply wp_modify.
        apply IH.
        + by split.
        + destruct Hc1 as [[-> _] | [Hnd Hnew]]; [by left | right].
          apply NoDup_cons in Hnd as [_ Hnd]. split; [done |].
          intros g' Hg' Hin. apply (Hnew g' Hg'). by right.
        + intros s' Hs' Ht'. apply HQ; [done |]. by rewrite Ht'.
      - apply find_tag_none in Hfind.
        apply wp_bind. unfold wp at 1, add_tag.
        unfold tags_append. apply wp_modify. apply IH.
        + split; [done |]. cbn. rewrite app_assoc, map_app. cbn.
          apply NoDup_app. split; [done |]. split; [| apply NoDup_singleton].
          intros x Hx ->%list_elem_of_singleton.
          rewrite map_app in Hx. apply elem_of_app in Hx as [Hx | Hx];
            [done |].
          destruct Hc1 as [[_ Hnil] | [_ Hnew]].
          * rewrite Hnil in Hx. by apply elem_of_nil in Hx.
          * apply list_elem_of_fmap in Hx as (g' & Hname & Hg').
            apply (Hnew g' Hg'). rewrite <- Hname. left.
        + destruct Hc1 as [[-> _] | [Hnd Hnew]]; [by left | right].
          apply NoDup_cons in Hnd as [Hname Hnd]. split; [done |].
          cbn. intros g' [Hg' | ->%list_elem_of_singleton]%elem_of_app.
          * intros Hin. apply (Hnew g' Hg'). by right.
          * done.
        + intros s' Hs' Ht'. apply HQ; [done |]. by rewrite Ht'. }
    unfold before_query. destruct af.
    + apply wp_flush_insertable; [done |]. intros s1 Hs1 Hn1 Ht1.
      apply Hq; [done | done | by left].
    + apply wp_ret. apply Hq; [done | done |].
      destruct Hcase as [? | Hc]; [done | by right].
Qed.

(** X13. [create_task] returns, in a store whose tag names are unique,
    whenever the session flushes before its queries or the request names no
    tag twice: no step of it can fail then, neither the insert of a tag nor
    the final refresh. *)
Theorem create_task_returns
    (w : World) (d : TaskCreate) (creator_id now : Z) :
  tag_names_unique (db w) ->
  autoflush w = true ∨ NoDup (tc_tag_names d) ->
  exists t w', TasksApi.create_task d creator_id now w = (Returned t, w').
Proof.
  intros Hu Hcase.
  unfold TasksApi.create_task, TaskService.create_task. cbv zeta.
  match goal with
  | |- context [match ?b (begin (db w)) with _ => _ end] =>
      assert (Hwp : wp b (fun _ _ => True) no_raise (begin (db w)))
  end.
  { apply wp_bind, wp_gets. cbn [work begin]. apply wp_bind, wp_modify.
    cbn [work begin new_tags dirty].
    set (n := next_task_id (db w)).
    set (s1 := mkSession _ _ _).
    assert (Hrow : has_row n s1).
    { unfold has_row, query_task_first. cbn.
      clear. induction (tasks (db w)) as [| t l IH]; cbn.
      - by rewrite bool_decide_eq_true_2.
      - by destruct (bool_decide _). }
    assert (Hs1 : tags_insertable s1).
    { split; [done |]. cbn. by rewrite app_nil_r. }
    assert (Hkeep : forall s, tasks (work s) = tasks (work s1) -> has_row n s).
    { intros s Hs. unfold has_row, query_task_first in *. by rewrite Hs. }
    apply wp_bind, wp_flush_insertable; [done |]. intros s2 Hs2 Hn2 Ht2.
    apply wp_bind.
    apply (wp_for_each _ _
             (fun s => tags_insertable s ∧ new_tags s = []
                       ∧ tasks (work s) = tasks (work s1)));
      [done | intros u s _ [? [? ?]]; by apply wp_modify |].
    intros s3 (Hs3 & Hn3 & Ht3). apply wp_bind.
    apply wp_attach_tags; [done | |].
    { destruct Hcase as [-> | Hnd]; [by left | right].
      split; [done |]. intros g Hg. rewrite Hn3 in Hg.
      by apply elem_of_nil in Hg. }
    intros s4 Hs4 Ht4. apply wp_bind.
    apply (wp_for_each _ _
             (fun s => tags_insertable s
                       ∧ tasks (work s) = tasks (work s1)));
      [by rewrite Ht4 | intros j s _ [? ?]; by apply wp_modify |].
    intros s5 (Hs5 & Ht5). apply wp_bind. unfold commit.
    apply wp_flush_insertable; [done |]. intros s6 Hs6 Hn6 Ht6.
    unfold wp, refresh, task_object.
    destruct (Hkeep s6) as [t Ht]; [by rewrite Ht6 |]. by rewrite Ht. }
  unfold wp in Hwp.
  match goal with
  | |- context [match ?b (begin (db w)) with _ => _ end] =>
      destruct (b (begin (db w))) as [e | [t s']]
  end; [done |].
  by eexists _, _.
Qed.

Lemma create_task_returns_witness :
  exists t w',
    TasksApi.create_task
      (mkTaskCreate "a" None TODO MEDIUM None None [7] ["red"; "blue"] [5])
      1 10 (empty_world false)
    = (Returned t, w').
Proof.
  apply create_task_returns.
  - apply (bool_decide_unpack _). vm_compute. exact I.
  - right. apply (bool_decide_unpack _). vm_compute. exact I.
Defined.
